(** * dbus-anenji: the acquisition-and-translation cycle

    A shallow embedding of the Modbus pollers of the repository
    (dbus-multiplus-emulator.py, celmaibun.py, multiplus.py, inverter.py,
    service.py): the working-mode tables, the register acquisition with its
    exceptions, the D-Bus publication, and the persisted energy counters.

    Conventions.
    - A Python [int] is a [Z]; a Python [float] is idealised as an exact
      rational [Q] (no rounding).  Every comparison of the sources is against
      a constant that the scaled register values reach exactly, so the
      branches taken are those of the running program.
    - A Python exception is the [Raise] branch of [result]; [try/except] is
      a match on it.  Mutations made before a raise stay made.
    - The serial device, the wall clock and the outcome of a disk write are
      inputs of a tick. *)

From Stdlib Require Import ZArith QArith String List Lia.
From stdpp Require Import base gmap strings pretty.

Local Open Scope string_scope.
Local Open Scope Z_scope.

(** ** Python values, exceptions, floats *)

Module Py.

Inductive exn :=
| ModbusError        (* minimalmodbus / serial: timeout, CRC, port busy *)
| OSError            (* open() failed *)
| JSONDecodeError
| TypeError
| OverflowError
| ZeroDivisionError.

Inductive result (A : Type) :=
| Ok (a : A)
| Raise (e : exn).
Arguments Ok {A} a.
Arguments Raise {A} e.

Definition bind {A B} (c : result A) (k : A -> result B) : result B :=
  match c with
  | Ok a => k a
  | Raise e => Raise e
  end.

(** [try: c except Exception: h] *)
Definition try_except {A} (c : result A) (h : exn -> result A) : result A :=
  match c with
  | Ok a => Ok a
  | Raise e => h e
  end.

Definition is_ok {A} (c : result A) : bool :=
  match c with Ok _ => true | Raise _ => false end.

(** The values handed to the D-Bus service. *)
Inductive value :=
| VNone
| VInt (z : Z)
| VFloat (q : Q)
| VStr (s : string).

Definition Qltb (x y : Q) : bool := negb (Qle_bool y x).
Definition Qnonzero (x : Q) : bool := negb (Qeq_bool x 0).

(** [a / b] on floats: raises on a zero divisor. *)
Definition truediv (a b : Q) : result Q :=
  if Qeq_bool b 0 then Raise ZeroDivisionError else Ok (a / b)%Q.

(** [int(x)] of a float truncates towards zero. *)
Definition int_of_float (x : Q) : Z := Z.quot (Qnum x) (Z.pos (Qden x)).

(** [float(n)] of an int: an int at or beyond the rounding boundary of the
    largest double raises OverflowError. *)
Definition float_of_int (n : Z) : result Q :=
  if Z.abs n <? 2 ^ 1024 - 2 ^ 970 then Ok (inject_Z n) else Raise OverflowError.

End Py.
Export Py.

Declare Scope py_scope.
Delimit Scope py_scope with py.
Notation "x <- c ;; k" := (bind c (fun x => k))
  (at level 100, c at next level, right associativity) : py_scope.

(** ** The Modbus link *)

(** What the serial link answers during one poll: whether the instrument can
    be created, and the outcome of each register transaction ([None] is a
    timeout or a framing error, raised by minimalmodbus). *)
Record device := {
  dev_open : bool;
  dev_register : Z -> bool -> option Z;          (* address, signed *)
  dev_registers : Z -> Z -> option (list Z);     (* address, count *)
}.

Module Modbus.

Definition mk_instrument (d : device) : result device :=
  if dev_open d then Ok d else Raise ModbusError.

(** [r16]: the 20 ms pause has no effect on the value read. *)
Definition r16 (inv : device) (reg : Z) (signed : bool) : result Z :=
  match dev_register inv reg signed with
  | Some v => Ok v
  | None => Raise ModbusError
  end.

Definition read_registers (inv : device) (addr count : Z) : result (list Z) :=
  match dev_registers inv addr count with
  | Some ws => Ok ws
  | None => Raise ModbusError
  end.

Definition r32 (inv : device) (addr : Z) : result Z :=
  (hi <- r16 inv addr false ;;
   lo <- r16 inv (addr + 1) false ;;
   Ok (Z.lor (Z.shiftl hi 16) lo))%py.

(** [b.rstrip(b"\x00")] *)
Fixpoint rstrip_nul (b : list Z) : list Z :=
  match b with
  | [] => []
  | x :: r =>
      match rstrip_nul r with
      | [] => if x =? 0 then [] else [x]
      | r' => x :: r'
      end
  end.

Section Ascii.
(** [bytes.decode(errors="ignore")] is Python's codec; it is taken as
    given. *)
Variable decode_ignore : list Z -> string.

Definition read_ascii (inv : device) (addr count : Z) : result string :=
  (words <- (if 6 <? count
             then (a <- read_registers inv addr 6 ;;
                   b <- read_registers inv (addr + 6) (count - 6) ;;
                   Ok (app a b))
             else read_registers inv addr count) ;;
   let b := flat_map (fun w => [Z.land (Z.shiftr w 8) 255; Z.land w 255]) words in
   Ok (decode_ignore (rstrip_nul b)))%py.
End Ascii.

End Modbus.
Export Modbus.

(** ** The D-Bus service object *)

Module VeDbus.

(** [s[p] = v] for each pair of a block of assignments, first to last. *)
Definition set_values (l : list (string * value)) (m : gmap string value)
  : gmap string value :=
  fold_left (fun acc pv => <[fst pv := snd pv]> acc) l m.

(** The value the block leaves on a path, if it assigns to it. *)
Fixpoint assigned (p : string) (l : list (string * value)) : option value :=
  match l with
  | [] => None
  | (q, v) :: r =>
      match assigned p r with
      | Some w => Some w
      | None => if String.eqb p q then Some v else None
      end
  end.

End VeDbus.
Export VeDbus.

(** ** Working modes (register 201) and the published enumerations *)

Module WorkingMode.
Definition PowerOn  : Z := 0.
Definition Standby  : Z := 1.
Definition Mains    : Z := 2.
Definition OffGrid  : Z := 3.
Definition Bypass   : Z := 4.
Definition Charging : Z := 5.
Definition Fault    : Z := 6.
End WorkingMode.

(** [x in (a, b, ...)] on ints *)
Definition in_tuple (x : Z) (t : list Z) : bool := existsb (Z.eqb x) t.

(** The tables as the specification words them.  [member] decides
    membership in a set of working modes. *)
Module Spec.
Import WorkingMode.

Definition member (wm : Z) (s : list Z) : bool :=
  if In_dec Z.eq_dec wm s then true else false.

(* /Mode of the VE.Bus schema *)
Definition ChargerOnly : Z := 1.
Definition On : Z := 3.
Definition Off : Z := 4.
(* /State *)
Definition LowPower : Z := 1.
Definition Bulk : Z := 3.
Definition Inverting : Z := 9.
(* the inverter schema: /Mode 1=On, 4=Off; /State 1=Standby, 9=Inverting *)
Definition InverterOn : Z := 1.
Definition InverterOff : Z := 4.
Definition InverterStandby : Z := 1.

(** Combined role, as worded: ChargerOnly for Charging, On for
    {OffGrid, Mains, Bypass}, Off otherwise. *)
Definition vebus_mode (wm : Z) : Z :=
  if member wm [Charging] then ChargerOnly
  else if member wm [OffGrid; Mains; Bypass] then On
  else Off.

(** Combined role, as worded: Charging -> Bulk, OffGrid -> Inverting,
    {Mains, Bypass} -> Bulk, else LowPower. *)
Definition vebus_state (wm : Z) : Z :=
  if member wm [Charging] then Bulk
  else if member wm [OffGrid] then Inverting
  else if member wm [Mains; Bypass] then Bulk
  else LowPower.

(** Inverter role, as worded. *)
Definition inverter_mode (wm : Z) : Z :=
  if member wm [OffGrid; Mains; Bypass; Charging] then InverterOn
  else InverterOff.

Definition inverter_state (wm : Z) : Z :=
  if member wm [Standby; PowerOn; Fault] then InverterStandby
  else if member wm [OffGrid; Mains; Bypass; Charging] then Inverting
  else InverterStandby.

(** The two tables the other variants implement instead: the mode table
    of the MultiPlus emulators (On only when off-grid, ChargerOnly whenever
    the grid feeds the unit) and the simplified state table of
    multiplus.py (no Bulk). *)
Definition vebus_mode_emulators (wm : Z) : Z :=
  if member wm [OffGrid] then On
  else if member wm [Mains; Bypass; Charging] then ChargerOnly
  else Off.

Definition vebus_state_simplified (wm : Z) : Z :=
  if member wm [OffGrid; Mains; Bypass; Charging] then Inverting
  else LowPower.
End Spec.

(** ** The persisted energy file *)

#[local] Set Warnings "-register-all".
Inductive json :=
| JNull
| JBool (b : bool)
| JInt (z : Z)
| JFloat (q : Q)
| JStr (s : string)
| JList (l : list json)
| JDict (d : list (string * json)).

(** The energy file as [open] and [json.load] find it. *)
Inductive file :=
| Missing                 (* open() raises *)
| Unreadable              (* open() raises *)
| Garbled                 (* json.load raises *)
| Content (doc : json).

(** What happens when the file is opened for writing and dumped to: the
    write completes, or it raises and leaves the file in some state. *)
Inductive write_outcome :=
| WriteOk
| WriteFails (after : file).

Inductive log_record :=
| LogDebug (msg : string)
| LogInfo (msg : string)
| LogError (msg : string).

(** ** dbus-multiplus-emulator.py *)

Module Emulator.

(** *** Configuration (environment) *)
Record config := {
  ANENJI_PORT : string;
  POLL_SEC : Q;
  DEVICE_INSTANCE : Z;
  INVERTER_MAX_POWER : Z;
  process_file : string;            (* __file__ *)
  time_driver_started : Z;          (* int(time()) at import *)
}.

Definition PRODUCT_ID : Z := 41759.  (* 0xA31F *)
Definition PRODUCT_NAME : string := "MultiPlus-II (Anenji bridge)".
Definition FIRMWARE_VER : string := "v1.5-anenji".
Definition PHASE_COUNT : Z := 1.
Definition ENERGY_SAVE_SEC : Q := 60.

(** *** Energy storage (kWh) *)
Record energy := {
  AcIn1ToInverter_kWh : Q;
  AcIn1ToAcOut_kWh : Q;
  InverterToAcOut_kWh : Q;
}.

(** The keys of [_energy], in the order the dict lists them. *)
Definition energy_keys : list string :=
  ["AcIn1ToInverter_kWh"; "AcIn1ToAcOut_kWh"; "InverterToAcOut_kWh"].

Definition energy_get (k : string) (e : energy) : Q :=
  if String.eqb k "AcIn1ToInverter_kWh" then AcIn1ToInverter_kWh e
  else if String.eqb k "AcIn1ToAcOut_kWh" then AcIn1ToAcOut_kWh e
  else InverterToAcOut_kWh e.

Definition energy_set (k : string) (v : Q) (e : energy) : energy :=
  if String.eqb k "AcIn1ToInverter_kWh" then
    {| AcIn1ToInverter_kWh := v; AcIn1ToAcOut_kWh := AcIn1ToAcOut_kWh e;
       InverterToAcOut_kWh := InverterToAcOut_kWh e |}
  else if String.eqb k "AcIn1ToAcOut_kWh" then
    {| AcIn1ToInverter_kWh := AcIn1ToInverter_kWh e; AcIn1ToAcOut_kWh := v;
       InverterToAcOut_kWh := InverterToAcOut_kWh e |}
  else
    {| AcIn1ToInverter_kWh := AcIn1ToInverter_kWh e;
       AcIn1ToAcOut_kWh := AcIn1ToAcOut_kWh e; InverterToAcOut_kWh := v |}.

(** The module-level [_energy] and [_last_energy_save] at import. *)
Definition energy0 : energy :=
  {| AcIn1ToInverter_kWh := 0; AcIn1ToAcOut_kWh := 0; InverterToAcOut_kWh := 0 |}.

(** Counter by counter, [e] is at most [e']. *)
Definition energy_le (e e' : energy) : Prop :=
  (AcIn1ToInverter_kWh e <= AcIn1ToInverter_kWh e')%Q
  /\ (AcIn1ToAcOut_kWh e <= AcIn1ToAcOut_kWh e')%Q
  /\ (InverterToAcOut_kWh e <= InverterToAcOut_kWh e')%Q.

(** *** Program state: the globals, the service object, the disk, the log *)
Record state := {
  svc : gmap string value;          (* paths of the VeDbusService *)
  _idx : Z;                         (* self._idx *)
  _energy : energy;
  _last_energy_save : Q;
  energy_file : file;
  log : list log_record;            (* most recent first *)
}.

Definition set_svc (f : gmap string value -> gmap string value) (s : state) : state :=
  {| svc := f (svc s); _idx := _idx s; _energy := _energy s;
     _last_energy_save := _last_energy_save s; energy_file := energy_file s;
     log := log s |}.
Definition set_idx (i : Z) (s : state) : state :=
  {| svc := svc s; _idx := i; _energy := _energy s;
     _last_energy_save := _last_energy_save s; energy_file := energy_file s;
     log := log s |}.
Definition set_energy (e : energy) (s : state) : state :=
  {| svc := svc s; _idx := _idx s; _energy := e;
     _last_energy_save := _last_energy_save s; energy_file := energy_file s;
     log := log s |}.
Definition set_saved (now : Q) (f : file) (s : state) : state :=
  {| svc := svc s; _idx := _idx s; _energy := _energy s;
     _last_energy_save := now; energy_file := f; log := log s |}.
Definition set_file (f : file) (s : state) : state :=
  {| svc := svc s; _idx := _idx s; _energy := _energy s;
     _last_energy_save := _last_energy_save s; energy_file := f; log := log s |}.
Definition add_log (r : log_record) (s : state) : state :=
  {| svc := svc s; _idx := _idx s; _energy := _energy s;
     _last_energy_save := _last_energy_save s; energy_file := energy_file s;
     log := r :: log s |}.

(** *** json.dump / json.load of the counters *)

(** [json.dump(_energy, f)]: the three keys with their float values. *)
Definition dump_energy (e : energy) : json :=
  JDict (map (fun k => (k, JFloat (energy_get k e))) energy_keys).

(** A parsed object keeps the last of several bindings of a key. *)
Fixpoint dict_get (k : string) (d : list (string * json)) : option json :=
  match d with
  | [] => None
  | (k', v) :: r =>
      match dict_get k r with
      | Some v' => Some v'
      | None => if String.eqb k k' then Some v else None
      end
  end.

(** [with open(ENERGY_FILE, "r") as f: data = json.load(f)] *)
Definition read_json (f : file) : result json :=
  match f with
  | Missing | Unreadable => Raise OSError
  | Garbled => Raise JSONDecodeError
  | Content doc => Ok doc
  end.

Definition is_substring (k s : string) : bool :=
  match String.index 0 k s with Some _ => true | None => false end.

Definition is_str (k : string) (j : json) : bool :=
  match j with JStr s => String.eqb s k | _ => false end.

(** One turn of [for k in _energy]:
    [if k in data and isinstance(data[k], (int, float)): _energy[k] = float(data[k])].
    [k in data] is a key test on a dict, an element test on a list, a
    substring test on a str and a TypeError on anything else; [data[k]] with
    a str index is a TypeError unless [data] is a dict; a bool is an int. *)
Definition load_key (data : json) (k : string) (e : energy) : energy * result unit :=
  match data with
  | JDict d =>
      match dict_get k d with
      | None => (e, Ok tt)
      | Some (JFloat q) => (energy_set k q e, Ok tt)
      | Some (JBool b) => (energy_set k (if b then 1 else 0)%Q e, Ok tt)
      | Some (JInt z) =>
          match float_of_int z with
          | Ok q => (energy_set k q e, Ok tt)
          | Raise x => (e, Raise x)
          end
      | Some _ => (e, Ok tt)
      end
  | JList l => if existsb (is_str k) l then (e, Raise TypeError) else (e, Ok tt)
  | JStr s => if is_substring k s then (e, Raise TypeError) else (e, Ok tt)
  | JNull | JBool _ | JInt _ | JFloat _ => (e, Raise TypeError)
  end.

Fixpoint load_keys (data : json) (ks : list string) (e : energy) : energy * result unit :=
  match ks with
  | [] => (e, Ok tt)
  | k :: r =>
      match load_key data k e with
      | (e', Ok _) => load_keys data r e'
      | (e', Raise x) => (e', Raise x)
      end
  end.

Definition _load_energy (s : state) : state * result unit :=
  match read_json (energy_file s) with
  | Ok data =>
      match load_keys data energy_keys (_energy s) with
      | (e', Ok _) =>
          (add_log (LogInfo "Loaded energy counters from %s: %s") (set_energy e' s), Ok tt)
      | (e', Raise _) =>
          (add_log (LogInfo "No previous energy file, starting from zero.")
                   (set_energy e' s), Ok tt)
      end
  | Raise _ =>
      (add_log (LogInfo "No previous energy file, starting from zero.") s, Ok tt)
  end.

Definition SAVED : log_record := LogDebug "Saved energy counters: %s".

(** The completed writes that a log records: [log.debug("Saved ...")] is
    reached exactly when open, dump and close went through. *)
Definition is_saved (r : log_record) : bool :=
  match r with
  | LogDebug msg => String.eqb msg "Saved energy counters: %s"
  | _ => false
  end.

Definition saved_count (l : list log_record) : nat := length (List.filter is_saved l).

(** A file that offers no counters: it is missing, cannot be read, does not
    parse, or parses to something that is not an object. *)
Definition no_counters (f : file) : bool :=
  match f with
  | Content (JDict _) => false
  | _ => true
  end.

(** [now] is what [time()] returns, [w] what the disk does with the write. *)
Definition _save_energy (now : Q) (w : write_outcome) (s : state) : state * result unit :=
  if Qltb (now - _last_energy_save s) ENERGY_SAVE_SEC then (s, Ok tt)
  else
    match w with
    | WriteOk =>
        (add_log SAVED (set_saved now (Content (dump_energy (_energy s))) s), Ok tt)
    | WriteFails after =>
        (add_log (LogError "Failed to save energy file: %s") (set_file after s), Ok tt)
    end.

(** *** Working mode -> VE.Bus mapping *)

Definition vebus_mode_from_wm (wm : Z) : Z :=
  if wm =? 3 then 3
  else if in_tuple wm [2; 4; 5] then 1
  else 4.

Definition vebus_state_from_wm (wm : Z) : Z :=
  if wm =? 5 then 3
  else if wm =? 3 then 9
  else if in_tuple wm [2; 4] then 3
  else 1.

(** *** One poll: acquisition *)

(** [n * 0.1]: an int register scaled by a float constant. *)
Definition scaled (n : Z) (k : Q) : Q := (inject_Z n * k)%Q.

Record sample := {
  wm : Z;
  in_v : Q; in_f : Q; in_p : Z; in_i : Q;
  out_v : Q; out_i : Q; out_f : Q; out_p : Z; out_s : Z;
  dc_v : Q; dc_i : Q; dc_p : Z;
  soc : option Z;
}.

(** [in_i = (in_p / in_v) if in_v > 5 else 0.0] *)
Definition derive_in_i (in_p : Z) (in_v : Q) : result Q :=
  if Qltb 5 in_v then truediv (inject_Z in_p) in_v else Ok 0%Q.

(** The body of the [try] of [update]: every read of it is mandatory but
    the state of charge, which has a [try] of its own. *)
Definition acquire (d : device) : result sample :=
  (inv <- mk_instrument d ;;
   wm <- r16 inv 201 false ;;
   r202 <- r16 inv 202 true ;;
   r203 <- r16 inv 203 true ;;
   in_p <- r16 inv 204 true ;;
   let in_v := scaled r202 (1 # 10) in
   let in_f := scaled r203 (1 # 100) in
   in_i <- derive_in_i in_p in_v ;;
   r210 <- r16 inv 210 true ;;
   r211 <- r16 inv 211 true ;;
   r212 <- r16 inv 212 true ;;
   out_p <- r16 inv 213 true ;;
   out_s <- r16 inv 214 true ;;
   r215 <- r16 inv 215 true ;;
   r216 <- r16 inv 216 true ;;
   dc_p <- r16 inv 217 true ;;
   soc <- try_except (v <- r16 inv 229 false ;; Ok (Some v)) (fun _ => Ok None) ;;
   Ok {| wm := wm;
         in_v := in_v; in_f := in_f; in_p := in_p; in_i := in_i;
         out_v := scaled r210 (1 # 10); out_i := scaled r211 (1 # 10);
         out_f := scaled r212 (1 # 100); out_p := out_p; out_s := out_s;
         dc_v := scaled r215 (1 # 10); dc_i := scaled r216 (1 # 10);
         dc_p := dc_p; soc := soc |})%py.

(** *** One poll: publication and energy *)

Definition mains_present (m : sample) : bool :=
  in_tuple (wm m) [2; 4; 5] || Qltb 150 (in_v m).

(** Lines 257-302: everything published before the energy section. *)
Definition telemetry (m : sample) : list (string * value) :=
  let mp := mains_present m in
  [ ("/Connected", VInt 1);
    ("/Mode", VInt (vebus_mode_from_wm (wm m)));
    ("/State", VInt (vebus_state_from_wm (wm m)));
    ("/VebusError", VInt 0);
    ("/VebusChargeState", VInt (if wm m =? 5 then 3 else 1));
    ("/Ac/ActiveIn/Connected", VInt (if mp then 1 else 0));
    ("/Ac/ActiveIn/ActiveInput", VInt (if mp then 0 else 240));
    ("/Ac/ActiveIn/Available", VInt 1);
    ("/Ac/ActiveIn/Source", VInt (if mp then 1 else 0));
    ("/Ac/ActiveIn/L1/V", VFloat (in_v m));
    ("/Ac/ActiveIn/L1/I", VFloat (in_i m));
    ("/Ac/ActiveIn/L1/F", VFloat (in_f m));
    ("/Ac/ActiveIn/L1/P", VInt (in_p m));
    ("/Ac/ActiveIn/L1/S", VInt (Z.abs (in_p m)));
    ("/Ac/ActiveIn/V", VFloat (in_v m));
    ("/Ac/ActiveIn/Current", VFloat (in_i m));
    ("/Ac/ActiveIn/Power", VInt (in_p m));
    ("/Ac/ActiveIn/Frequency", VFloat (in_f m));
    ("/Ac/ActiveIn/P", VInt (in_p m));
    ("/Ac/ActiveIn/S", VInt (Z.abs (in_p m)));
    ("/Ac/Out/L1/V", VFloat (out_v m));
    ("/Ac/Out/L1/I", VFloat (out_i m));
    ("/Ac/Out/L1/F", VFloat (out_f m));
    ("/Ac/Out/L1/P", VInt (out_p m));
    ("/Ac/Out/L1/S", VInt (out_s m));
    ("/Ac/Out/P", VInt (out_p m));
    ("/Ac/Out/S", VInt (out_s m));
    ("/Dc/0/Voltage", VFloat (dc_v m));
    ("/Dc/0/Current", VFloat (dc_i m));
    ("/Dc/0/Power", VInt (dc_p m)) ]
  ++ match soc m with
     | Some v => [ ("/Soc", VInt v) ]
     | None => []
     end.

(** [_energy[k] += d] *)
Definition energy_add (k : string) (d : Q) (e : energy) : energy :=
  energy_set k (energy_get k e + d)%Q e.

(** Lines 304-317: the energy accumulation of one poll. *)
Definition accumulate (c : config) (m : sample) (e : energy) : energy :=
  let dt := POLL_SEC c in
  let e :=
    if mains_present m && (0 <? in_p m) then
      let delta_kwh_in := ((inject_Z (in_p m) / 1000) * (dt / 3600))%Q in
      energy_add "AcIn1ToAcOut_kWh" delta_kwh_in
        (energy_add "AcIn1ToInverter_kWh" delta_kwh_in e)
    else e in
  if 0 <? out_p m then
    let delta_kwh_out := ((inject_Z (out_p m) / 1000) * (dt / 3600))%Q in
    energy_add "InverterToAcOut_kWh" delta_kwh_out e
  else e.

Definition energy_values (e : energy) : list (string * value) :=
  [ ("/Energy/AcIn1ToInverter", VFloat (AcIn1ToInverter_kWh e));
    ("/Energy/AcIn1ToAcOut", VFloat (AcIn1ToAcOut_kWh e));
    ("/Energy/InverterToAcOut", VFloat (InverterToAcOut_kWh e));
    ("/Energy/OutToInverter", VFloat 0) ].

(** What one poll takes from outside: the answers of the device, the two
    readings of the clock and the fate of the disk write. *)
Record tick := {
  dev : device;
  save_clock : Q;
  write : write_outcome;
  uptime_clock : Q;
}.

(** [MultiPlusEmuService.update].  The result is what the GLib timer gets
    back: [Ok true] keeps it armed. *)
Definition update (c : config) (t : tick) (s : state) : state * result bool :=
  match acquire (dev t) with
  | Raise _ =>
      let s := add_log (LogError "Modbus read error: %s") s in
      let s := set_svc (set_values [ ("/Connected", VInt 0) ]) s in
      (s, Ok true)
  | Ok m =>
      let s := set_svc (set_values (telemetry m)) s in
      let s := set_energy (accumulate c m (_energy s)) s in
      let s := set_svc (set_values (energy_values (_energy s))) s in
      match _save_energy (save_clock t) (write t) s with
      | (s, Raise e) => (s, Raise e)
      | (s, Ok _) =>
          let s := set_svc (set_values
                     [ ("/Devices/0/UpTime",
                        VInt (int_of_float (uptime_clock t) - time_driver_started c)) ]) s in
          let s := set_idx ((_idx s + 1) mod 256) s in
          let s := set_svc (set_values [ ("/UpdateIndex", VInt (_idx s)) ]) s in
          (s, Ok true)
      end
  end.

(** *** Start-up and the timer loop *)

(** [_add_paths]: the paths and their first values. *)
Definition _add_paths (c : config) (e : energy) : list (string * value) :=
  [ ("/Mgmt/ProcessName", VStr (process_file c));
    ("/Mgmt/ProcessVersion", VStr FIRMWARE_VER);
    ("/Mgmt/Connection", VStr (ANENJI_PORT c));
    ("/DeviceInstance", VInt (DEVICE_INSTANCE c));
    ("/ProductId", VInt PRODUCT_ID);
    ("/ProductName", VStr PRODUCT_NAME);
    ("/FirmwareVersion", VStr FIRMWARE_VER);
    ("/Serial", VStr "");
    ("/Connected", VInt 0);
    ("/Ac/NumberOfPhases", VInt PHASE_COUNT);
    ("/Mode", VInt 4);
    ("/State", VInt 1);
    ("/VebusError", VInt 0);
    ("/VebusChargeState", VInt 0);
    ("/UpdateIndex", VInt 0);
    ("/Ac/ActiveIn/Connected", VInt 0);
    ("/Ac/ActiveIn/ActiveInput", VInt 240);
    ("/Ac/ActiveIn/Available", VInt 1);
    ("/Ac/ActiveIn/Source", VInt 1);
    ("/Ac/ActiveIn/V", VNone);
    ("/Ac/ActiveIn/Current", VNone);
    ("/Ac/ActiveIn/Power", VNone);
    ("/Ac/ActiveIn/Frequency", VNone);
    ("/Ac/ActiveIn/L1/V", VNone);
    ("/Ac/ActiveIn/L1/I", VNone);
    ("/Ac/ActiveIn/L1/F", VNone);
    ("/Ac/ActiveIn/L1/P", VNone);
    ("/Ac/ActiveIn/L1/S", VNone);
    ("/Ac/ActiveIn/P", VNone);
    ("/Ac/ActiveIn/S", VNone);
    ("/Ac/Out/L1/V", VNone);
    ("/Ac/Out/L1/I", VNone);
    ("/Ac/Out/L1/F", VNone);
    ("/Ac/Out/L1/P", VNone);
    ("/Ac/Out/L1/S", VNone);
    ("/Ac/Out/P", VNone);
    ("/Ac/Out/S", VNone);
    ("/Ac/Out/NominalInverterPower", VInt (INVERTER_MAX_POWER c));
    ("/Dc/0/Voltage", VNone);
    ("/Dc/0/Current", VNone);
    ("/Dc/0/Power", VNone);
    ("/Soc", VNone);
    ("/Energy/AcIn1ToInverter", VFloat (AcIn1ToInverter_kWh e));
    ("/Energy/AcIn1ToAcOut", VFloat (AcIn1ToAcOut_kWh e));
    ("/Energy/InverterToAcOut", VFloat (InverterToAcOut_kWh e));
    ("/Energy/OutToInverter", VFloat 0);
    ("/Devices/0/UpTime", VInt 0) ].

(** The process at import, with the energy file as found on disk. *)
Definition boot (f : file) : state :=
  {| svc := ∅; _idx := 0; _energy := energy0; _last_energy_save := 0;
     energy_file := f; log := [] |}.

(** [main] up to the start of the main loop: [_load_energy()], then
    [MultiPlusEmuService()]. *)
Definition start (c : config) (f : file) : state * result unit :=
  match _load_energy (boot f) with
  | (s, Raise e) => (s, Raise e)
  | (s, Ok _) =>
      let s := set_idx 0 (set_svc (set_values (_add_paths c (_energy s))) s) in
      (add_log (LogInfo "Started Anenji-backed MultiPlus emulator as %s") s, Ok tt)
  end.

(** The GLib timer: [update] is called again as long as it returns True. *)
Fixpoint run (c : config) (ts : list tick) (s : state) : state :=
  match ts with
  | [] => s
  | t :: r =>
      match update c t s with
      | (s', Ok true) => run c r s'
      | (s', _) => s'
      end
  end.

End Emulator.

(** ** celmaibun.py *)

Module Celmaibun.

Definition vebus_mode_from_wm (wm : Z) : Z :=
  if wm =? 3 then 3
  else if in_tuple wm [2; 4; 5] then 1
  else 4.

Definition vebus_state_from_wm (wm : Z) : Z :=
  if wm =? 5 then 3
  else if wm =? 3 then 9
  else if in_tuple wm [2; 4] then 3
  else if in_tuple wm [0; 1] then 1
  else 1.

Definition scaled (n : Z) (k : Q) : Q := (inject_Z n * k)%Q.

Record sample := {
  wm : Z;
  in_v : Q; in_f : Q; in_p : Z; in_i : Q;
  out_v : Q; out_i : Q; out_f : Q; out_p : Z; out_s : Z;
  dc_v : Q; dc_i : Q; dc_p : Z;
  soc : option Z;
}.

(** [in_i = (in_p / in_v) if in_v > 20 else 0.0] *)
Definition derive_in_i (in_p : Z) (in_v : Q) : result Q :=
  if Qltb 20 in_v then truediv (inject_Z in_p) in_v else Ok 0%Q.

(** The body of the [try] of [update]. *)
Definition acquire (d : device) : result sample :=
  (inv <- mk_instrument d ;;
   wm <- r16 inv 201 false ;;
   in_v_raw <- r16 inv 202 true ;;
   in_f_raw <- r16 inv 203 true ;;
   in_p_raw <- r16 inv 204 true ;;
   let in_v := scaled in_v_raw (1 # 10) in
   let in_f := scaled in_f_raw (1 # 100) in
   let in_p := Z.abs in_p_raw in
   in_i <- derive_in_i in_p in_v ;;
   r210 <- r16 inv 210 true ;;
   r211 <- r16 inv 211 true ;;
   r212 <- r16 inv 212 true ;;
   out_p <- r16 inv 213 true ;;
   out_s <- r16 inv 214 true ;;
   r215 <- r16 inv 215 true ;;
   r216 <- r16 inv 216 true ;;
   dc_p <- r16 inv 217 true ;;
   soc <- try_except (v <- r16 inv 229 false ;; Ok (Some v)) (fun _ => Ok None) ;;
   Ok {| wm := wm;
         in_v := in_v; in_f := in_f; in_p := in_p; in_i := in_i;
         out_v := scaled r210 (1 # 10); out_i := scaled r211 (1 # 10);
         out_f := scaled r212 (1 # 100); out_p := out_p; out_s := out_s;
         dc_v := scaled r215 (1 # 10); dc_i := scaled r216 (1 # 10);
         dc_p := dc_p; soc := soc |})%py.

(** *** Configuration, service object, one poll *)

Record config := {
  PORT : string;
  DEVICE_INSTANCE : Z;
  MAX_INV_POWER : Z;
  process_file : string;            (* __file__ *)
  start_time : Z;                   (* int(time()) at import *)
}.

Definition PRODUCT_ID : Z := 41759.  (* 0xA31F *)
Definition PRODUCT_NAME : string := "MultiPlus-II (Anenji bridge)".
Definition FIRMWARE_VER : string := "v1.4-anenji".
Definition PHASE_COUNT : Z := 1.

Record state := {
  _dbusservice : gmap string value;
  _idx : Z;
  log : list log_record;
}.

(** [_add_paths]: the paths and their first values. *)
Definition _add_paths (c : config) : list (string * value) :=
  [ ("/Mgmt/ProcessName", VStr (process_file c));
    ("/Mgmt/ProcessVersion", VStr FIRMWARE_VER);
    ("/Mgmt/Connection", VStr (PORT c));
    ("/DeviceInstance", VInt (DEVICE_INSTANCE c));
    ("/ProductId", VInt PRODUCT_ID);
    ("/ProductName", VStr PRODUCT_NAME);
    ("/FirmwareVersion", VStr FIRMWARE_VER);
    ("/Serial", VStr "");
    ("/Connected", VInt 0);
    ("/Ac/NumberOfPhases", VInt PHASE_COUNT);
    ("/Mode", VInt 4);
    ("/State", VInt 1);
    ("/VebusError", VInt 0);
    ("/VebusChargeState", VInt 0);
    ("/UpdateIndex", VInt 0);
    ("/Leds/Mains", VInt 0);
    ("/Leds/Inverter", VInt 0);
    ("/Leds/LowBattery", VInt 0);
    ("/Leds/Overload", VInt 0);
    ("/Leds/Temperature", VInt 0);
    ("/Ac/ActiveIn/Connected", VInt 0);
    ("/Ac/ActiveIn/ActiveInput", VInt 240);
    ("/Ac/ActiveIn/Available", VInt 1);
    ("/Ac/ActiveIn/Source", VInt 240);
    ("/Ac/ActiveIn/V", VNone);
    ("/Ac/ActiveIn/Current", VNone);
    ("/Ac/ActiveIn/Power", VNone);
    ("/Ac/ActiveIn/Frequency", VNone);
    ("/Ac/ActiveIn/CurrentLimit", VFloat 32);
    ("/Ac/ActiveIn/CurrentLimitIsAdjustable", VInt 0);
    ("/Ac/ActiveIn/CurrentLimitOffered", VFloat 32);
    ("/Ac/ActiveIn/L1/V", VNone);
    ("/Ac/ActiveIn/L1/I", VNone);
    ("/Ac/ActiveIn/L1/F", VNone);
    ("/Ac/ActiveIn/L1/P", VNone);
    ("/Ac/ActiveIn/L1/S", VNone);
    ("/Ac/ActiveIn/P", VNone);
    ("/Ac/ActiveIn/S", VNone);
    ("/Ac/Out/L1/V", VNone);
    ("/Ac/Out/L1/I", VNone);
    ("/Ac/Out/L1/F", VNone);
    ("/Ac/Out/L1/P", VNone);
    ("/Ac/Out/L1/S", VNone);
    ("/Ac/Out/L1/NominalInverterPower", VInt (MAX_INV_POWER c));
    ("/Ac/Out/P", VNone);
    ("/Ac/Out/S", VNone);
    ("/Ac/Out/NominalInverterPower", VInt (MAX_INV_POWER c));
    ("/Dc/0/Voltage", VNone);
    ("/Dc/0/Current", VNone);
    ("/Dc/0/Power", VNone);
    ("/Soc", VNone);
    ("/Devices/0/UpTime", VInt 0);
    ("/Energy/InverterToAcOut", VInt 0);
    ("/Energy/OutToInverter", VInt 0) ].

(** [MultiPlusEmuService()] *)
Definition init (c : config) : state :=
  {| _dbusservice := set_values (_add_paths c) ∅; _idx := 0;
     log := [ LogInfo "Started Anenji-backed MultiPlus emulator as %s" ] |}.

Definition mains_present (m : sample) : bool :=
  in_tuple (wm m) [2; 4; 5] || Qltb 150 (in_v m).

(** Lines 256-316 of [update]: what a poll with a sample assigns, before
    the update index. [now] is [int(time())]. *)
Definition published (c : config) (now : Z) (m : sample) : list (string * value) :=
  let mp := mains_present m in
  [ ("/Connected", VInt 1);
    ("/Mode", VInt (vebus_mode_from_wm (wm m)));
    ("/State", VInt (vebus_state_from_wm (wm m)));
    ("/Ac/ActiveIn/Connected", VInt (if mp then 1 else 0));
    ("/Ac/ActiveIn/ActiveInput", VInt (if mp then 0 else 240));
    ("/Ac/ActiveIn/Available", VInt 1);
    ("/Ac/ActiveIn/Source", VInt (if mp then 1 else 240));
    ("/Ac/ActiveIn/L1/V", VFloat (in_v m));
    ("/Ac/ActiveIn/L1/I", VFloat (in_i m));
    ("/Ac/ActiveIn/L1/F", VFloat (in_f m));
    ("/Ac/ActiveIn/L1/P", VInt (in_p m));
    ("/Ac/ActiveIn/L1/S", VInt (in_p m));
    ("/Ac/ActiveIn/V", VFloat (in_v m));
    ("/Ac/ActiveIn/Current", VFloat (in_i m));
    ("/Ac/ActiveIn/Power", VInt (in_p m));
    ("/Ac/ActiveIn/Frequency", VFloat (in_f m));
    ("/Ac/ActiveIn/P", VInt (in_p m));
    ("/Ac/ActiveIn/S", VInt (in_p m));
    ("/Ac/ActiveIn/CurrentLimit", VFloat 32);
    ("/Ac/ActiveIn/CurrentLimitOffered", VFloat 32);
    ("/Ac/ActiveIn/CurrentLimitIsAdjustable", VInt 0);
    ("/Ac/Out/L1/V", VFloat (out_v m));
    ("/Ac/Out/L1/I", VFloat (out_i m));
    ("/Ac/Out/L1/F", VFloat (out_f m));
    ("/Ac/Out/L1/P", VInt (out_p m));
    ("/Ac/Out/L1/S", VInt (out_s m));
    ("/Ac/Out/P", VInt (out_p m));
    ("/Ac/Out/S", VInt (out_s m));
    ("/Dc/0/Voltage", VFloat (dc_v m));
    ("/Dc/0/Current", VFloat (dc_i m));
    ("/Dc/0/Power", VInt (dc_p m)) ]
  ++ match soc m with
     | Some v => [ ("/Soc", VInt v) ]
     | None => []
     end
  ++ [ ("/Leds/Mains", VInt (if mp then 1 else 0));
       ("/Leds/Inverter", VInt (if wm m =? 3 then 1 else 0));
       ("/Leds/LowBattery", VInt (if Qltb (dc_v m) 46 then 1 else 0));
       ("/Leds/Overload", VInt 0);
       ("/Leds/Temperature", VInt 0);
       ("/Devices/0/UpTime", VInt (now - start_time c)) ].

(** [MultiPlusEmuService.update]; [clock] is what [time()] returns. *)
Definition update (c : config) (d : device) (clock : Q) (s : state)
  : state * result bool :=
  match acquire d with
  | Raise _ =>
      ({| _dbusservice := <["/Connected" := VInt 0]> (_dbusservice s);
          _idx := _idx s;
          log := LogError "Modbus read error: %s" :: log s |}, Ok true)
  | Ok m =>
      let svc := set_values (published c (int_of_float clock) m) (_dbusservice s) in
      let i := (_idx s + 1) mod 256 in
      ({| _dbusservice := <["/UpdateIndex" := VInt i]> svc; _idx := i;
          log := log s |}, Ok true)
  end.

(** The GLib timer over a sequence of polls. *)
Fixpoint run (c : config) (ts : list (device * Q)) (s : state) : state :=
  match ts with
  | [] => s
  | (d, clock) :: r =>
      match update c d clock s with
      | (s', Ok true) => run c r s'
      | (s', _) => s'
      end
  end.

End Celmaibun.

(** ** multiplus.py *)

Module Multiplus.

Definition vebus_mode_from_wm (wm : Z) : Z :=
  if wm =? 5 then 1
  else if in_tuple wm [3; 2; 4] then 3
  else 4.

Definition vebus_state_from_wm (wm : Z) : Z :=
  if in_tuple wm [1; 0] then 1
  else if in_tuple wm [3; 2; 4; 5] then 9
  else if wm =? 6 then 1
  else 1.

Definition scaled (n : Z) (k : Q) : Q := (inject_Z n * k)%Q.

(** The dict that [collect_snapshot] returns, key by key.  [nz] only
    replaces None, which none of its arguments can be, and
    [serial or ""] is [serial]. *)
Record snapshot := {
  ModeNum : Z; StateNum : Z;
  ActiveInput : Z;
  Serial : string;
  In_V : Q; In_I : Q; In_F : Q; In_P : Z;
  Out_V : Q; Out_I : Q; Out_F : Q; Out_P : Z; Out_S : Z;
  Dc_V : Q; Dc_I : Q; Dc_P : Z;
  Soc : option Z;
  T_Dcdc : Z; T_Inv : Z;
  VebusError : Z; VebusChargeState : Z;
}.

(** [in_i = (in_p / in_v) if in_v else 0.0]: a float is true when it is
    not zero. *)
Definition derive_in_i (in_p : Z) (in_v : Q) : result Q :=
  if Qnonzero in_v then truediv (inject_Z in_p) in_v else Ok 0%Q.

Section Snapshot.
Variable decode_ignore : list Z -> string.

Definition collect_snapshot (d : device) : result snapshot :=
  (inv <- mk_instrument d ;;
   wm <- r16 inv 201 false ;;
   let mode_num := vebus_mode_from_wm wm in
   let state_num := vebus_state_from_wm wm in
   r202 <- r16 inv 202 true ;;
   r203 <- r16 inv 203 true ;;
   in_p <- r16 inv 204 true ;;
   let in_v := scaled r202 (1 # 10) in
   let in_f := scaled r203 (1 # 100) in
   in_i <- derive_in_i in_p in_v ;;
   r210 <- r16 inv 210 true ;;
   r211 <- r16 inv 211 true ;;
   r212 <- r16 inv 212 true ;;
   out_p <- r16 inv 213 true ;;
   out_s <- r16 inv 214 true ;;
   r215 <- r16 inv 215 true ;;
   r216 <- r16 inv 216 true ;;
   dc_p <- r16 inv 217 true ;;
   soc <- try_except (v <- r16 inv 229 false ;; Ok (Some v)) (fun _ => Ok None) ;;
   let active_input :=
     if in_tuple wm [2; 5; 4] && Qltb 30 in_v then 0 else 240 in
   t_dcdc <- r16 inv 226 true ;;
   t_inv <- r16 inv 227 true ;;
   serial <- read_ascii decode_ignore inv 186 12 ;;
   Ok {| ModeNum := mode_num; StateNum := state_num;
         ActiveInput := active_input;
         Serial := serial;
         In_V := in_v; In_I := in_i; In_F := in_f; In_P := in_p;
         Out_V := scaled r210 (1 # 10); Out_I := scaled r211 (1 # 10);
         Out_F := scaled r212 (1 # 100); Out_P := out_p; Out_S := out_s;
         Dc_V := scaled r215 (1 # 10); Dc_I := scaled r216 (1 # 10);
         Dc_P := dc_p;
         Soc := soc;
         T_Dcdc := t_dcdc; T_Inv := t_inv;
         VebusError := 0; VebusChargeState := 9 |})%py.
End Snapshot.

(** *** The service object and the timer callback *)

Record config := {
  process_file : string;            (* __file__ *)
  CONNECTION : string;
}.

Definition PRODUCT_NAME : string := "MultiPlus (Sumry bridge)".
Definition FIRMWARE_VER : string := "1.2".

Record state := {
  svc : gmap string value;
  _idx : Z;
  log : list log_record;
}.

Definition _add_mandatory (c : config) (device_instance : Z) : list (string * value) :=
  [ ("/Mgmt/ProcessName", VStr (process_file c));
    ("/Mgmt/ProcessVersion", VStr FIRMWARE_VER);
    ("/DeviceInstance", VInt device_instance);
    ("/ProductName", VStr PRODUCT_NAME);
    ("/FirmwareVersion", VStr FIRMWARE_VER);
    ("/Serial", VStr "");
    ("/Connected", VInt 0);
    ("/ProductId", VInt 0);
    ("/Mgmt/Connection", VStr (CONNECTION c));
    ("/UpdateIndex", VInt 0) ].

Definition _add_values : list (string * value) :=
  [ ("/Ac/NumberOfPhases", VInt 1);
    ("/Ac/ActiveIn/ActiveInput", VInt 240);
    ("/Ac/ActiveIn/L1/V", VNone);
    ("/Ac/ActiveIn/L1/I", VNone);
    ("/Ac/ActiveIn/L1/F", VNone);
    ("/Ac/ActiveIn/L1/P", VNone);
    ("/Ac/Out/L1/V", VNone);
    ("/Ac/Out/L1/I", VNone);
    ("/Ac/Out/L1/F", VNone);
    ("/Ac/Out/L1/P", VNone);
    ("/Ac/Out/L1/S", VNone);
    ("/Dc/0/Voltage", VNone);
    ("/Dc/0/Current", VNone);
    ("/Dc/0/Power", VNone);
    ("/Soc", VNone);
    ("/Mode", VInt 4);
    ("/State", VInt 1);
    ("/VebusError", VInt 0);
    ("/VebusChargeState", VInt 9);
    ("/Temperature/Dcdc", VNone);
    ("/Temperature/Inverter", VNone) ].

(** [MultiPlusService(device_instance=28)], once the bus name is picked. *)
Definition init (c : config) : state :=
  {| svc := set_values _add_values (set_values (_add_mandatory c 28) ∅);
     _idx := 0;
     log := [ LogInfo "registered ourselves on D-Bus as %s" ] |}.

(** [publish] up to [_bump]. *)
Definition published (snap : snapshot) : list (string * value) :=
  [ ("/Connected", VInt 1);
    ("/Serial", VStr "");
    ("/Ac/ActiveIn/ActiveInput", VInt (ActiveInput snap));
    ("/Ac/ActiveIn/L1/V", VFloat (In_V snap));
    ("/Ac/ActiveIn/L1/I", VFloat (In_I snap));
    ("/Ac/ActiveIn/L1/F", VFloat (In_F snap));
    ("/Ac/ActiveIn/L1/P", VInt (In_P snap));
    ("/Ac/Out/L1/V", VFloat (Out_V snap));
    ("/Ac/Out/L1/I", VFloat (Out_I snap));
    ("/Ac/Out/L1/F", VFloat (Out_F snap));
    ("/Ac/Out/L1/P", VInt (Out_P snap));
    ("/Ac/Out/L1/S", VInt (Out_S snap));
    ("/Dc/0/Voltage", VFloat (Dc_V snap));
    ("/Dc/0/Current", VFloat (Dc_I snap));
    ("/Dc/0/Power", VInt (Dc_P snap)) ]
  ++ match Soc snap with
     | Some v => [ ("/Soc", VInt v) ]
     | None => []
     end
  ++ [ ("/Mode", VInt (ModeNum snap));
       ("/State", VInt (StateNum snap));
       ("/VebusError", VInt (VebusError snap));
       ("/VebusChargeState", VInt (VebusChargeState snap));
       ("/Temperature/Dcdc", VInt (T_Dcdc snap));
       ("/Temperature/Inverter", VInt (T_Inv snap)) ].

Definition _bump (s : state) : state :=
  let i := (_idx s + 1) mod 256 in
  {| svc := <["/UpdateIndex" := VInt i]> (svc s); _idx := i; log := log s |}.

Definition publish (snap : snapshot) (s : state) : state :=
  _bump {| svc := set_values (published snap) (svc s); _idx := _idx s;
           log := log s |}.

Section Poll.
Variable decode_ignore : list Z -> string.

(** The timer callback of [main]. *)
Definition tick (d : device) (s : state) : state * result bool :=
  match collect_snapshot decode_ignore d with
  | Ok snap => (publish snap s, Ok true)
  | Raise _ =>
      ({| svc := <["/Connected" := VInt 0]> (svc s); _idx := _idx s;
          log := LogError "poll error: %s" :: log s |}, Ok true)
  end.

Fixpoint run (ds : list device) (s : state) : state :=
  match ds with
  | [] => s
  | d :: r =>
      match tick d s with
      | (s', Ok true) => run r s'
      | (s', _) => s'
      end
  end.
End Poll.

End Multiplus.

(** ** inverter.py *)

Module Inverter.

Definition venus_mode_from_wm (wm : Z) : Z :=
  if in_tuple wm [3; 2; 4; 5] then 1
  else if in_tuple wm [1; 0; 6] then 4
  else 4.

Definition venus_state_from_wm (wm : Z) : Z :=
  if in_tuple wm [1; 0] then 1
  else if in_tuple wm [3; 2; 4; 5] then 9
  else if wm =? 6 then 1
  else 1.

Definition scaled (n : Z) (k : Q) : Q := (inject_Z n * k)%Q.

Record snapshot := {
  ModeNum : Z; StateNum : Z;
  Serial : string;
  Out_V : Q; Out_I : Q; Out_F : Q; Out_P : Z; Out_S : Z;
  Dc_V : Q; Dc_I : Q; Dc_P : Z;
  Inv_V : Q; Inv_I : Q; Inv_F : Q; Inv_P : Z;
  T_Dcdc : Z; T_Inv : Z;
  Fault : Z; Warn : Z;
}.

Record state := {
  svc : gmap string value;
  _idx : Z;
  log : list log_record;
}.

Definition set_svc (f : gmap string value -> gmap string value) (s : state) : state :=
  {| svc := f (svc s); _idx := _idx s; log := log s |}.

(** [publish] up to [_bump]. *)
Definition published (snap : snapshot) : list (string * value) :=
  [ ("/Connected", VInt 1);
    ("/Serial", VStr (Serial snap));
    ("/Ac/Out/L1/V", VFloat (Out_V snap));
    ("/Ac/Out/L1/I", VFloat (Out_I snap));
    ("/Ac/Out/L1/F", VFloat (Out_F snap));
    ("/Ac/Out/L1/P", VInt (Out_P snap));
    ("/Ac/Out/L1/S", VInt (Out_S snap));
    ("/Dc/0/Voltage", VFloat (Dc_V snap));
    ("/Dc/0/Current", VFloat (Dc_I snap));
    ("/Dc/0/Power", VInt (Dc_P snap));
    ("/Inverter/Internal/V", VFloat (Inv_V snap));
    ("/Inverter/Internal/I", VFloat (Inv_I snap));
    ("/Inverter/Internal/F", VFloat (Inv_F snap));
    ("/Inverter/Internal/P", VInt (Inv_P snap));
    ("/Temperature/Dcdc", VInt (T_Dcdc snap));
    ("/Temperature/Inverter", VInt (T_Inv snap));
    ("/Status/FaultCode", VInt (Fault snap));
    ("/Status/WarningCode", VInt (Warn snap));
    ("/Mode", VInt (ModeNum snap));
    ("/State", VInt (StateNum snap)) ].

Definition _bump (s : state) : state :=
  let i := (_idx s + 1) mod 256 in
  {| svc := <["/UpdateIndex" := VInt i]> (svc s); _idx := i; log := log s |}.

Definition publish (snap : snapshot) (s : state) : state :=
  _bump (set_svc (set_values (published snap)) s).

Section Poll.
Variable decode_ignore : list Z -> string.

Definition collect_snapshot (d : device) : result snapshot :=
  (inv <- mk_instrument d ;;
   wm <- r16 inv 201 false ;;
   let mode_num := venus_mode_from_wm wm in
   let state_num := venus_state_from_wm wm in
   r210 <- r16 inv 210 true ;;
   r211 <- r16 inv 211 true ;;
   r212 <- r16 inv 212 true ;;
   out_p <- r16 inv 213 true ;;
   out_s <- r16 inv 214 true ;;
   r215 <- r16 inv 215 true ;;
   r216 <- r16 inv 216 true ;;
   dc_p <- r16 inv 217 true ;;
   r205 <- r16 inv 205 true ;;
   r206 <- r16 inv 206 true ;;
   r207 <- r16 inv 207 true ;;
   inv_p <- r16 inv 208 true ;;
   t_dcdc <- r16 inv 226 true ;;
   t_inv <- r16 inv 227 true ;;
   serial <- read_ascii decode_ignore inv 186 12 ;;
   fault <- r32 inv 100 ;;
   warn <- r32 inv 108 ;;
   Ok {| ModeNum := mode_num; StateNum := state_num;
         Serial := serial;
         Out_V := scaled r210 (1 # 10); Out_I := scaled r211 (1 # 10);
         Out_F := scaled r212 (1 # 100); Out_P := out_p; Out_S := out_s;
         Dc_V := scaled r215 (1 # 10); Dc_I := scaled r216 (1 # 10);
         Dc_P := dc_p;
         Inv_V := scaled r205 (1 # 10); Inv_I := scaled r206 (1 # 10);
         Inv_F := scaled r207 (1 # 100); Inv_P := inv_p;
         T_Dcdc := t_dcdc; T_Inv := t_inv;
         Fault := fault; Warn := warn |})%py.

(** The timer callback of [main]. *)
Definition tick (d : device) (s : state) : state * result bool :=
  match collect_snapshot d with
  | Ok snap => (publish snap s, Ok true)
  | Raise _ =>
      let s := {| svc := svc s; _idx := _idx s;
                  log := LogError "poll error: %s" :: log s |} in
      (set_svc (set_values [ ("/Connected", VInt 0) ]) s, Ok true)
  end.

Fixpoint run (ds : list device) (s : state) : state :=
  match ds with
  | [] => s
  | d :: r =>
      match tick d s with
      | (s', Ok true) => run r s'
      | (s', _) => s'
      end
  end.
End Poll.

(** *** Registration *)

Record config := {
  process_file : string;            (* __file__ *)
  CONNECTION : string;
}.

Definition PRODUCT_NAME : string := "Sumry Inverter (RTU)".
Definition FIRMWARE_VER : string := "1.3".

Definition _add_mandatory (c : config) (device_instance : Z) : list (string * value) :=
  [ ("/Mgmt/ProcessName", VStr (process_file c));
    ("/Mgmt/ProcessVersion", VStr FIRMWARE_VER);
    ("/DeviceInstance", VInt device_instance);
    ("/ProductName", VStr PRODUCT_NAME);
    ("/FirmwareVersion", VStr FIRMWARE_VER);
    ("/Serial", VStr "");
    ("/Connected", VInt 0);
    ("/ProductId", VInt 0);
    ("/Mgmt/Connection", VStr (CONNECTION c));
    ("/UpdateIndex", VInt 0) ].

Definition _add_values : list (string * value) :=
  [ ("/Ac/Out/L1/V", VNone);
    ("/Ac/Out/L1/I", VNone);
    ("/Ac/Out/L1/F", VNone);
    ("/Ac/Out/L1/P", VNone);
    ("/Ac/Out/L1/S", VNone);
    ("/Ac/Out/NumberOfPhases", VInt 1);
    ("/Dc/0/Voltage", VNone);
    ("/Dc/0/Current", VNone);
    ("/Dc/0/Power", VNone);
    ("/Inverter/Internal/V", VNone);
    ("/Inverter/Internal/I", VNone);
    ("/Inverter/Internal/F", VNone);
    ("/Inverter/Internal/P", VNone);
    ("/Mode", VInt 4);
    ("/State", VInt 1);
    ("/Status/FaultCode", VInt 0);
    ("/Status/WarningCode", VInt 0);
    ("/Temperature/Dcdc", VNone);
    ("/Temperature/Inverter", VNone) ].

(** [InverterService(device_instance=30)], once the bus name is picked. *)
Definition init (c : config) : state :=
  {| svc := set_values _add_values (set_values (_add_mandatory c 30) ∅);
     _idx := 0;
     log := [ LogInfo "registered ourselves on D-Bus as %s" ] |}.

End Inverter.

(** ** service.py *)

Module Service.

Definition MODE_MAP : gmap Z string :=
  list_to_map [ (0, "PowerOn"); (1, "Standby"); (2, "Mains"); (3, "OffGrid");
                (4, "Bypass"); (5, "Charging"); (6, "Fault") ].

Definition scaled (n : Z) (k : Q) : Q := (inject_Z n * k)%Q.

Record snapshot := {
  Mode : string; Fault : Z; Warn : Z; Serial : string;
  Grid_V : Q; Grid_F : Q; Grid_P : Z;
  Inverter_V : Q; Inverter_A : Q; Inverter_F : Q;
  Inverter_P : Z; Inverter_Pch : Z;
  Output_V : Q; Output_A : Q; Output_F : Q;
  Output_P : Z; Output_S : Z;
  Batt_V : Q; Batt_A : Q; Batt_P : Z; SoC : Z;
  Pv_V : Q; Pv_A : Q; Pv_P : Z; Pv_Pch : Z;
  T_Dcdc : Z; T_Inv : Z;
}.

(** One VeDbusService with its update index. *)
Record service := {
  _service : gmap string value;
  _update_index : Z;
}.

Record state := {
  _pv : service;
  _bat : service;
  log : list log_record;
}.

Definition _bump (s : service) : service :=
  let i := (_update_index s + 1) mod 256 in
  {| _service := <["/UpdateIndex" := VInt i]> (_service s); _update_index := i |}.

Definition pv_published (snap : snapshot) : list (string * value) :=
  let pv_p := if negb (Pv_Pch snap =? 0) then Pv_Pch snap else Pv_P snap in
  [ ("/Connected", VInt 1);
    ("/Serial", VStr (Serial snap));
    ("/Ac/Power", VInt pv_p);
    ("/Ac/L1/Power", VInt pv_p);
    ("/Ac/L1/Voltage", VFloat (Pv_V snap));
    ("/Ac/L1/Current", VFloat (Pv_A snap));
    ("/Ac/L1/Frequency", VNone);
    ("/Status/Mode", VStr (Mode snap));
    ("/Status/FaultCode", VInt (Fault snap));
    ("/Status/WarningCode", VInt (Warn snap)) ].

Definition bat_published (snap : snapshot) : list (string * value) :=
  [ ("/Connected", VInt 1);
    ("/Serial", VStr (Serial snap));
    ("/Dc/0/Voltage", VFloat (Batt_V snap));
    ("/Dc/0/Current", VFloat (Batt_A snap));
    ("/Dc/0/Power", VInt (Batt_P snap));
    ("/Soc", VInt (SoC snap));
    ("/Temperature", VInt (T_Inv snap));
    ("/Status/Mode", VStr (Mode snap));
    ("/Status/FaultCode", VInt (Fault snap));
    ("/Status/WarningCode", VInt (Warn snap)) ].

Definition publish (l : list (string * value)) (s : service) : service :=
  _bump {| _service := set_values l (_service s); _update_index := _update_index s |}.

Definition disconnect (s : service) : service :=
  {| _service := <["/Connected" := VInt 0]> (_service s);
     _update_index := _update_index s |}.

Section Poll.
Variable decode_ignore : list Z -> string.
Variable str_of_int : Z -> string.       (* Python's str() on an int *)

Definition collect_snapshot (d : device) : result snapshot :=
  (inv <- mk_instrument d ;;
   wm <- r16 inv 201 false ;;
   let mode := default (str_of_int wm) (MODE_MAP !! wm) in
   r202 <- r16 inv 202 true ;;
   r203 <- r16 inv 203 true ;;
   mains_w <- r16 inv 204 true ;;
   r205 <- r16 inv 205 true ;;
   r206 <- r16 inv 206 true ;;
   r207 <- r16 inv 207 true ;;
   inv_w <- r16 inv 208 true ;;
   inv_chg_w <- r16 inv 209 true ;;
   r210 <- r16 inv 210 true ;;
   r211 <- r16 inv 211 true ;;
   r212 <- r16 inv 212 true ;;
   out_w <- r16 inv 213 true ;;
   out_va <- r16 inv 214 true ;;
   r215 <- r16 inv 215 true ;;
   r216 <- r16 inv 216 true ;;
   batt_w <- r16 inv 217 true ;;
   soc <- r16 inv 229 false ;;
   r219 <- r16 inv 219 true ;;
   r220 <- r16 inv 220 true ;;
   pv_w <- r16 inv 223 true ;;
   pv_chg_w <- r16 inv 224 true ;;
   dcdc_t <- r16 inv 226 true ;;
   inv_t <- r16 inv 227 true ;;
   fault <- r32 inv 100 ;;
   warn <- r32 inv 108 ;;
   serial_no <- read_ascii decode_ignore inv 186 12 ;;
   Ok {| Mode := mode; Fault := fault; Warn := warn; Serial := serial_no;
         Grid_V := scaled r202 (1 # 10); Grid_F := scaled r203 (1 # 100);
         Grid_P := mains_w;
         Inverter_V := scaled r205 (1 # 10); Inverter_A := scaled r206 (1 # 10);
         Inverter_F := scaled r207 (1 # 100);
         Inverter_P := inv_w; Inverter_Pch := inv_chg_w;
         Output_V := scaled r210 (1 # 10); Output_A := scaled r211 (1 # 10);
         Output_F := scaled r212 (1 # 100);
         Output_P := out_w; Output_S := out_va;
         Batt_V := scaled r215 (1 # 10); Batt_A := scaled r216 (1 # 10);
         Batt_P := batt_w; SoC := soc;
         Pv_V := scaled r219 (1 # 10); Pv_A := scaled r220 (1 # 10);
         Pv_P := pv_w; Pv_Pch := pv_chg_w;
         T_Dcdc := dcdc_t; T_Inv := inv_t |})%py.

(** One turn of the [while] of [SumryPublisher._loop]. *)
Definition loop_body (d : device) (s : state) : state * result unit :=
  match collect_snapshot d with
  | Ok snap =>
      ({| _pv := publish (pv_published snap) (_pv s);
          _bat := publish (bat_published snap) (_bat s);
          log := log s |}, Ok tt)
  | Raise _ =>
      ({| _pv := disconnect (_pv s);
          _bat := disconnect (_bat s);
          log := LogError "poll error: %s" :: log s |}, Ok tt)
  end.

(** [_loop] over the polls made before [_stop] is set: an exception
    leaving a turn would end the thread. *)
Fixpoint _loop (ds : list device) (s : state) : state * result unit :=
  match ds with
  | [] => (s, Ok tt)
  | d :: r =>
      match loop_body d s with
      | (s', Ok _) => _loop r s'
      | (s', Raise e) => (s', Raise e)
      end
  end.
End Poll.

(** *** Registration *)

Record config := {
  process_file : string;            (* __file__ *)
  CONNECTION : string;
}.

Definition PRODUCT_NAME_PV : string := "Sumry PV (from inverter DC)".
Definition PRODUCT_NAME_BAT : string := "Sumry Battery (from inverter)".
Definition FIRMWARE_VER : string := "1.0".

Definition _add_mandatory_paths (c : config) (product_name : string)
    (device_instance : Z) : list (string * value) :=
  [ ("/Mgmt/ProcessName", VStr (process_file c));
    ("/Mgmt/ProcessVersion", VStr FIRMWARE_VER);
    ("/DeviceInstance", VInt device_instance);
    ("/ProductName", VStr product_name);
    ("/FirmwareVersion", VStr FIRMWARE_VER);
    ("/Serial", VStr "");
    ("/Connected", VInt 0);
    ("/ProductId", VInt 0);
    ("/Mgmt/Connection", VStr (CONNECTION c));
    ("/UpdateIndex", VInt 0) ].

Definition pv_value_paths : list (string * value) :=
  [ ("/Ac/Power", VNone);
    ("/Ac/L1/Power", VNone);
    ("/Ac/L1/Voltage", VNone);
    ("/Ac/L1/Current", VNone);
    ("/Ac/L1/Frequency", VNone);
    ("/Status/Mode", VStr "");
    ("/Status/FaultCode", VInt 0);
    ("/Status/WarningCode", VInt 0) ].

Definition bat_value_paths : list (string * value) :=
  [ ("/Dc/0/Voltage", VNone);
    ("/Dc/0/Current", VNone);
    ("/Dc/0/Power", VNone);
    ("/Soc", VNone);
    ("/Temperature", VNone);
    ("/Status/Mode", VStr "");
    ("/Status/FaultCode", VInt 0);
    ("/Status/WarningCode", VInt 0) ].

(** [SumryPublisher()]: the PV service with instance 51, the battery
    service with instance 20. *)
Definition init (c : config) : state :=
  {| _pv := {| _service := set_values pv_value_paths
                             (set_values (_add_mandatory_paths c PRODUCT_NAME_PV 51) ∅);
               _update_index := 0 |};
     _bat := {| _service := set_values bat_value_paths
                              (set_values (_add_mandatory_paths c PRODUCT_NAME_BAT 20) ∅);
                _update_index := 0 |};
     log := [ LogInfo "registered Battery service on D-Bus as %s";
              LogInfo "registered PV service on D-Bus as %s" ] |}.

End Service.

(** ** Picking a bus name (multiplus.py, inverter.py) *)

Module BusName.

Section Names.
Variable str_of_int : Z -> string.       (* Python's str() on an int *)

(** [f"{base}_{i}"] *)
Definition candidate (base : string) (i : Z) : string :=
  base +:+ "_" +:+ str_of_int i.

(** The [while True] of [pick_free_service_name], from [i], for at most
    [turns] turns; [owned] is the set of names for which
    [bus.name_has_owner] answers True. *)
Fixpoint pick_from (owned : gset string) (base : string) (i : Z) (turns : nat)
  : option string :=
  match turns with
  | O => None
  | S n =>
      let cand := candidate base i in
      if decide (cand ∈ owned) then pick_from owned base (i + 1) n else Some cand
  end.

Definition pick_free_service_name (owned : gset string) (base : string)
    (turns : nat) : option string :=
  if decide (base ∈ owned) then pick_from owned base 1 turns else Some base.
End Names.

End BusName.

(** ** The mandatory reads of each poller

    The register transactions that stand outside any inner [try], in the
    order the sources make them: single registers with their signedness, and
    the two blocks of [read_ascii(inv, 186, 12)]. *)

Module Reads.

Definition signed_from (a b : Z) : list (Z * bool) :=
  map (fun k => (k, true)) (map (fun i => a + Z.of_nat i) (seq 0 (Z.to_nat (b - a + 1)))).

Definition emulator : list (Z * bool) :=
  (201, false) :: signed_from 202 204 ++ signed_from 210 217.

Definition inverter : list (Z * bool) :=
  (201, false) :: signed_from 210 217 ++ signed_from 205 208
  ++ signed_from 226 227
  ++ [ (100, false); (101, false); (108, false); (109, false) ].

Definition service : list (Z * bool) :=
  (201, false) :: signed_from 202 217 ++ [ (229, false) ]
  ++ signed_from 219 220 ++ signed_from 223 224 ++ signed_from 226 227
  ++ [ (100, false); (101, false); (108, false); (109, false) ].

Definition serial_blocks : list (Z * Z) := [ (186, 6); (192, 6) ].

Definition answered {A} (o : option A) : bool :=
  match o with Some _ => true | None => false end.

(** The instrument opens and every listed transaction answers. *)
Definition all_answer (d : device) (regs : list (Z * bool)) (blocks : list (Z * Z))
  : bool :=
  dev_open d
  && forallb (fun a => answered (dev_register d (fst a) (snd a))) regs
  && forallb (fun b => answered (dev_registers d (fst b) (snd b))) blocks.

(** A link on which nothing answers. *)
Definition dead : device :=
  {| dev_open := true;
     dev_register := fun _ _ => None;
     dev_registers := fun _ _ => None |}.

(** A link that answers [v] on every register and [ws] on every block. *)
Definition steady (v : Z) (ws : list Z) : device :=
  {| dev_open := true;
     dev_register := fun _ _ => Some v;
     dev_registers := fun _ _ => Some ws |}.

(** A link that answers from a table of registers, 0 where the table is
    silent. *)
Definition table (regs : gmap Z Z) : device :=
  {| dev_open := true;
     dev_register := fun a _ => Some (default 0 (regs !! a));
     dev_registers := fun _ n => Some (repeat 0 (Z.to_nat n)) |}.

End Reads.

(** ** Concrete inputs *)

Module Examples.

(** The defaults of the configuration block. *)
Definition config : Emulator.config :=
  {| Emulator.ANENJI_PORT := "/dev/ttyUSB1";
     Emulator.POLL_SEC := 2;
     Emulator.DEVICE_INSTANCE := 28;
     Emulator.INVERTER_MAX_POWER := 3000;
     Emulator.process_file := "dbus-multiplus-emulator.py";
     Emulator.time_driver_started := 1700000000 |}.

(** A decoder for the 7-bit range: other bytes are dropped. *)
Definition ascii_only (b : list Z) : string :=
  string_of_list_ascii
    (map (fun x => Ascii.ascii_of_N (Z.to_N x))
         (List.filter (fun x => (0 <=? x) && (x <? 128)) b)).

Definition decimal (n : Z) : string := pretty n.

(** A poll during which the link is silent. *)
Definition silent_tick : Emulator.tick :=
  {| Emulator.dev := Reads.dead;
     Emulator.save_clock := 1700000100;
     Emulator.write := WriteOk;
     Emulator.uptime_clock := 1700000100 |}.

(** A poll that reads the registers of [regs]; the disk accepts a write. *)
Definition tick_of (regs : gmap Z Z) (now : Q) : Emulator.tick :=
  {| Emulator.dev := Reads.table regs;
     Emulator.save_clock := now;
     Emulator.write := WriteOk;
     Emulator.uptime_clock := now |}.

(** Off-grid (3) with 100.0 V and 500 W read on the AC input. *)
Definition offgrid_regs : gmap Z Z :=
  list_to_map [ (201, 3); (202, 1000); (204, 500) ].

(** On mains (2) at 230.0 V: 1000 W in, 800 W out. *)
Definition mains_regs : gmap Z Z :=
  list_to_map [ (201, 2); (202, 2300); (203, 5000); (204, 1000);
                (210, 2300); (211, 35); (212, 5000); (213, 800); (214, 820);
                (215, 520); (216, 40); (217, 200); (229, 87) ].

(** On mains, feeding back: -300 W on the input, nothing on the output. *)
Definition export_regs : gmap Z Z :=
  list_to_map [ (201, 2); (202, 2300); (204, -300); (213, 0) ].

(** The sample of such a poll: 230.0 V, -300 W in, 0 W out. *)
Definition export_sample : Emulator.sample :=
  {| Emulator.wm := 2;
     Emulator.in_v := 230; Emulator.in_f := 50; Emulator.in_p := -300;
     Emulator.in_i := - (30 # 23);
     Emulator.out_v := 230; Emulator.out_i := 0; Emulator.out_f := 50;
     Emulator.out_p := 0; Emulator.out_s := 0;
     Emulator.dc_v := 52; Emulator.dc_i := 0; Emulator.dc_p := 0;
     Emulator.soc := Some 87 |}.

(** The sample that [mains_regs] decodes to. *)
Definition mains_sample : Emulator.sample :=
  {| Emulator.wm := 2;
     Emulator.in_v := Emulator.scaled 2300 (1 # 10);
     Emulator.in_f := Emulator.scaled 5000 (1 # 100);
     Emulator.in_p := 1000;
     Emulator.in_i := inject_Z 1000 / Emulator.scaled 2300 (1 # 10);
     Emulator.out_v := Emulator.scaled 2300 (1 # 10);
     Emulator.out_i := Emulator.scaled 35 (1 # 10);
     Emulator.out_f := Emulator.scaled 5000 (1 # 100);
     Emulator.out_p := 800; Emulator.out_s := 820;
     Emulator.dc_v := Emulator.scaled 520 (1 # 10);
     Emulator.dc_i := Emulator.scaled 40 (1 # 10);
     Emulator.dc_p := 200;
     Emulator.soc := Some 87 |}.

(** A link on which every register answers 2300 but the state of charge
    (229), which times out. *)
Definition no_soc : device :=
  {| dev_open := true;
     dev_register := fun a _ => if a =? 229 then None else Some 2300;
     dev_registers := fun _ _ => Some [ 0 ] |}.

Definition no_soc_tick : Emulator.tick :=
  {| Emulator.dev := no_soc;
     Emulator.save_clock := 1700000100;
     Emulator.write := WriteOk;
     Emulator.uptime_clock := 1700000100 |}.

Definition some_energy : Emulator.energy :=
  {| Emulator.AcIn1ToInverter_kWh := 3 # 2;
     Emulator.AcIn1ToAcOut_kWh := 9 # 4;
     Emulator.InverterToAcOut_kWh := 1 # 8 |}.

Definition inverter0 : Inverter.state :=
  {| Inverter.svc := ∅; Inverter._idx := 0; Inverter.log := [] |}.

Definition service0 : Service.state :=
  {| Service._pv := {| Service._service := ∅; Service._update_index := 0 |};
     Service._bat := {| Service._service := ∅; Service._update_index := 0 |};
     Service.log := [] |}.

End Examples.

(** The energy of one sample of [p] watts over the poll interval,
    [(p / 1000.0) * (dt / 3600.0)]. *)
Abbreviation kwh c p := ((inject_Z p / 1000) * (Emulator.POLL_SEC c / 3600))%Q.

(** ** What a run of polls and a loaded file are measured by *)

Module Observe.

(** The polls of a run whose acquisition succeeds. *)
Definition polls_ok (ts : list Emulator.tick) : nat :=
  length (List.filter (fun t => is_ok (Emulator.acquire (Emulator.dev t))) ts).



(** The paths of a block of assignments. *)
Definition paths (l : list (string * value)) : gset string :=
  list_to_set (map fst l).

End Observe.

(** * Properties *)

(** ** Mode and state tables *)

Lemma member_in_tuple (wm : Z) (s : list Z) : Spec.member wm s = in_tuple wm s.
Proof.
  unfold Spec.member, in_tuple.
  destruct (In_dec Z.eq_dec wm s) as [Hin | Hout]; symmetry.
  - apply existsb_exists. exists wm. split; [exact Hin | apply Z.eqb_refl].
  - apply Bool.not_true_is_false. intros Hex.
    apply existsb_exists in Hex as (y & Hy & Heq).
    apply Z.eqb_eq in Heq. subst y. exact (Hout Hy).
Qed.

(** Unfolds the tables of the sources and of the specification to chains of
    integer tests, then decides each test. *)
Ltac split_on_wm wm :=
  repeat match goal with
         | |- context [Z.eqb wm ?k] =>
             destruct (Z.eqb_spec wm k); [subst wm | ]; cbn
         end;
  try reflexivity; try lia.

Ltac tables :=
  unfold Spec.vebus_mode, Spec.vebus_state, Spec.inverter_mode,
    Spec.inverter_state, Spec.vebus_mode_emulators, Spec.vebus_state_simplified;
  rewrite ?member_in_tuple;
  unfold in_tuple, WorkingMode.PowerOn, WorkingMode.Standby, WorkingMode.Mains,
    WorkingMode.OffGrid, WorkingMode.Bypass, WorkingMode.Charging,
    WorkingMode.Fault; cbn [existsb].

(** C1, as stated, fails: on Mains (2) the two MultiPlus emulators publish
    ChargerOnly (1), not On (3). *)
Lemma vebus_mode_mains_not_on :
  Celmaibun.vebus_mode_from_wm WorkingMode.Mains = Spec.ChargerOnly
  /\ Emulator.vebus_mode_from_wm WorkingMode.Mains = Spec.ChargerOnly
  /\ Spec.vebus_mode WorkingMode.Mains = Spec.On
  /\ Celmaibun.vebus_mode_from_wm WorkingMode.Mains
     <> Spec.vebus_mode WorkingMode.Mains
  /\ Emulator.vebus_mode_from_wm WorkingMode.Mains
     <> Spec.vebus_mode WorkingMode.Mains.
Proof. repeat split; vm_compute; congruence. Qed.

(** C1 (amended): on every working-mode input, multiplus.py publishes the
    mode table of the specification (Charging -> ChargerOnly, {OffGrid,
    Mains, Bypass} -> On, else Off), while celmaibun.py and
    dbus-multiplus-emulator.py publish OffGrid -> On, {Mains, Bypass,
    Charging} -> ChargerOnly, else Off. *)
Theorem vebus_mode_tables (wm : Z) :
  Multiplus.vebus_mode_from_wm wm = Spec.vebus_mode wm
  /\ Celmaibun.vebus_mode_from_wm wm = Spec.vebus_mode_emulators wm
  /\ Emulator.vebus_mode_from_wm wm = Spec.vebus_mode_emulators wm
  /\ map Multiplus.vebus_mode_from_wm [0; 1; 2; 3; 4; 5; 6] = [4; 4; 3; 3; 3; 1; 4]
  /\ map Celmaibun.vebus_mode_from_wm [0; 1; 2; 3; 4; 5; 6] = [4; 4; 1; 3; 1; 1; 4]
  /\ map Emulator.vebus_mode_from_wm [0; 1; 2; 3; 4; 5; 6] = [4; 4; 1; 3; 1; 1; 4].
Proof.
  unfold Multiplus.vebus_mode_from_wm, Celmaibun.vebus_mode_from_wm,
    Emulator.vebus_mode_from_wm.
  tables. repeat split; split_on_wm wm.
Qed.

(** C2, as stated, fails: on Charging (5) multiplus.py publishes Inverting
    (9), not Bulk (3), and so it does on Mains and Bypass. *)
Lemma vebus_state_charging_not_bulk :
  Multiplus.vebus_state_from_wm WorkingMode.Charging = Spec.Inverting
  /\ Spec.vebus_state WorkingMode.Charging = Spec.Bulk
  /\ Multiplus.vebus_state_from_wm WorkingMode.Charging
     <> Spec.vebus_state WorkingMode.Charging
  /\ Multiplus.vebus_state_from_wm WorkingMode.Mains
     <> Spec.vebus_state WorkingMode.Mains
  /\ Multiplus.vebus_state_from_wm WorkingMode.Bypass
     <> Spec.vebus_state WorkingMode.Bypass.
Proof. repeat split; vm_compute; congruence. Qed.

(** C2 (amended): on every working-mode input, celmaibun.py and
    dbus-multiplus-emulator.py publish the state table of the specification
    (Charging -> Bulk, OffGrid -> Inverting, {Mains, Bypass} -> Bulk, else
    LowPower), while multiplus.py publishes Inverting for {OffGrid, Mains,
    Bypass, Charging} and LowPower otherwise. *)
Theorem vebus_state_tables (wm : Z) :
  Celmaibun.vebus_state_from_wm wm = Spec.vebus_state wm
  /\ Emulator.vebus_state_from_wm wm = Spec.vebus_state wm
  /\ Multiplus.vebus_state_from_wm wm = Spec.vebus_state_simplified wm
  /\ map Celmaibun.vebus_state_from_wm [0; 1; 2; 3; 4; 5; 6] = [1; 1; 3; 9; 3; 3; 1]
  /\ map Emulator.vebus_state_from_wm [0; 1; 2; 3; 4; 5; 6] = [1; 1; 3; 9; 3; 3; 1]
  /\ map Multiplus.vebus_state_from_wm [0; 1; 2; 3; 4; 5; 6] = [1; 1; 9; 9; 9; 9; 1].
Proof.
  unfold Multiplus.vebus_state_from_wm, Celmaibun.vebus_state_from_wm,
    Emulator.vebus_state_from_wm.
  tables. repeat split; split_on_wm wm.
Qed.

(** C7: inverter.py publishes, on every working-mode input, Mode = On (1)
    for {OffGrid, Mains, Bypass, Charging} and Off (4) for {Standby, PowerOn,
    Fault}; State = Standby (1) for {Standby, PowerOn, Fault} and Inverting
    (9) for the other four.  Any code outside 0..6 reads as Off / Standby. *)
Theorem inverter_mode_state_tables (wm : Z) :
  Inverter.venus_mode_from_wm wm = Spec.inverter_mode wm
  /\ Inverter.venus_state_from_wm wm = Spec.inverter_state wm
  /\ map Inverter.venus_mode_from_wm [0; 1; 2; 3; 4; 5; 6] = [4; 4; 1; 1; 1; 1; 4]
  /\ map Inverter.venus_state_from_wm [0; 1; 2; 3; 4; 5; 6] = [1; 1; 9; 9; 9; 9; 1].
Proof.
  split; [ | split; [ | split; reflexivity ] ].
  - unfold Inverter.venus_mode_from_wm. tables. split_on_wm wm.
  - unfold Inverter.venus_state_from_wm. tables. split_on_wm wm.
Qed.

(** ** The derived AC-input current *)

Lemma Qltb_lt (x y : Q) : Qltb x y = true <-> (x < y)%Q.
Proof.
  unfold Qltb. rewrite Bool.negb_true_iff. split.
  - intros H. apply Qnot_le_lt. intros Hle.
    apply Qle_bool_iff in Hle. congruence.
  - intros H. apply Bool.not_true_is_false. intros Hle.
    apply Qle_bool_iff in Hle. exact (Qlt_not_le _ _ H Hle).
Qed.

Lemma Qltb_nonzero (k v : Q) :
  (0 <= k)%Q -> Qltb k v = true -> Qeq_bool v 0 = false.
Proof.
  intros Hk Hlt. apply Qltb_lt in Hlt.
  apply Bool.not_true_is_false. intros Heq. apply Qeq_bool_iff in Heq.
  rewrite Heq in Hlt. exact (Qlt_not_le _ _ Hlt Hk).
Qed.

(** The guarded division behind a positive threshold never raises. *)
Lemma guarded_truediv (k : Q) (p : Z) (v : Q) :
  (0 <= k)%Q ->
  (if Qltb k v then truediv (inject_Z p) v else Ok 0%Q)
  = Ok (if Qltb k v then (inject_Z p / v)%Q else 0%Q).
Proof.
  intros Hk. destruct (Qltb k v) eqn:Hg; [ | reflexivity].
  unfold truediv. now rewrite (Qltb_nonzero k v Hk Hg).
Qed.

Lemma emulator_derive_in_i (p : Z) (v : Q) :
  Emulator.derive_in_i p v = Ok (if Qltb 5 v then (inject_Z p / v)%Q else 0%Q).
Proof. apply guarded_truediv. discriminate. Qed.

Lemma celmaibun_derive_in_i (p : Z) (v : Q) :
  Celmaibun.derive_in_i p v = Ok (if Qltb 20 v then (inject_Z p / v)%Q else 0%Q).
Proof. apply guarded_truediv. discriminate. Qed.

Lemma multiplus_derive_in_i (p : Z) (v : Q) :
  Multiplus.derive_in_i p v = Ok (if Qnonzero v then (inject_Z p / v)%Q else 0%Q).
Proof.
  unfold Multiplus.derive_in_i, Qnonzero, truediv.
  destruct (Qeq_bool v 0); reflexivity.
Qed.

(** Runs through the register reads of an acquisition: each one either
    answers or raises ModbusError.  [tac] rewrites what stands between two
    reads. *)
Ltac reads_with tac :=
  unfold Modbus.mk_instrument, Modbus.r32, Modbus.read_ascii,
    Modbus.read_registers, Modbus.r16;
  unfold bind, try_except; cbv beta iota;
  repeat match goal with
         | |- context [Z.add (Z.pos ?a) (Z.pos ?b)] =>
             let v := eval vm_compute in (Z.add (Z.pos a) (Z.pos b)) in
             change (Z.add (Z.pos a) (Z.pos b)) with v
         | |- context [Z.sub (Z.pos ?a) (Z.pos ?b)] =>
             let v := eval vm_compute in (Z.sub (Z.pos a) (Z.pos b)) in
             change (Z.sub (Z.pos a) (Z.pos b)) with v
         end;
  repeat first
    [ match goal with
      | |- context [if dev_open ?d then _ else _] =>
          destruct (dev_open d) eqn:?; cbv beta iota
      | |- context [match dev_register ?i ?a ?s with _ => _ end] =>
          destruct (dev_register i a s) eqn:?; cbv beta iota
      | |- context [match dev_registers ?i ?a ?n with _ => _ end] =>
          destruct (dev_registers i a n) eqn:?; cbv beta iota
      end
    | progress tac; cbv beta iota ].

Ltac reads := reads_with idtac.

(** What an acquisition of dbus-multiplus-emulator.py can end in. *)
Lemma emulator_acquire_outcome (d : device) :
  match Emulator.acquire d with
  | Ok m =>
      Emulator.in_i m
      = (if Qltb 5 (Emulator.in_v m)
         then (inject_Z (Emulator.in_p m) / Emulator.in_v m)%Q else 0%Q)
  | Raise e => e = ModbusError
  end.
Proof.
  unfold Emulator.acquire.
  reads_with ltac:(rewrite emulator_derive_in_i); reflexivity.
Qed.

Lemma celmaibun_acquire_outcome (d : device) :
  match Celmaibun.acquire d with
  | Ok m =>
      Celmaibun.in_i m
      = (if Qltb 20 (Celmaibun.in_v m)
         then (inject_Z (Celmaibun.in_p m) / Celmaibun.in_v m)%Q else 0%Q)
  | Raise e => e = ModbusError
  end.
Proof.
  unfold Celmaibun.acquire.
  reads_with ltac:(rewrite celmaibun_derive_in_i); reflexivity.
Qed.

Lemma multiplus_collect_outcome (dec : list Z -> string) (d : device) :
  match Multiplus.collect_snapshot dec d with
  | Ok m =>
      Multiplus.In_I m
      = (if Qnonzero (Multiplus.In_V m)
         then (inject_Z (Multiplus.In_P m) / Multiplus.In_V m)%Q else 0%Q)
  | Raise e => e = ModbusError
  end.
Proof.
  unfold Multiplus.collect_snapshot.
  reads_with ltac:(rewrite multiplus_derive_in_i); reflexivity.
Qed.

(** C10: the derived AC-input current is the quotient in_p / in_v only
    behind the guard of its variant (in_v nonzero in multiplus.py, in_v > 20
    in celmaibun.py, in_v > 5 in dbus-multiplus-emulator.py) and 0.0
    otherwise; the derivation returns for every decoded power and voltage,
    and no acquisition ends in a ZeroDivisionError. *)
Theorem in_i_never_divides_by_zero (dec : list Z -> string) (d : device)
    (p : Z) (v : Q) :
  Multiplus.derive_in_i p v
    = Ok (if Qnonzero v then (inject_Z p / v)%Q else 0%Q)
  /\ Celmaibun.derive_in_i p v
    = Ok (if Qltb 20 v then (inject_Z (p) / v)%Q else 0%Q)
  /\ Emulator.derive_in_i p v
    = Ok (if Qltb 5 v then (inject_Z p / v)%Q else 0%Q)
  /\ Multiplus.collect_snapshot dec d <> Raise ZeroDivisionError
  /\ Celmaibun.acquire d <> Raise ZeroDivisionError
  /\ Emulator.acquire d <> Raise ZeroDivisionError.
Proof.
  repeat split.
  - apply multiplus_derive_in_i.
  - apply celmaibun_derive_in_i.
  - apply emulator_derive_in_i.
  - pose proof (multiplus_collect_outcome dec d) as H.
    destruct (Multiplus.collect_snapshot dec d); congruence.
  - pose proof (celmaibun_acquire_outcome d) as H.
    destruct (Celmaibun.acquire d); congruence.
  - pose proof (emulator_acquire_outcome d) as H.
    destruct (Emulator.acquire d); congruence.
Qed.

(** ** A failed acquisition *)

Ltac finish_answers :=
  cbn; rewrite ?Bool.andb_false_r; try reflexivity;
  repeat match goal with
         | |- context [dev_register ?d ?a ?s] => destruct (dev_register d a s)
         | |- context [dev_registers ?d ?a ?n] => destruct (dev_registers d a n)
         end;
  reflexivity.

Ltac list_reads regs :=
  unfold Reads.all_answer;
  let l := eval vm_compute in regs in change regs with l;
  cbn [forallb fst snd Reads.serial_blocks].

(** An acquisition succeeds exactly when every mandatory read answers. *)
Lemma emulator_acquire_ok (d : device) :
  is_ok (Emulator.acquire d) = Reads.all_answer d Reads.emulator [].
Proof.
  unfold Emulator.acquire. list_reads Reads.emulator.
  reads_with ltac:(rewrite emulator_derive_in_i); finish_answers.
Qed.

Lemma inverter_collect_ok (dec : list Z -> string) (d : device) :
  is_ok (Inverter.collect_snapshot dec d)
  = Reads.all_answer d Reads.inverter Reads.serial_blocks.
Proof.
  unfold Inverter.collect_snapshot. list_reads Reads.inverter.
  reads; finish_answers.
Qed.

Lemma service_collect_ok (dec : list Z -> string) (str : Z -> string) (d : device) :
  is_ok (Service.collect_snapshot dec str d)
  = Reads.all_answer d Reads.service Reads.serial_blocks.
Proof.
  unfold Service.collect_snapshot. list_reads Reads.service.
  reads; finish_answers.
Qed.

Lemma set_values_lookup (p : string) (l : list (string * value))
    (m : gmap string value) :
  set_values l m !! p = match assigned p l with Some v => Some v | None => m !! p end.
Proof.
  revert m. induction l as [| [q v] r IH]; intros m; [reflexivity | ].
  change (set_values ((q, v) :: r) m) with (set_values r (<[q:=v]> m)).
  rewrite IH. cbn [assigned].
  destruct (assigned p r); [reflexivity | ].
  destruct (String.eqb_spec p q) as [-> | Hne].
  - apply lookup_insert_eq.
  - apply lookup_insert_ne. congruence.
Qed.

Lemma save_energy_returns (now : Q) (w : write_outcome) (s : Emulator.state) :
  snd (Emulator._save_energy now w s) = Ok tt
  /\ Emulator.svc (fst (Emulator._save_energy now w s)) = Emulator.svc s
  /\ Emulator._idx (fst (Emulator._save_energy now w s)) = Emulator._idx s
  /\ Emulator._energy (fst (Emulator._save_energy now w s)) = Emulator._energy s.
Proof.
  unfold Emulator._save_energy.
  destruct (Qltb _ _); [ | destruct w]; repeat split.
Qed.

(** [update] always hands True back to the timer. *)
Lemma emulator_update_returns (c : Emulator.config) (t : Emulator.tick)
    (s : Emulator.state) :
  snd (Emulator.update c t s) = Ok true.
Proof.
  unfold Emulator.update. destruct (Emulator.acquire _); [ | reflexivity].
  match goal with
  | |- context [Emulator._save_energy ?n ?w ?s'] =>
      pose proof (save_energy_returns n w s') as (Hr & _);
      destruct (Emulator._save_energy n w s') as [s1 r1]
  end.
  cbn in Hr. subst r1. reflexivity.
Qed.

Lemma emulator_run_step (c : Emulator.config) (t : Emulator.tick)
    (ts : list Emulator.tick) (s : Emulator.state) :
  Emulator.run c (t :: ts) s = Emulator.run c ts (fst (Emulator.update c t s)).
Proof.
  cbn [Emulator.run]. pose proof (emulator_update_returns c t s) as H.
  destruct (Emulator.update c t s) as [s' r]. cbn in H. subst r. reflexivity.
Qed.

(** After a poll, /Connected tells whether the acquisition succeeded. *)
Lemma emulator_connected (c : Emulator.config) (t : Emulator.tick)
    (s : Emulator.state) :
  Emulator.svc (fst (Emulator.update c t s)) !! "/Connected"
  = Some (VInt (if is_ok (Emulator.acquire (Emulator.dev t)) then 1 else 0)).
Proof.
  unfold Emulator.update. destruct (Emulator.acquire _) as [m | e]; cbn [is_ok].
  - match goal with
    | |- context [Emulator._save_energy ?n ?w ?s'] =>
        pose proof (save_energy_returns n w s') as (Hr & Hsvc & _);
        destruct (Emulator._save_energy n w s') as [s1 r1]
    end.
    cbn [fst snd] in Hr, Hsvc. subst r1. cbn [fst Emulator.svc Emulator.set_svc Emulator.set_idx].
    rewrite Hsvc. cbn [Emulator.svc Emulator.set_svc Emulator.set_energy].
    rewrite !set_values_lookup.
    unfold Emulator.telemetry. destruct (Emulator.soc m); reflexivity.
  - cbn. apply lookup_insert_eq.
Qed.

Lemma inverter_connected (dec : list Z -> string) (d : device) (s : Inverter.state) :
  Inverter.svc (fst (Inverter.tick dec d s)) !! "/Connected"
  = Some (VInt (if is_ok (Inverter.collect_snapshot dec d) then 1 else 0)).
Proof.
  unfold Inverter.tick. destruct (Inverter.collect_snapshot dec d) as [m | e]; cbn [is_ok fst].
  - unfold Inverter.publish, Inverter._bump. cbn [Inverter.svc Inverter.set_svc].
    rewrite lookup_insert_ne by discriminate.
    rewrite set_values_lookup. reflexivity.
  - cbn. apply lookup_insert_eq.
Qed.

Lemma service_connected (l : list (string * value)) (s : Service.service) :
  assigned "/Connected" l = Some (VInt 1) ->
  Service._service (Service.publish l s) !! "/Connected" = Some (VInt 1).
Proof.
  intros Hl. unfold Service.publish, Service._bump. cbn [Service._service].
  rewrite lookup_insert_ne by discriminate.
  rewrite set_values_lookup, Hl. reflexivity.
Qed.

(** C5: when the acquisition of a poll fails, the poll publishes nothing
    but /Connected = 0: every other path, the update index and (in the
    emulator) the energy counters, the save time and the energy file are
    as before.  This holds for the timer callbacks of
    dbus-multiplus-emulator.py and inverter.py and for the loop turn of
    service.py.  An acquisition fails exactly when the instrument or one of
    the mandatory reads does not answer; /Connected is 1 after a poll exactly
    when its acquisition succeeded; and every poll returns normally (True to
    the timer, no exception out of the loop turn), so polling goes on. *)
Theorem failed_acquisition_only_disconnects
    (dec : list Z -> string) (str : Z -> string)
    (c : Emulator.config) (t : Emulator.tick) (d : device)
    (es : Emulator.state) (vs : Inverter.state) (ss : Service.state) :
  (is_ok (Emulator.acquire (Emulator.dev t)) = false ->
   let es' := fst (Emulator.update c t es) in
   Emulator.svc es' = <["/Connected" := VInt 0]> (Emulator.svc es)
   /\ Emulator.svc es' !! "/UpdateIndex" = Emulator.svc es !! "/UpdateIndex"
   /\ Emulator._idx es' = Emulator._idx es
   /\ Emulator._energy es' = Emulator._energy es
   /\ Emulator._last_energy_save es' = Emulator._last_energy_save es
   /\ Emulator.energy_file es' = Emulator.energy_file es)
  /\ (is_ok (Inverter.collect_snapshot dec d) = false ->
      let vs' := fst (Inverter.tick dec d vs) in
      Inverter.svc vs' = <["/Connected" := VInt 0]> (Inverter.svc vs)
      /\ Inverter._idx vs' = Inverter._idx vs)
  /\ (is_ok (Service.collect_snapshot dec str d) = false ->
      let ss' := fst (Service.loop_body dec str d ss) in
      Service._pv ss' = Service.disconnect (Service._pv ss)
      /\ Service._bat ss' = Service.disconnect (Service._bat ss)
      /\ Service._update_index (Service._pv ss')
         = Service._update_index (Service._pv ss)
      /\ Service._update_index (Service._bat ss')
         = Service._update_index (Service._bat ss))
  /\ (is_ok (Emulator.acquire d) = Reads.all_answer d Reads.emulator []
      /\ is_ok (Inverter.collect_snapshot dec d)
         = Reads.all_answer d Reads.inverter Reads.serial_blocks
      /\ is_ok (Service.collect_snapshot dec str d)
         = Reads.all_answer d Reads.service Reads.serial_blocks)
  /\ (Emulator.svc (fst (Emulator.update c t es)) !! "/Connected"
      = Some (VInt (if is_ok (Emulator.acquire (Emulator.dev t)) then 1 else 0))
      /\ Inverter.svc (fst (Inverter.tick dec d vs)) !! "/Connected"
         = Some (VInt (if is_ok (Inverter.collect_snapshot dec d) then 1 else 0))
      /\ Service._service (Service._pv (fst (Service.loop_body dec str d ss)))
           !! "/Connected"
         = Some (VInt (if is_ok (Service.collect_snapshot dec str d) then 1 else 0))
      /\ Service._service (Service._bat (fst (Service.loop_body dec str d ss)))
           !! "/Connected"
         = Some (VInt (if is_ok (Service.collect_snapshot dec str d) then 1 else 0)))
  /\ (snd (Emulator.update c t es) = Ok true
      /\ snd (Inverter.tick dec d vs) = Ok true
      /\ snd (Service.loop_body dec str d ss) = Ok tt)
  /\ ((forall ts, Emulator.run c (t :: ts) es
                  = Emulator.run c ts (fst (Emulator.update c t es)))
      /\ (forall ds, Inverter.run dec (d :: ds) vs
                     = Inverter.run dec ds (fst (Inverter.tick dec d vs)))
      /\ (forall ds, Service._loop dec str (d :: ds) ss
                     = Service._loop dec str ds
                         (fst (Service.loop_body dec str d ss)))).
Proof.
  repeat apply conj.
  - unfold Emulator.update.
    destruct (Emulator.acquire _); cbn [is_ok]; [discriminate | intros _].
    cbn. repeat split. apply lookup_insert_ne. discriminate.
  - unfold Inverter.tick.
    destruct (Inverter.collect_snapshot _ _); cbn [is_ok]; [discriminate | intros _].
    cbn. split; reflexivity.
  - unfold Service.loop_body.
    destruct (Service.collect_snapshot _ _ _); cbn [is_ok]; [discriminate | intros _].
    cbn. repeat split.
  - apply emulator_acquire_ok.
  - apply inverter_collect_ok.
  - apply service_collect_ok.
  - apply emulator_connected.
  - apply inverter_connected.
  - unfold Service.loop_body.
    destruct (Service.collect_snapshot _ _ _); cbn [is_ok fst Service._pv].
    + apply service_connected. reflexivity.
    + apply lookup_insert_eq.
  - unfold Service.loop_body.
    destruct (Service.collect_snapshot _ _ _); cbn [is_ok fst Service._bat].
    + apply service_connected. reflexivity.
    + apply lookup_insert_eq.
  - apply emulator_update_returns.
  - unfold Inverter.tick. destruct (Inverter.collect_snapshot _ _); reflexivity.
  - unfold Service.loop_body. destruct (Service.collect_snapshot _ _ _); reflexivity.
  - intros ts. apply emulator_run_step.
  - intros ds. cbn [Inverter.run]. unfold Inverter.tick.
    destruct (Inverter.collect_snapshot _ _); reflexivity.
  - intros ds. cbn [Service._loop]. unfold Service.loop_body.
    destruct (Service.collect_snapshot _ _ _); reflexivity.
Qed.

(** On a silent link the three pollers only mark themselves disconnected. *)
Lemma failed_acquisition_on_silent_link :
  (is_ok (Emulator.acquire Reads.dead) = false
   /\ is_ok (Inverter.collect_snapshot Examples.ascii_only Reads.dead) = false
   /\ is_ok (Service.collect_snapshot Examples.ascii_only Examples.decimal
               Reads.dead) = false)
  /\ Emulator.svc
       (fst (Emulator.update Examples.config Examples.silent_tick
               (Emulator.boot Missing)))
     = <["/Connected" := VInt 0]> ∅
  /\ Emulator._energy
       (fst (Emulator.update Examples.config Examples.silent_tick
               (Emulator.boot Missing)))
     = Emulator.energy0
  /\ Inverter.svc (fst (Inverter.tick Examples.ascii_only Reads.dead Examples.inverter0))
     = <["/Connected" := VInt 0]> ∅
  /\ Service._pv (fst (Service.loop_body Examples.ascii_only Examples.decimal
                         Reads.dead Examples.service0))
     = Service.disconnect (Service._pv Examples.service0).
Proof.
  destruct (failed_acquisition_only_disconnects
              Examples.ascii_only Examples.decimal Examples.config
              Examples.silent_tick Reads.dead (Emulator.boot Missing)
              Examples.inverter0 Examples.service0)
    as (He & Hv & Hs & _).
  split; [repeat split | ].
  destruct (He eq_refl) as (He1 & _ & _ & He2 & _).
  destruct (Hv eq_refl) as (Hv1 & _).
  destruct (Hs eq_refl) as (Hs1 & _).
  repeat split; assumption.
Defined.

(** ** Loading and saving the energy counters *)

(** A turn of the loading loop on a document that is not an object never
    assigns a counter. *)
Lemma load_key_not_dict (data : json) (k : string) (e : Emulator.energy) :
  (forall d, data <> JDict d) -> fst (Emulator.load_key data k e) = e.
Proof.
  intros Hnd. destruct data; cbn; try reflexivity.
  - destruct (Emulator.is_substring k s); reflexivity.
  - destruct (existsb (Emulator.is_str k) l); reflexivity.
  - exfalso. exact (Hnd d eq_refl).
Qed.

Lemma load_keys_not_dict (data : json) (ks : list string) (e : Emulator.energy) :
  (forall d, data <> JDict d) -> fst (Emulator.load_keys data ks e) = e.
Proof.
  intros Hnd. revert e. induction ks as [| k r IH]; intros e; [reflexivity | ].
  cbn [Emulator.load_keys].
  pose proof (load_key_not_dict data k e Hnd) as Hk.
  destruct (Emulator.load_key data k e) as [e' [u | x]]; cbn [fst] in Hk; subst e'.
  - apply IH.
  - reflexivity.
Qed.

(** [_load_energy] catches whatever its body raises. *)
Lemma load_energy_returns (s : Emulator.state) :
  snd (Emulator._load_energy s) = Ok tt.
Proof.
  unfold Emulator._load_energy.
  destruct (Emulator.read_json _); [ | reflexivity].
  destruct (Emulator.load_keys _ _ _) as [e' [u | x]]; reflexivity.
Qed.

(** It never touches the file, the save time, the service or the index. *)
Lemma load_energy_frame (s : Emulator.state) :
  let s' := fst (Emulator._load_energy s) in
  Emulator.energy_file s' = Emulator.energy_file s
  /\ Emulator._last_energy_save s' = Emulator._last_energy_save s
  /\ Emulator.svc s' = Emulator.svc s
  /\ Emulator._idx s' = Emulator._idx s.
Proof.
  unfold Emulator._load_energy.
  destruct (Emulator.read_json _); [ | repeat split].
  destruct (Emulator.load_keys _ _ _) as [e' [u | x]]; repeat split.
Qed.

Lemma load_energy_no_counters (s : Emulator.state) :
  Emulator.no_counters (Emulator.energy_file s) = true ->
  Emulator._energy (fst (Emulator._load_energy s)) = Emulator._energy s.
Proof.
  intros Hf. unfold Emulator._load_energy.
  destruct (Emulator.energy_file s) as [ | | | doc]; try reflexivity.
  cbn [Emulator.read_json].
  assert (Hnd : forall d, doc <> JDict d).
  { intros d ->. discriminate Hf. }
  pose proof (load_keys_not_dict doc Emulator.energy_keys (Emulator._energy s) Hnd) as Hk.
  destruct (Emulator.load_keys _ _ _) as [e' [u | x]]; cbn [fst] in Hk; subst e';
    reflexivity.
Qed.

(** C9: two calls of [_load_energy] in a row on a missing file (or an
    unreadable one, or one that does not hold a JSON object) raise nothing,
    and after each of them the three counters of a fresh process are 0. *)
Theorem load_twice_on_missing_file (f : file) :
  Emulator.no_counters f = true ->
  let first := Emulator._load_energy (Emulator.boot f) in
  let second := Emulator._load_energy (fst first) in
  snd first = Ok tt
  /\ Emulator._energy (fst first) = Emulator.energy0
  /\ snd second = Ok tt
  /\ Emulator._energy (fst second) = Emulator.energy0
  /\ Emulator.AcIn1ToInverter_kWh (Emulator._energy (fst second)) = 0%Q
  /\ Emulator.AcIn1ToAcOut_kWh (Emulator._energy (fst second)) = 0%Q
  /\ Emulator.InverterToAcOut_kWh (Emulator._energy (fst second)) = 0%Q.
Proof.
  intros Hf first second.
  assert (H1 : Emulator._energy (fst first) = Emulator.energy0).
  { unfold first. now rewrite load_energy_no_counters. }
  assert (H2 : Emulator._energy (fst second) = Emulator.energy0).
  { unfold second. rewrite load_energy_no_counters; [exact H1 | ].
    destruct (load_energy_frame (Emulator.boot f)) as (Hfile & _).
    fold first in Hfile. rewrite Hfile. exact Hf. }
  repeat split; try apply load_energy_returns; try assumption.
  all: rewrite H2; reflexivity.
Qed.

(** The file is missing at both calls. *)
Lemma load_twice_on_missing_file_witness :
  Emulator.no_counters Missing = true
  /\ snd (Emulator._load_energy (Emulator.boot Missing)) = Ok tt
  /\ Emulator._energy
       (fst (Emulator._load_energy (fst (Emulator._load_energy (Emulator.boot Missing)))))
     = Emulator.energy0.
Proof.
  split; [reflexivity | ].
  destruct (load_twice_on_missing_file Missing eq_refl) as (H1 & _ & _ & H4 & _).
  split; assumption.
Defined.

(** What [json.load] finds after [json.dump(_energy)] is read back key by
    key into the counters, whatever these held. *)
Lemma load_keys_dump (e e0 : Emulator.energy) :
  Emulator.load_keys (Emulator.dump_energy e) Emulator.energy_keys e0 = (e, Ok tt).
Proof. destruct e, e0. reflexivity. Qed.

(** C8: a save that goes through writes the three counters to the file, and
    loading that file, in this process or in a fresh one, restores exactly
    the values saved (the file's text is json.dump's; a float is read back
    as the float written). *)
Theorem save_then_load_roundtrip (now : Q) (s later : Emulator.state) :
  Qltb (now - Emulator._last_energy_save s) Emulator.ENERGY_SAVE_SEC = false ->
  Emulator.energy_file later
  = Emulator.energy_file (fst (Emulator._save_energy now WriteOk s)) ->
  Emulator.energy_file (fst (Emulator._save_energy now WriteOk s))
  = Content (Emulator.dump_energy (Emulator._energy s))
  /\ snd (Emulator._load_energy later) = Ok tt
  /\ Emulator._energy (fst (Emulator._load_energy later)) = Emulator._energy s.
Proof.
  intros Hdue Hfile.
  unfold Emulator._save_energy in *. rewrite Hdue in *. cbn [fst] in *.
  cbn [Emulator.energy_file Emulator.add_log Emulator.set_saved] in *.
  split; [reflexivity | ]. split; [apply load_energy_returns | ].
  unfold Emulator._load_energy. rewrite Hfile. cbn [Emulator.read_json].
  rewrite load_keys_dump. reflexivity.
Qed.

(** Counters 1.5, 2.25 and 0.125 kWh, saved at clock 100 and read back by
    a fresh process. *)
Lemma save_then_load_roundtrip_witness :
  let s := Emulator.set_energy Examples.some_energy (Emulator.boot Missing) in
  let file' := Emulator.energy_file (fst (Emulator._save_energy 100 WriteOk s)) in
  Qltb (100 - Emulator._last_energy_save s) Emulator.ENERGY_SAVE_SEC = false
  /\ Emulator._energy (fst (Emulator._load_energy (Emulator.boot file')))
     = Examples.some_energy.
Proof.
  intros s file'. split; [reflexivity | ].
  apply (save_then_load_roundtrip 100 s (Emulator.boot file')); reflexivity.
Defined.

(** ** The throttle of the save *)

Lemma save_energy_throttled (now : Q) (w : write_outcome) (s : Emulator.state) :
  Qltb (now - Emulator._last_energy_save s) Emulator.ENERGY_SAVE_SEC = true ->
  Emulator._save_energy now w s = (s, Ok tt).
Proof. intros H. unfold Emulator._save_energy. now rewrite H. Qed.

(** The three ways a call of [_save_energy] can go. *)
Lemma save_energy_cases (now : Q) (w : write_outcome) (s : Emulator.state) :
  (Qltb (now - Emulator._last_energy_save s) Emulator.ENERGY_SAVE_SEC = true
   /\ Emulator._save_energy now w s = (s, Ok tt))
  \/ (Qltb (now - Emulator._last_energy_save s) Emulator.ENERGY_SAVE_SEC = false
      /\ w = WriteOk
      /\ Emulator._save_energy now w s
         = (Emulator.add_log Emulator.SAVED
              (Emulator.set_saved now
                 (Content (Emulator.dump_energy (Emulator._energy s))) s), Ok tt))
  \/ (Qltb (now - Emulator._last_energy_save s) Emulator.ENERGY_SAVE_SEC = false
      /\ exists after, w = WriteFails after
         /\ Emulator._save_energy now w s
            = (Emulator.add_log (LogError "Failed to save energy file: %s")
                 (Emulator.set_file after s), Ok tt)).
Proof.
  unfold Emulator._save_energy.
  destruct (Qltb _ _); [left; split; reflexivity | right].
  destruct w as [ | after]; [left | right]; repeat split.
  exists after. split; reflexivity.
Qed.

Lemma save_energy_count (now : Q) (w : write_outcome) (s : Emulator.state) :
  (Emulator.saved_count (Emulator.log (fst (Emulator._save_energy now w s)))
   <= S (Emulator.saved_count (Emulator.log s)))%nat.
Proof.
  destruct (save_energy_cases now w s)
    as [(_ & ->) | [(_ & _ & ->) | (_ & after & _ & ->)]];
    cbn; unfold Emulator.saved_count; lia.
Qed.

(** C6: of two calls of [_save_energy] less than ENERGY_SAVE_SEC apart, at
    most one completes a write: either the second call does nothing at all
    or the first completed none.  The interval runs from the last completed
    write: a completed write sets the save time to its own clock reading, a
    call inside the interval and a failed write leave the save time as it
    was; and no call changes the counters in memory. *)
Theorem throttled_save_writes_at_most_once
    (t1 t2 : Q) (w1 w2 : write_outcome) (s : Emulator.state) :
  (t2 - t1 < Emulator.ENERGY_SAVE_SEC)%Q ->
  let s1 := fst (Emulator._save_energy t1 w1 s) in
  let s2 := fst (Emulator._save_energy t2 w2 s1) in
  (Emulator.saved_count (Emulator.log s2)
   <= S (Emulator.saved_count (Emulator.log s)))%nat
  /\ (s2 = s1
      \/ Emulator.saved_count (Emulator.log s1) = Emulator.saved_count (Emulator.log s))
  /\ Emulator._energy s1 = Emulator._energy s
  /\ Emulator._energy s2 = Emulator._energy s
  /\ (forall after,
        Emulator._last_energy_save
          (fst (Emulator._save_energy t1 (WriteFails after) s))
        = Emulator._last_energy_save s)
  /\ Emulator._last_energy_save (fst (Emulator._save_energy t1 WriteOk s))
     = (if Qltb (t1 - Emulator._last_energy_save s) Emulator.ENERGY_SAVE_SEC
        then Emulator._last_energy_save s else t1).
Proof.
  intros Hgap s1 s2. apply Qltb_lt in Hgap.
  assert (Hfirst : s2 = s1
            \/ Emulator.saved_count (Emulator.log s1)
               = Emulator.saved_count (Emulator.log s)).
  { unfold s2, s1.
    destruct (save_energy_cases t1 w1 s)
      as [(_ & ->) | [(_ & _ & ->) | (_ & after & _ & ->)]];
      cbn [fst Emulator.log Emulator.add_log Emulator.set_saved Emulator.set_file];
      [right; reflexivity | left | right; reflexivity].
    now rewrite save_energy_throttled. }
  repeat split.
  - destruct Hfirst as [-> | Heq].
    + apply save_energy_count.
    + pose proof (save_energy_count t2 w2 s1) as H2. fold s2 in H2. lia.
  - exact Hfirst.
  - apply save_energy_returns.
  - unfold s2.
    destruct (save_energy_returns t2 w2 s1) as (_ & _ & _ & ->).
    apply save_energy_returns.
  - intros after. unfold Emulator._save_energy.
    destruct (Qltb (t1 - Emulator._last_energy_save s) Emulator.ENERGY_SAVE_SEC);
      reflexivity.
  - unfold Emulator._save_energy.
    destruct (Qltb (t1 - Emulator._last_energy_save s) Emulator.ENERGY_SAVE_SEC);
      reflexivity.
Qed.

(** Two saves 30 s apart, the disk accepting both: one is written. *)
Lemma throttled_save_witness :
  let s := Emulator.set_energy Examples.some_energy (Emulator.boot Missing) in
  (130 - 100 < Emulator.ENERGY_SAVE_SEC)%Q
  /\ (Emulator.saved_count
        (Emulator.log
           (fst (Emulator._save_energy 130 WriteOk
                   (fst (Emulator._save_energy 100 WriteOk s)))))
      <= 1)%nat.
Proof.
  intros s. split; [reflexivity | ].
  apply (throttled_save_writes_at_most_once 100 130 WriteOk WriteOk s).
  reflexivity.
Defined.

(** ** Energy accumulation *)

Lemma accumulate_counters (c : Emulator.config) (m : Emulator.sample)
    (e : Emulator.energy) :
  let e' := Emulator.accumulate c m e in
  Emulator.AcIn1ToInverter_kWh e'
  = (if Emulator.mains_present m && (0 <? Emulator.in_p m)
     then (Emulator.AcIn1ToInverter_kWh e + kwh c (Emulator.in_p m))%Q
     else Emulator.AcIn1ToInverter_kWh e)
  /\ Emulator.AcIn1ToAcOut_kWh e'
     = (if Emulator.mains_present m && (0 <? Emulator.in_p m)
        then (Emulator.AcIn1ToAcOut_kWh e + kwh c (Emulator.in_p m))%Q
        else Emulator.AcIn1ToAcOut_kWh e)
  /\ Emulator.InverterToAcOut_kWh e'
     = (if 0 <? Emulator.out_p m
        then (Emulator.InverterToAcOut_kWh e + kwh c (Emulator.out_p m))%Q
        else Emulator.InverterToAcOut_kWh e).
Proof.
  unfold Emulator.accumulate.
  destruct (Emulator.mains_present m && (0 <? Emulator.in_p m));
    destruct (0 <? Emulator.out_p m); destruct e; repeat split.
Qed.

(** The counters after a poll: accumulated from the sample if there is
    one, untouched otherwise. *)
Lemma update_energy (c : Emulator.config) (t : Emulator.tick) (s : Emulator.state) :
  Emulator._energy (fst (Emulator.update c t s))
  = match Emulator.acquire (Emulator.dev t) with
    | Ok m => Emulator.accumulate c m (Emulator._energy s)
    | Raise _ => Emulator._energy s
    end.
Proof.
  unfold Emulator.update. destruct (Emulator.acquire _) as [m | x]; [ | reflexivity].
  match goal with
  | |- context [Emulator._save_energy ?n ?w ?s'] =>
      pose proof (save_energy_returns n w s') as (Hr & _ & _ & He);
      destruct (Emulator._save_energy n w s') as [s1 r1]
  end.
  cbn [fst snd] in Hr, He. subst r1. cbn. exact He.
Qed.

Lemma mains_present_iff (m : Emulator.sample) :
  Emulator.mains_present m = true
  <-> (Emulator.wm m = 2 \/ Emulator.wm m = 4 \/ Emulator.wm m = 5
       \/ (150 < Emulator.in_v m)%Q).
Proof.
  unfold Emulator.mains_present, in_tuple. cbn [existsb].
  rewrite !Bool.orb_true_iff, !Z.eqb_eq, Qltb_lt. intuition discriminate.
Qed.

(** C3, as stated, fails: off-grid (working mode 3) with 100.0 V and 500 W
    read on the AC input, the poll adds nothing to the grid counters. *)
Lemma grid_power_without_mains_adds_nothing :
  let t := Examples.tick_of Examples.offgrid_regs 1700000100 in
  let s := Emulator.boot Missing in
  let e' := Emulator._energy (fst (Emulator.update Examples.config t s)) in
  match Emulator.acquire (Emulator.dev t) with
  | Ok m => Emulator.wm m = 3 /\ (Emulator.in_v m == 100)%Q
            /\ Emulator.in_p m = 500 /\ (0 < Emulator.in_p m)
  | Raise _ => False
  end
  /\ Emulator.AcIn1ToInverter_kWh e' = 0%Q
  /\ Emulator.AcIn1ToAcOut_kWh e' = 0%Q
  /\ ~ (Emulator.AcIn1ToInverter_kWh e'
        == Emulator.AcIn1ToInverter_kWh (Emulator._energy s) + kwh Examples.config 500)%Q
  /\ ~ (Emulator.AcIn1ToAcOut_kWh e'
        == Emulator.AcIn1ToAcOut_kWh (Emulator._energy s) + kwh Examples.config 500)%Q.
Proof.
  vm_compute. repeat split; discriminate.
Qed.

(** C3 (amended): each poll that acquires a sample adds
    in_p/1000 * dt/3600 kWh to AcIn1ToInverter_kWh and to AcIn1ToAcOut_kWh
    exactly when in_p > 0 and mains is present (working mode 2, 4 or 5, or
    more than 150 V on the input), and adds out_p/1000 * dt/3600 kWh to
    InverterToAcOut_kWh exactly when out_p > 0; a counter whose condition
    fails keeps its value, and a poll without a sample changes none. *)
Theorem accumulate_adds_when_positive (c : Emulator.config) (t : Emulator.tick)
    (s : Emulator.state) (m : Emulator.sample) (e : Emulator.energy) :
  let e' := Emulator.accumulate c m e in
  Emulator.AcIn1ToInverter_kWh e'
  = (if Emulator.mains_present m && (0 <? Emulator.in_p m)
     then (Emulator.AcIn1ToInverter_kWh e + kwh c (Emulator.in_p m))%Q
     else Emulator.AcIn1ToInverter_kWh e)
  /\ Emulator.AcIn1ToAcOut_kWh e'
     = (if Emulator.mains_present m && (0 <? Emulator.in_p m)
        then (Emulator.AcIn1ToAcOut_kWh e + kwh c (Emulator.in_p m))%Q
        else Emulator.AcIn1ToAcOut_kWh e)
  /\ Emulator.InverterToAcOut_kWh e'
     = (if 0 <? Emulator.out_p m
        then (Emulator.InverterToAcOut_kWh e + kwh c (Emulator.out_p m))%Q
        else Emulator.InverterToAcOut_kWh e)
  /\ (Emulator.mains_present m = true
      <-> (Emulator.wm m = 2 \/ Emulator.wm m = 4 \/ Emulator.wm m = 5
           \/ (150 < Emulator.in_v m)%Q))
  /\ Emulator._energy (fst (Emulator.update c t s))
     = match Emulator.acquire (Emulator.dev t) with
       | Ok m' => Emulator.accumulate c m' (Emulator._energy s)
       | Raise _ => Emulator._energy s
       end.
Proof.
  intros e'. destruct (accumulate_counters c m e) as (H1 & H2 & H3).
  repeat apply conj; try assumption.
  - apply mains_present_iff.
  - apply mains_present_iff.
  - apply update_energy.
Qed.

(** ** Monotone counters *)

Lemma kwh_nonneg (c : Emulator.config) (p : Z) :
  (0 <= Emulator.POLL_SEC c)%Q -> 0 < p -> (0 <= kwh c p)%Q.
Proof.
  intros Hdt Hp. apply Qmult_le_0_compat.
  - apply Qmult_le_0_compat; [ | discriminate].
    change 0%Q with (inject_Z 0). rewrite <- Zle_Qle. lia.
  - apply Qmult_le_0_compat; [exact Hdt | discriminate].
Qed.

Lemma Qle_add_nonneg (x d : Q) : (0 <= d)%Q -> (x <= x + d)%Q.
Proof.
  intros Hd. rewrite <- (Qplus_0_r x) at 1.
  apply Qplus_le_compat; [apply Qle_refl | exact Hd].
Qed.

Lemma energy_le_refl (e : Emulator.energy) : Emulator.energy_le e e.
Proof. repeat split; apply Qle_refl. Qed.

Lemma energy_le_trans (a b c : Emulator.energy) :
  Emulator.energy_le a b -> Emulator.energy_le b c -> Emulator.energy_le a c.
Proof.
  intros (H1 & H2 & H3) (K1 & K2 & K3).
  repeat split; eapply Qle_trans; eassumption.
Qed.

Lemma accumulate_le (c : Emulator.config) (m : Emulator.sample)
    (e : Emulator.energy) :
  (0 <= Emulator.POLL_SEC c)%Q -> Emulator.energy_le e (Emulator.accumulate c m e).
Proof.
  intros Hdt. destruct (accumulate_counters c m e) as (H1 & H2 & H3).
  unfold Emulator.energy_le. rewrite H1, H2, H3.
  destruct (Emulator.mains_present m); cbn [andb];
    destruct (Z.ltb_spec 0 (Emulator.in_p m));
    destruct (Z.ltb_spec 0 (Emulator.out_p m));
    repeat split;
    first [ apply Qle_refl | apply Qle_add_nonneg; apply kwh_nonneg; assumption ].
Qed.

Lemma update_energy_le (c : Emulator.config) (t : Emulator.tick)
    (s : Emulator.state) :
  (0 <= Emulator.POLL_SEC c)%Q ->
  Emulator.energy_le (Emulator._energy s)
    (Emulator._energy (fst (Emulator.update c t s))).
Proof.
  intros Hdt. rewrite update_energy.
  destruct (Emulator.acquire _); [now apply accumulate_le | apply energy_le_refl].
Qed.

Lemma emulator_run_app (c : Emulator.config) (ts1 ts2 : list Emulator.tick)
    (s : Emulator.state) :
  Emulator.run c (ts1 ++ ts2) s = Emulator.run c ts2 (Emulator.run c ts1 s).
Proof.
  revert s. induction ts1 as [| t r IH]; intros s; [reflexivity | ].
  rewrite <- app_comm_cons, !emulator_run_step. apply IH.
Qed.

Lemma run_energy_le (c : Emulator.config) (ts : list Emulator.tick)
    (s : Emulator.state) :
  (0 <= Emulator.POLL_SEC c)%Q ->
  Emulator.energy_le (Emulator._energy s) (Emulator._energy (Emulator.run c ts s)).
Proof.
  intros Hdt. revert s. induction ts as [| t r IH]; intros s.
  - apply energy_le_refl.
  - rewrite emulator_run_step.
    apply (energy_le_trans _ (Emulator._energy (fst (Emulator.update c t s)))).
    + apply update_energy_le. exact Hdt.
    + apply IH.
Qed.

(** C4: with a poll interval that is not negative, over every sequence of
    polls, from the counters of a fresh process as from any others, each of
    the three energy counters after more polls is at least what it was after
    fewer; no poll lowers a counter, a poll whose input power is negative or
    zero leaves the two grid counters as they were, and a poll whose output
    power is negative or zero leaves InverterToAcOut_kWh as it was. *)
Theorem energy_counters_never_decrease (c : Emulator.config)
    (ts more : list Emulator.tick) (s : Emulator.state) :
  (0 <= Emulator.POLL_SEC c)%Q ->
  Emulator.energy_le (Emulator._energy (Emulator.run c ts s))
    (Emulator._energy (Emulator.run c (ts ++ more) s))
  /\ Emulator.energy_le (Emulator._energy s) (Emulator._energy (Emulator.run c ts s))
  /\ (forall t, Emulator.energy_le (Emulator._energy s)
                  (Emulator._energy (fst (Emulator.update c t s))))
  /\ (forall m e, Emulator.in_p m <= 0 ->
        Emulator.AcIn1ToInverter_kWh (Emulator.accumulate c m e)
        = Emulator.AcIn1ToInverter_kWh e
        /\ Emulator.AcIn1ToAcOut_kWh (Emulator.accumulate c m e)
           = Emulator.AcIn1ToAcOut_kWh e)
  /\ (forall m e, Emulator.out_p m <= 0 ->
        Emulator.InverterToAcOut_kWh (Emulator.accumulate c m e)
        = Emulator.InverterToAcOut_kWh e).
Proof.
  intros Hdt. split; [ | split; [ | split; [ | split]]].
  - rewrite emulator_run_app. now apply run_energy_le.
  - now apply run_energy_le.
  - intros t. now apply update_energy_le.
  - intros m e Hp. destruct (accumulate_counters c m e) as (H1 & H2 & _).
    rewrite H1, H2.
    destruct (Z.ltb_spec 0 (Emulator.in_p m)); [lia | ].
    rewrite Bool.andb_false_r. split; reflexivity.
  - intros m e Hp. destruct (accumulate_counters c m e) as (_ & _ & H3).
    rewrite H3. destruct (Z.ltb_spec 0 (Emulator.out_p m)); [lia | reflexivity].
Qed.

(** Three polls: on mains, with a silent link, and feeding back; and the
    sample of a poll that feeds back, which moves no counter. *)
Lemma energy_counters_never_decrease_witness :
  let ts := [ Examples.tick_of Examples.mains_regs 1700000100;
              Examples.silent_tick;
              Examples.tick_of Examples.export_regs 1700000104 ] in
  (0 <= Emulator.POLL_SEC Examples.config)%Q
  /\ Emulator.energy_le Emulator.energy0
       (Emulator._energy (Emulator.run Examples.config ts (Emulator.boot Missing)))
  /\ (Emulator.in_p Examples.export_sample <= 0
      /\ Emulator.AcIn1ToInverter_kWh
           (Emulator.accumulate Examples.config Examples.export_sample
              Examples.some_energy)
         = Emulator.AcIn1ToInverter_kWh Examples.some_energy)
  /\ (Emulator.out_p Examples.export_sample <= 0
      /\ Emulator.InverterToAcOut_kWh
           (Emulator.accumulate Examples.config Examples.export_sample
              Examples.some_energy)
         = Emulator.InverterToAcOut_kWh Examples.some_energy).
Proof.
  intros ts.
  destruct (energy_counters_never_decrease Examples.config ts []
              (Emulator.boot Missing)) as (_ & H & _ & Hin & Hout);
    [discriminate | ].
  split; [discriminate | ]. split; [exact H | ].
  split; (split; [discriminate | ]).
  - apply Hin. discriminate.
  - apply Hout. discriminate.
Defined.

(** ** The model on concrete polls *)

(** A poll on mains at 230.0 V with 1000 W in and 800 W out, from a fresh
    process: what is published and what is counted. *)
Example poll_on_mains :
  let s0 := fst (Emulator.start Examples.config Missing) in
  let s1 := fst (Emulator.update Examples.config
                   (Examples.tick_of Examples.mains_regs 1700000100) s0) in
  Emulator.svc s0 !! "/Connected" = Some (VInt 0)
  /\ Emulator.svc s1 !! "/Connected" = Some (VInt 1)
  /\ Emulator.svc s1 !! "/Mode" = Some (VInt 1)
  /\ Emulator.svc s1 !! "/State" = Some (VInt 3)
  /\ Emulator.svc s1 !! "/Ac/ActiveIn/L1/P" = Some (VInt 1000)
  /\ Emulator.svc s1 !! "/Soc" = Some (VInt 87)
  /\ Emulator.svc s1 !! "/UpdateIndex" = Some (VInt 1)
  /\ Emulator.svc s1 !! "/Devices/0/UpTime" = Some (VInt 100)
  /\ (Emulator.AcIn1ToInverter_kWh (Emulator._energy s1) == 1 # 1800)%Q
  /\ (Emulator.AcIn1ToAcOut_kWh (Emulator._energy s1) == 1 # 1800)%Q
  /\ (Emulator.InverterToAcOut_kWh (Emulator._energy s1) == 1 # 2250)%Q
  /\ Emulator.energy_file s1
     = Content (Emulator.dump_energy (Emulator._energy s1))
  /\ Emulator._last_energy_save s1 = 1700000100%Q.
Proof. vm_compute. repeat split. Qed.

(** 1000 W over one poll of 3600 s is 1 kWh. *)
Example one_kilowatt_hour :
  let c := {| Emulator.ANENJI_PORT := "/dev/ttyUSB1"; Emulator.POLL_SEC := 3600;
              Emulator.DEVICE_INSTANCE := 28; Emulator.INVERTER_MAX_POWER := 3000;
              Emulator.process_file := ""; Emulator.time_driver_started := 0 |} in
  let s1 := fst (Emulator.update c (Examples.tick_of Examples.mains_regs 100)
                   (Emulator.boot Missing)) in
  (Emulator.AcIn1ToInverter_kWh (Emulator._energy s1) == 1)%Q.
Proof. vm_compute. reflexivity. Qed.

(** The update index wraps at 256. *)
Example update_index_wraps :
  let t := Examples.tick_of Examples.mains_regs 100 in
  Emulator._idx (Emulator.run Examples.config (repeat t 256) (Emulator.boot Missing)) = 0
  /\ Emulator._idx (Emulator.run Examples.config (repeat t 255) (Emulator.boot Missing))
     = 255.
Proof. vm_compute. split; reflexivity. Qed.

(** A file with one counter, an int, and one that is not a number. *)
Example load_partial_file :
  let doc := JDict [ ("AcIn1ToInverter_kWh", JInt 5);
                     ("AcIn1ToAcOut_kWh", JStr "7");
                     ("Other", JFloat 1) ] in
  Emulator._energy (fst (Emulator._load_energy (Emulator.boot (Content doc))))
  = {| Emulator.AcIn1ToInverter_kWh := 5; Emulator.AcIn1ToAcOut_kWh := 0;
       Emulator.InverterToAcOut_kWh := 0 |}.
Proof. reflexivity. Qed.

(** The serial number block: two bytes per word, trailing NULs dropped. *)
Example rstrip_serial :
  rstrip_nul [83; 0; 78; 49; 0; 0] = [83; 0; 78; 49]
  /\ rstrip_nul [0; 0] = [].
Proof. split; reflexivity. Qed.

(** inverter.py on a link that answers 5 (Charging) everywhere. *)
Example inverter_poll_charging :
  let s1 := fst (Inverter.tick Examples.ascii_only (Reads.steady 5 [16706])
                   Examples.inverter0) in
  Inverter.svc s1 !! "/Mode" = Some (VInt 1)
  /\ Inverter.svc s1 !! "/State" = Some (VInt 9)
  /\ Inverter.svc s1 !! "/Serial" = Some (VStr "ABAB")
  /\ Inverter.svc s1 !! "/Status/FaultCode" = Some (VInt 327685)
  /\ Inverter.svc s1 !! "/UpdateIndex" = Some (VInt 1).
Proof. vm_compute. repeat split. Qed.

(** * Further properties of the sources *)

(** ** Registers, words and bytes *)

Lemma land_shiftl_small (hi lo : Z) :
  0 <= lo < 65536 -> Z.land (Z.shiftl hi 16) lo = 0.
Proof.
  intros Hlo. apply Z.bits_inj'. intros n Hn.
  rewrite Z.land_spec, Z.bits_0.
  destruct (Z.lt_ge_cases n 16) as [Hlt | Hge].
  - rewrite Z.shiftl_spec_low by exact Hlt. reflexivity.
  - assert (Hb : Z.testbit lo n = false).
    { destruct (Z.eq_dec lo 0) as [-> | Hnz]; [apply Z.bits_0 | ].
      apply Z.bits_above_log2; [lia | ].
      apply Z.log2_lt_pow2; [lia | ].
      apply Z.lt_le_trans with (2 ^ 16); [lia | ].
      apply Z.pow_le_mono_r; lia. }
    rewrite Hb. apply Bool.andb_false_r.
Qed.

Lemma lor_words (hi lo : Z) :
  0 <= lo < 65536 -> Z.lor (Z.shiftl hi 16) lo = hi * 65536 + lo.
Proof.
  intros Hlo.
  rewrite <- Z.lxor_lor by (now apply land_shiftl_small).
  rewrite <- Z.add_nocarry_lxor by (now apply land_shiftl_small).
  rewrite Z.shiftl_mul_pow2 by lia. reflexivity.
Qed.

(** X1: [r32] puts the word at [addr] above the word at [addr + 1]: when both
    reads answer 16-bit words, the result is hi * 65536 + lo, it lies in
    0 .. 2^32 - 1, and both words can be read back from it. *)
Theorem r32_joins_two_words (d : device) (addr hi lo : Z) :
  dev_register d addr false = Some hi ->
  dev_register d (addr + 1) false = Some lo ->
  0 <= hi < 65536 -> 0 <= lo < 65536 ->
  exists v,
    r32 d addr = Ok v
    /\ v = hi * 65536 + lo
    /\ 0 <= v < 2 ^ 32
    /\ Z.shiftr v 16 = hi
    /\ Z.land v 65535 = lo.
Proof.
  intros Hhi Hlo Rhi Rlo. exists (Z.lor (Z.shiftl hi 16) lo).
  split; [unfold r32, r16; rewrite Hhi; cbn [bind]; rewrite Hlo; reflexivity | ].
  rewrite lor_words by exact Rlo.
  split; [reflexivity | ]. split; [lia | ]. split.
  - rewrite Z.shiftr_div_pow2 by lia. change (2 ^ 16) with 65536.
    rewrite Z.div_add_l by lia. rewrite Z.div_small by lia. lia.
  - change 65535 with (Z.ones 16). rewrite Z.land_ones by lia.
    change (2 ^ 16) with 65536.
    rewrite Z.add_comm, Z.mod_add by lia. apply Z.mod_small. lia.
Qed.

(** The fault word 0x0005_0102 read from registers 100 and 101. *)
Lemma r32_joins_two_words_witness :
  let d := Reads.table (list_to_map [ (100, 5); (101, 258) ]) in
  dev_register d 100 false = Some 5
  /\ dev_register d (100 + 1) false = Some 258
  /\ r32 d 100 = Ok 327938.
Proof.
  intros d. split; [reflexivity | ]. split; [reflexivity | ].
  destruct (r32_joins_two_words d 100 5 258 eq_refl eq_refl) as (v & Hv & -> & _);
    [lia | lia | exact Hv].
Defined.

Lemma rstrip_nul_nil_iff (b : list Z) :
  rstrip_nul b = [] <-> b = repeat 0 (length b).
Proof.
  induction b as [| x r IH]; [split; reflexivity | ].
  cbn [rstrip_nul length repeat]. destruct (rstrip_nul r) as [| y r'] eqn:Hr.
  - destruct (Z.eqb_spec x 0) as [-> | Hx].
    + split; [intros _; f_equal; now apply IH | reflexivity].
    + split; [discriminate | intros H; injection H as H _; contradiction].
  - split; [discriminate | ].
    intros H. injection H as _ H. apply IH in H. discriminate.
Qed.

Lemma rstrip_nul_decompose (b : list Z) :
  (exists k, b = (rstrip_nul b ++ repeat 0 k)%list)
  /\ List.last (rstrip_nul b) 1 <> 0.
Proof.
  induction b as [| x r (( k & Hk ) & Hl)]; [split; [exists 0%nat | ]; easy | ].
  cbn [rstrip_nul]. destruct (rstrip_nul r) as [| y r'] eqn:Hr.
  - destruct (Z.eqb_spec x 0) as [-> | Hx].
    + split; [exists (S k); cbn; now rewrite Hk at 1 | easy].
    + split; [exists k; cbn; now rewrite Hk at 1 | exact Hx].
  - split; [exists k; cbn; now rewrite Hk at 1 | exact Hl].
Qed.

Lemma rstrip_nul_idem (b : list Z) : rstrip_nul (rstrip_nul b) = rstrip_nul b.
Proof.
  induction b as [| x r IH]; [reflexivity | ].
  cbn [rstrip_nul]. destruct (rstrip_nul r) as [| y r'] eqn:Hr.
  - destruct (Z.eqb_spec x 0) as [-> | Hx]; [reflexivity | ].
    cbn. destruct (Z.eqb_spec x 0); [contradiction | reflexivity].
  - change (rstrip_nul (x :: y :: r'))
      with (match rstrip_nul (y :: r') with
            | [] => if x =? 0 then [] else [x]
            | r'' => x :: r''
            end).
    rewrite IH. reflexivity.
Qed.

(** X2: [rstrip(b"\x00")] only removes NUL bytes from the end: the input is
    the result followed by NULs, the result does not end in NUL, stripping
    again changes nothing, and the result is empty exactly when the input
    holds nothing but NULs. *)
Theorem rstrip_nul_strips_trailing_nuls (b : list Z) :
  (exists k, b = (rstrip_nul b ++ repeat 0 k)%list)
  /\ List.last (rstrip_nul b) 1 <> 0
  /\ rstrip_nul (rstrip_nul b) = rstrip_nul b
  /\ (length (rstrip_nul b) <= length b)%nat
  /\ (rstrip_nul b = [] <-> b = repeat 0 (length b)).
Proof.
  destruct (rstrip_nul_decompose b) as ((k & Hk) & Hl).
  split; [exists k; exact Hk | ]. split; [exact Hl | ].
  split; [apply rstrip_nul_idem | ]. split; [ | apply rstrip_nul_nil_iff].
  rewrite Hk at 2. rewrite length_app. lia.
Qed.

(** ** Mode against state *)

Ltac decide_wm wm :=
  unfold in_tuple; cbn [existsb];
  repeat match goal with
         | |- context [Z.eqb wm ?k] =>
             destruct (Z.eqb_spec wm k); [subst wm | ]; cbn
         end.

(** X4: In every variant and on every register value, the published Mode is
    Off (4) exactly when the published State is 1 (low power / standby);
    Mode is one of 1, 3, 4 and State one of 1, 3, 9. *)
Theorem mode_off_exactly_when_state_low (wm : Z) :
  (Emulator.vebus_mode_from_wm wm = 4 <-> Emulator.vebus_state_from_wm wm = 1)
  /\ (Celmaibun.vebus_mode_from_wm wm = 4 <-> Celmaibun.vebus_state_from_wm wm = 1)
  /\ (Multiplus.vebus_mode_from_wm wm = 4 <-> Multiplus.vebus_state_from_wm wm = 1)
  /\ (Inverter.venus_mode_from_wm wm = 4 <-> Inverter.venus_state_from_wm wm = 1)
  /\ In (Emulator.vebus_mode_from_wm wm) [1; 3; 4]
  /\ In (Celmaibun.vebus_mode_from_wm wm) [1; 3; 4]
  /\ In (Multiplus.vebus_mode_from_wm wm) [1; 3; 4]
  /\ In (Inverter.venus_mode_from_wm wm) [1; 4]
  /\ In (Emulator.vebus_state_from_wm wm) [1; 3; 9]
  /\ In (Celmaibun.vebus_state_from_wm wm) [1; 3; 9]
  /\ In (Multiplus.vebus_state_from_wm wm) [1; 9]
  /\ In (Inverter.venus_state_from_wm wm) [1; 9].
Proof.
  unfold Emulator.vebus_mode_from_wm, Emulator.vebus_state_from_wm,
    Celmaibun.vebus_mode_from_wm, Celmaibun.vebus_state_from_wm,
    Multiplus.vebus_mode_from_wm, Multiplus.vebus_state_from_wm,
    Inverter.venus_mode_from_wm, Inverter.venus_state_from_wm.
  repeat apply conj; decide_wm wm; cbn; intuition (try discriminate; try lia).
Qed.

(** ** Blocks of assignments *)

#[local] Set Warnings "-clear-no-such-hyp".

Lemma set_values_app (l1 l2 : list (string * value)) (m : gmap string value) :
  set_values (l1 ++ l2) m = set_values l2 (set_values l1 m).
Proof. unfold set_values. apply fold_left_app. Qed.

Lemma set_values_dom (l : list (string * value)) (m : gmap string value) :
  dom (set_values l m) = dom m ∪ Observe.paths l.
Proof.
  revert m. induction l as [| [q v] r IH]; intros m.
  - unfold Observe.paths. cbn. set_solver.
  - change (set_values ((q, v) :: r) m) with (set_values r (<[q:=v]> m)).
    rewrite IH, dom_insert_L. unfold Observe.paths. cbn. set_solver.
Qed.

Lemma paths_app (l1 l2 : list (string * value)) :
  Observe.paths (l1 ++ l2) = Observe.paths l1 ∪ Observe.paths l2.
Proof. unfold Observe.paths. rewrite map_app, list_to_set_app_L. reflexivity. Qed.

(** A list test for "every path of [l] is a path of [regs]". *)
Lemma paths_subset (l regs : list (string * value)) :
  forallb (fun p => existsb (String.eqb p) (map fst regs)) (map fst l) = true ->
  Observe.paths l ⊆ Observe.paths regs.
Proof.
  intros H p Hp. unfold Observe.paths in *.
  apply elem_of_list_to_set in Hp. apply elem_of_list_to_set.
  apply list_elem_of_In in Hp. apply list_elem_of_In.
  rewrite forallb_forall in H. specialize (H p Hp).
  apply existsb_exists in H as (q & Hq & Heq).
  apply String.eqb_eq in Heq. now subst q.
Qed.

Lemma set_values_registered (l regs : list (string * value))
    (m : gmap string value) :
  forallb (fun p => existsb (String.eqb p) (map fst regs)) (map fst l) = true ->
  dom m = Observe.paths regs ->
  dom (set_values l m) = Observe.paths regs.
Proof.
  intros Hl Hm. rewrite set_values_dom, Hm.
  pose proof (paths_subset l regs Hl). set_solver.
Qed.

Lemma assigned_app (p : string) (l1 l2 : list (string * value)) :
  assigned p (l1 ++ l2)
  = match assigned p l2 with Some v => Some v | None => assigned p l1 end.
Proof.
  induction l1 as [| [q w] r IH]; cbn [app assigned].
  - destruct (assigned p l2); reflexivity.
  - rewrite IH. destruct (assigned p l2); reflexivity.
Qed.

(** ** One poll of dbus-multiplus-emulator.py with a sample *)

(** Everything a poll with sample [m] assigns, in order. *)
Lemma emulator_update_sample (c : Emulator.config) (t : Emulator.tick)
    (s : Emulator.state) (m : Emulator.sample) :
  Emulator.acquire (Emulator.dev t) = Ok m ->
  let e' := Emulator.accumulate c m (Emulator._energy s) in
  let i' := (Emulator._idx s + 1) mod 256 in
  let s' := fst (Emulator.update c t s) in
  Emulator._energy s' = e'
  /\ Emulator._idx s' = i'
  /\ Emulator.svc s'
     = set_values
         (Emulator.telemetry m ++ Emulator.energy_values e'
          ++ [ ("/Devices/0/UpTime",
                VInt (int_of_float (Emulator.uptime_clock t)
                      - Emulator.time_driver_started c));
               ("/UpdateIndex", VInt i') ])
         (Emulator.svc s)
  /\ Emulator.energy_file s'
     = (if Qltb (Emulator.save_clock t - Emulator._last_energy_save s)
             Emulator.ENERGY_SAVE_SEC
        then Emulator.energy_file s
        else match Emulator.write t with
             | WriteOk => Content (Emulator.dump_energy e')
             | WriteFails after => after
             end)
  /\ Emulator._last_energy_save s'
     = (if Qltb (Emulator.save_clock t - Emulator._last_energy_save s)
             Emulator.ENERGY_SAVE_SEC
        then Emulator._last_energy_save s
        else match Emulator.write t with
             | WriteOk => Emulator.save_clock t
             | WriteFails _ => Emulator._last_energy_save s
             end).
Proof.
  intros Hm. unfold Emulator.update. rewrite Hm.
  rewrite !set_values_app. unfold Emulator._save_energy.
  cbn [Emulator._last_energy_save Emulator.set_svc Emulator.set_energy].
  destruct (Qltb (Emulator.save_clock t - Emulator._last_energy_save s)
              Emulator.ENERGY_SAVE_SEC);
    [ | destruct (Emulator.write t)]; cbn; repeat split.
Qed.

(** A poll without a sample. *)
Lemma emulator_update_silent (c : Emulator.config) (t : Emulator.tick)
    (s : Emulator.state) :
  is_ok (Emulator.acquire (Emulator.dev t)) = false ->
  let s' := fst (Emulator.update c t s) in
  Emulator._energy s' = Emulator._energy s
  /\ Emulator._idx s' = Emulator._idx s
  /\ Emulator.svc s' = <["/Connected" := VInt 0]> (Emulator.svc s).
Proof.
  unfold Emulator.update.
  destruct (Emulator.acquire _); [discriminate | intros _]. repeat split.
Qed.

(** ** The update index *)

Lemma emulator_index_step (c : Emulator.config) (t : Emulator.tick)
    (s : Emulator.state) :
  let s' := fst (Emulator.update c t s) in
  let n := if is_ok (Emulator.acquire (Emulator.dev t)) then 1 else 0 in
  (Emulator.svc s !! "/UpdateIndex" = Some (VInt (Emulator._idx s)) ->
   Emulator.svc s' !! "/UpdateIndex" = Some (VInt (Emulator._idx s')))
  /\ (0 <= Emulator._idx s < 256 ->
      0 <= Emulator._idx s' < 256
      /\ Emulator._idx s' = (Emulator._idx s + n) mod 256).
Proof.
  destruct (Emulator.acquire (Emulator.dev t)) as [m | x] eqn:Hm; cbn [is_ok].
  - destruct (emulator_update_sample c t s m Hm) as (_ & Hi & Hsvc & _).
    cbn zeta in *. rewrite Hi, Hsvc. split.
    + intros _. rewrite set_values_lookup, !assigned_app. reflexivity.
    + intros Hr. split; [apply Z.mod_pos_bound; lia | reflexivity].
  - destruct (emulator_update_silent c t s) as (_ & Hi & Hsvc);
      [now rewrite Hm | ].
    cbn zeta in *. rewrite Hi, Hsvc. split.
    + intros H. now rewrite lookup_insert_ne.
    + intros Hr. split; [exact Hr | ]. rewrite Z.add_0_r, Z.mod_small; lia.
Qed.

Lemma polls_ok_cons (t : Emulator.tick) (ts : list Emulator.tick) :
  Z.of_nat (Observe.polls_ok (t :: ts))
  = (if is_ok (Emulator.acquire (Emulator.dev t)) then 1 else 0)
    + Z.of_nat (Observe.polls_ok ts).
Proof.
  unfold Observe.polls_ok. cbn [List.filter].
  destruct (is_ok _); cbn [length]; lia.
Qed.

(** X5: Over any run of polls of dbus-multiplus-emulator.py, the update index
    advances by one (modulo 256) at each poll that acquired a sample and
    stands still at each failed one; it stays within 0..255 and the
    published /UpdateIndex always equals it. *)
Theorem update_index_counts_successful_polls (c : Emulator.config)
    (ts : list Emulator.tick) (s : Emulator.state) :
  0 <= Emulator._idx s < 256 ->
  Emulator.svc s !! "/UpdateIndex" = Some (VInt (Emulator._idx s)) ->
  let s' := Emulator.run c ts s in
  Emulator._idx s' = (Emulator._idx s + Z.of_nat (Observe.polls_ok ts)) mod 256
  /\ 0 <= Emulator._idx s' < 256
  /\ Emulator.svc s' !! "/UpdateIndex" = Some (VInt (Emulator._idx s')).
Proof.
  revert s. induction ts as [| t r IH]; intros s Hr Hp.
  - cbn. rewrite Z.add_0_r, Z.mod_small by lia. auto.
  - cbn zeta. rewrite emulator_run_step, polls_ok_cons.
    destruct (emulator_index_step c t s) as (Hp' & Hr').
    cbn zeta in Hp', Hr'. specialize (Hp' Hp). destruct (Hr' Hr) as (Hr1 & Hi1).
    destruct (IH _ Hr1 Hp') as (Hi & Hb & Hpub). cbn zeta in Hi, Hb, Hpub.
    split; [ | split; assumption].
    rewrite Hi, Hi1, Zplus_mod_idemp_l. f_equal. lia.
Qed.

(** From start-up: a good poll, a failed one, a good one. *)
Lemma update_index_counts_witness :
  let s := fst (Emulator.start Examples.config Missing) in
  let ts := [ Examples.tick_of Examples.mains_regs 1700000100;
              Examples.silent_tick;
              Examples.tick_of Examples.mains_regs 1700000104 ] in
  (0 <= Emulator._idx s < 256
   /\ Emulator.svc s !! "/UpdateIndex" = Some (VInt (Emulator._idx s)))
  /\ Emulator._idx (Emulator.run Examples.config ts s)
     = (0 + Z.of_nat (Observe.polls_ok ts)) mod 256.
Proof.
  intros s ts.
  assert (Hr : 0 <= Emulator._idx s < 256).
  { vm_compute. split; [discriminate | reflexivity]. }
  split; [split; [exact Hr | reflexivity] | ].
  destruct (update_index_counts_successful_polls Examples.config ts s)
    as (H & _); [exact Hr | reflexivity | exact H].
Defined.

(** ** Counters, published values and the file *)

(** X6: After a poll that acquired a sample, the three /Energy paths hold the
    counters as they are in memory after the poll; and when the save is due
    and the write completes, the file holds those same counters, this
    poll's share included, and the save time is this poll's clock. *)
Theorem poll_publishes_and_saves_latest_counters (c : Emulator.config)
    (t : Emulator.tick) (s : Emulator.state) :
  is_ok (Emulator.acquire (Emulator.dev t)) = true ->
  let s' := fst (Emulator.update c t s) in
  let e' := Emulator._energy s' in
  Emulator.svc s' !! "/Energy/AcIn1ToInverter"
  = Some (VFloat (Emulator.AcIn1ToInverter_kWh e'))
  /\ Emulator.svc s' !! "/Energy/AcIn1ToAcOut"
     = Some (VFloat (Emulator.AcIn1ToAcOut_kWh e'))
  /\ Emulator.svc s' !! "/Energy/InverterToAcOut"
     = Some (VFloat (Emulator.InverterToAcOut_kWh e'))
  /\ Emulator.energy_file s'
     = (if Qltb (Emulator.save_clock t - Emulator._last_energy_save s)
             Emulator.ENERGY_SAVE_SEC
        then Emulator.energy_file s
        else match Emulator.write t with
             | WriteOk => Content (Emulator.dump_energy e')
             | WriteFails after => after
             end)
  /\ Emulator._last_energy_save s'
     = (if Qltb (Emulator.save_clock t - Emulator._last_energy_save s)
             Emulator.ENERGY_SAVE_SEC
        then Emulator._last_energy_save s
        else match Emulator.write t with
             | WriteOk => Emulator.save_clock t
             | WriteFails _ => Emulator._last_energy_save s
             end).
Proof.
  intros Hok. destruct (Emulator.acquire (Emulator.dev t)) as [m | x] eqn:Hm;
    [ | discriminate].
  destruct (emulator_update_sample c t s m Hm) as (He & _ & Hsvc & Hf & Hl).
  cbn zeta in *. rewrite He, Hsvc, Hf, Hl.
  rewrite !set_values_lookup, !assigned_app. repeat split.
Qed.

(** A first poll on mains: the save is due and goes through. *)
Lemma poll_publishes_and_saves_witness :
  let t := Examples.tick_of Examples.mains_regs 1700000100 in
  let s' := fst (Emulator.update Examples.config t (Emulator.boot Missing)) in
  is_ok (Emulator.acquire (Emulator.dev t)) = true
  /\ Emulator.svc s' !! "/Energy/InverterToAcOut"
     = Some (VFloat (Emulator.InverterToAcOut_kWh (Emulator._energy s')))
  /\ Emulator.energy_file s' = Content (Emulator.dump_energy (Emulator._energy s')).
Proof.
  intros t s'. split; [reflexivity | ].
  destruct (poll_publishes_and_saves_latest_counters Examples.config t
              (Emulator.boot Missing) eq_refl) as (_ & _ & H3 & H4 & _).
  split; [exact H3 | exact H4].
Defined.

(** ** Repeated polls *)

Lemma run_repeat_succ (c : Emulator.config) (t : Emulator.tick) (n : nat)
    (s : Emulator.state) :
  Emulator.run c (repeat t (S n)) s
  = Emulator.run c (repeat t n) (fst (Emulator.update c t s)).
Proof. cbn [repeat]. apply emulator_run_step. Qed.

Lemma inject_Z_succ (n : nat) :
  (inject_Z (Z.of_nat (S n)) == 1 + inject_Z (Z.of_nat n))%Q.
Proof.
  rewrite Nat2Z.inj_succ. unfold Z.succ. rewrite inject_Z_plus. ring.
Qed.

(** X7: [n] polls that all read the sample [m] add [n] times the share of one
    poll: n * in_p/1000 * dt/3600 kWh to each grid counter when mains is
    present and in_p > 0, n * out_p/1000 * dt/3600 kWh to
    InverterToAcOut_kWh when out_p > 0, and nothing otherwise. *)
Theorem repeated_polls_add_up (c : Emulator.config) (t : Emulator.tick)
    (m : Emulator.sample) (n : nat) (s : Emulator.state) :
  Emulator.acquire (Emulator.dev t) = Ok m ->
  let e := Emulator._energy s in
  let e' := Emulator._energy (Emulator.run c (repeat t n) s) in
  let share_in :=
    if Emulator.mains_present m && (0 <? Emulator.in_p m)
    then kwh c (Emulator.in_p m) else 0%Q in
  let share_out :=
    if 0 <? Emulator.out_p m then kwh c (Emulator.out_p m) else 0%Q in
  (Emulator.AcIn1ToInverter_kWh e'
   == Emulator.AcIn1ToInverter_kWh e + inject_Z (Z.of_nat n) * share_in)%Q
  /\ (Emulator.AcIn1ToAcOut_kWh e'
      == Emulator.AcIn1ToAcOut_kWh e + inject_Z (Z.of_nat n) * share_in)%Q
  /\ (Emulator.InverterToAcOut_kWh e'
      == Emulator.InverterToAcOut_kWh e + inject_Z (Z.of_nat n) * share_out)%Q.
Proof.
  intros Hm. cbn zeta. revert s. induction n as [| n IH]; intros s.
  - cbn [repeat Emulator.run Z.of_nat]. repeat split; ring.
  - rewrite run_repeat_succ.
    destruct (IH (fst (Emulator.update c t s))) as (H1 & H2 & H3).
    rewrite H1, H2, H3. rewrite update_energy, Hm.
    destruct (accumulate_counters c m (Emulator._energy s)) as (A1 & A2 & A3).
    cbn zeta in A1, A2, A3. rewrite A1, A2, A3, !inject_Z_succ.
    destruct (Emulator.mains_present m && (0 <? Emulator.in_p m));
      destruct (0 <? Emulator.out_p m); repeat split; ring.
Qed.

(** 1000 W on mains over 1800 polls of 2 s: one kilowatt-hour. *)
Lemma repeated_polls_add_up_witness :
  let t := Examples.tick_of Examples.mains_regs 1700000100 in
  Emulator.acquire (Emulator.dev t) = Ok Examples.mains_sample
  /\ (Emulator.AcIn1ToInverter_kWh
        (Emulator._energy
           (Emulator.run Examples.config (repeat t 1800) (Emulator.boot Missing)))
      == 1)%Q.
Proof.
  intros t.
  assert (Hm : Emulator.acquire (Emulator.dev t) = Ok Examples.mains_sample)
    by reflexivity.
  split; [exact Hm | ].
  destruct (repeated_polls_add_up Examples.config t Examples.mains_sample 1800
              (Emulator.boot Missing) Hm) as (H & _).
  apply (Qeq_trans _ _ _ H). reflexivity.
Defined.

(** ** Registered paths *)

Lemma emulator_add_paths_same (c : Emulator.config) (e e' : Emulator.energy) :
  Observe.paths (Emulator._add_paths c e) = Observe.paths (Emulator._add_paths c e').
Proof. reflexivity. Qed.

Lemma emulator_update_dom (c : Emulator.config) (t : Emulator.tick)
    (s : Emulator.state) :
  dom (Emulator.svc s) = Observe.paths (Emulator._add_paths c Emulator.energy0) ->
  dom (Emulator.svc (fst (Emulator.update c t s)))
  = Observe.paths (Emulator._add_paths c Emulator.energy0).
Proof.
  intros Hd. destruct (Emulator.acquire (Emulator.dev t)) as [m | x] eqn:Hm.
  - destruct (emulator_update_sample c t s m Hm) as (_ & _ & Hsvc & _).
    cbn zeta in Hsvc. rewrite Hsvc.
    apply set_values_registered; [ | exact Hd].
    unfold Emulator.telemetry. destruct (Emulator.soc m); reflexivity.
  - destruct (emulator_update_silent c t s) as (_ & _ & Hsvc); [now rewrite Hm | ].
    cbn zeta in Hsvc. rewrite Hsvc.
    change (<["/Connected" := VInt 0]> (Emulator.svc s))
      with (set_values [ ("/Connected", VInt 0) ] (Emulator.svc s)).
    apply set_values_registered; [reflexivity | exact Hd].
Qed.

Lemma emulator_start_dom (c : Emulator.config) (f : file) :
  dom (Emulator.svc (fst (Emulator.start c f)))
  = Observe.paths (Emulator._add_paths c Emulator.energy0).
Proof.
  unfold Emulator.start.
  pose proof (load_energy_returns (Emulator.boot f)) as Hr.
  destruct (load_energy_frame (Emulator.boot f)) as (_ & _ & Hsvc & _).
  destruct (Emulator._load_energy (Emulator.boot f)) as [s r].
  cbn [fst snd] in *. subst r.
  cbn [fst Emulator.svc Emulator.add_log Emulator.set_idx Emulator.set_svc].
  rewrite set_values_dom, Hsvc. cbn [Emulator.boot Emulator.svc].
  rewrite dom_empty_L.
  rewrite (emulator_add_paths_same c (Emulator._energy s) Emulator.energy0).
  apply union_empty_l_L.
Qed.

(** X8: From start-up and over any run of polls, the paths of the service of
    dbus-multiplus-emulator.py are exactly the 47 that [_add_paths]
    registered: no poll, good or failed, assigns to a path that was not
    registered. *)
Theorem emulator_polls_assign_only_registered_paths (c : Emulator.config)
    (f : file) (ts : list Emulator.tick) :
  dom (Emulator.svc (Emulator.run c ts (fst (Emulator.start c f))))
  = Observe.paths (Emulator._add_paths c Emulator.energy0)
  /\ size (Observe.paths (Emulator._add_paths c Emulator.energy0)) = 47%nat.
Proof.
  split.
  - generalize (emulator_start_dom c f).
    generalize (fst (Emulator.start c f)). induction ts as [| t r IH]; intros s Hd.
    + exact Hd.
    + rewrite emulator_run_step. apply IH. now apply emulator_update_dom.
  - unfold Observe.paths. rewrite size_list_to_set; [reflexivity | ].
    apply NoDup_ListNoDup. cbn [map fst Emulator._add_paths].
    repeat (constructor; [cbn [In]; intuition discriminate | ]). constructor.
Qed.

(** ** The optional state of charge *)

Lemma emulator_acquire_soc (d : device) :
  match Emulator.acquire d with
  | Ok m => Emulator.soc m = dev_register d 229 false
  | Raise _ => True
  end.
Proof.
  unfold Emulator.acquire.
  reads_with ltac:(rewrite emulator_derive_in_i); try exact I; reflexivity.
Qed.

(** X9: In dbus-multiplus-emulator.py the state-of-charge register is
    optional: when every mandatory read answers and only register 229
    fails, the poll still acquires a sample, marks the service connected
    and leaves /Soc as it was.  In service.py the same register is
    mandatory: its failure fails the whole snapshot. *)
Theorem soc_read_is_optional_in_emulator (dec : list Z -> string)
    (str : Z -> string) (c : Emulator.config) (t : Emulator.tick)
    (s : Emulator.state) :
  Reads.all_answer (Emulator.dev t) Reads.emulator [] = true ->
  dev_register (Emulator.dev t) 229 false = None ->
  let s' := fst (Emulator.update c t s) in
  (exists m, Emulator.acquire (Emulator.dev t) = Ok m /\ Emulator.soc m = None)
  /\ Emulator.svc s' !! "/Soc" = Emulator.svc s !! "/Soc"
  /\ Emulator.svc s' !! "/Connected" = Some (VInt 1)
  /\ Emulator._idx s' = (Emulator._idx s + 1) mod 256
  /\ is_ok (Service.collect_snapshot dec str (Emulator.dev t)) = false.
Proof.
  intros Hall Hsoc. cbn zeta.
  pose proof (emulator_acquire_ok (Emulator.dev t)) as Hok. rewrite Hall in Hok.
  pose proof (emulator_acquire_soc (Emulator.dev t)) as Hs.
  destruct (Emulator.acquire (Emulator.dev t)) as [m | x] eqn:Hm; [ | discriminate].
  rewrite Hsoc in Hs.
  destruct (emulator_update_sample c t s m Hm) as (_ & Hi & Hsvc & _).
  cbn zeta in Hi, Hsvc. rewrite Hi, Hsvc.
  split; [exists m; split; [reflexivity | exact Hs] | ].
  rewrite !set_values_lookup, !assigned_app.
  unfold Emulator.telemetry. rewrite Hs.
  repeat split.
  rewrite service_collect_ok. unfold Reads.all_answer.
  let l := eval vm_compute in Reads.service in change Reads.service with l.
  cbn [forallb fst snd]. rewrite Hsoc. cbn [Reads.answered andb].
  rewrite !Bool.andb_false_r. reflexivity.
Qed.

(** Every register answers but 229. *)
Lemma soc_read_is_optional_witness :
  let s := fst (Emulator.start Examples.config Missing) in
  let s' := fst (Emulator.update Examples.config Examples.no_soc_tick s) in
  (Reads.all_answer Examples.no_soc Reads.emulator [] = true
   /\ dev_register Examples.no_soc 229 false = None)
  /\ Emulator.svc s' !! "/Soc" = Some VNone
  /\ Emulator.svc s' !! "/Connected" = Some (VInt 1).
Proof.
  intros s s'. split; [split; reflexivity | ].
  destruct (soc_read_is_optional_in_emulator Examples.ascii_only Examples.decimal
              Examples.config Examples.no_soc_tick s eq_refl eq_refl)
    as (_ & H1 & H2 & _).
  split; [exact (eq_trans H1 eq_refl) | exact H2].
Defined.

(** ** What a good poll publishes about the AC input *)

Lemma emulator_status_paths (c : Emulator.config) (t : Emulator.tick)
    (s : Emulator.state) (m : Emulator.sample) :
  Emulator.acquire (Emulator.dev t) = Ok m ->
  let svc' := Emulator.svc (fst (Emulator.update c t s)) in
  let mp := Emulator.mains_present m in
  svc' !! "/Mode" = Some (VInt (Emulator.vebus_mode_from_wm (Emulator.wm m)))
  /\ svc' !! "/State" = Some (VInt (Emulator.vebus_state_from_wm (Emulator.wm m)))
  /\ svc' !! "/VebusChargeState" = Some (VInt (if Emulator.wm m =? 5 then 3 else 1))
  /\ svc' !! "/Ac/ActiveIn/Connected" = Some (VInt (if mp then 1 else 0))
  /\ svc' !! "/Ac/ActiveIn/ActiveInput" = Some (VInt (if mp then 0 else 240))
  /\ svc' !! "/Ac/ActiveIn/Source" = Some (VInt (if mp then 1 else 0)).
Proof.
  intros Hm. destruct (emulator_update_sample c t s m Hm) as (_ & _ & Hsvc & _).
  cbn zeta in *. rewrite Hsvc, !set_values_lookup, !assigned_app.
  unfold Emulator.telemetry. destruct (Emulator.soc m); repeat split.
Qed.

(** X10: After a good poll of dbus-multiplus-emulator.py the published status is
    coherent: Mode ChargerOnly (1) or State Bulk (3) is only published
    together with a connected AC input (/Ac/ActiveIn/Connected = 1,
    ActiveInput = 0, Source = 1), and VebusChargeState 3 only together
    with Mode 1 and State 3. *)
Theorem emulator_charger_mode_implies_input_connected (c : Emulator.config)
    (t : Emulator.tick) (s : Emulator.state) :
  is_ok (Emulator.acquire (Emulator.dev t)) = true ->
  let svc' := Emulator.svc (fst (Emulator.update c t s)) in
  (svc' !! "/Mode" = Some (VInt 1) \/ svc' !! "/State" = Some (VInt 3) ->
   svc' !! "/Ac/ActiveIn/Connected" = Some (VInt 1)
   /\ svc' !! "/Ac/ActiveIn/ActiveInput" = Some (VInt 0)
   /\ svc' !! "/Ac/ActiveIn/Source" = Some (VInt 1))
  /\ (svc' !! "/VebusChargeState" = Some (VInt 3) ->
      svc' !! "/Mode" = Some (VInt 1) /\ svc' !! "/State" = Some (VInt 3)).
Proof.
  intros Hok. destruct (Emulator.acquire (Emulator.dev t)) as [m | x] eqn:Hm;
    [ | discriminate].
  destruct (emulator_status_paths c t s m Hm) as (H1 & H2 & H3 & H4 & H5 & H6).
  cbn zeta in *. rewrite H1, H2, H3, H4, H5, H6.
  unfold Emulator.mains_present, Emulator.vebus_mode_from_wm,
    Emulator.vebus_state_from_wm.
  generalize (Emulator.wm m). intros w.
  split.
  - intros [H | H]; injection H as H; revert H;
      decide_wm w; try discriminate; try lia; intros _;
      repeat split.
  - intros H; injection H as H; revert H;
      decide_wm w; try discriminate; try lia; intros _;
      repeat split.
Qed.

(** On mains the emulator publishes ChargerOnly with the input connected. *)
Lemma emulator_charger_mode_witness :
  let t := Examples.tick_of Examples.mains_regs 1700000100 in
  let svc' := Emulator.svc (fst (Emulator.update Examples.config t
                                   (Emulator.boot Missing))) in
  is_ok (Emulator.acquire (Emulator.dev t)) = true
  /\ svc' !! "/Mode" = Some (VInt 1)
  /\ svc' !! "/Ac/ActiveIn/Connected" = Some (VInt 1).
Proof.
  intros t svc'. split; [reflexivity | ]. split; [reflexivity | ].
  destruct (emulator_charger_mode_implies_input_connected Examples.config t
              (Emulator.boot Missing) eq_refl) as (H & _).
  apply H. left. reflexivity.
Defined.

(** ** Restart *)

(** X11: What was saved is what a restarted process counts from and publishes:
    after a save that went through, [main] up to the main loop loads the
    three counters as saved, registers the /Energy paths with them, and
    starts disconnected with update index 0. *)
Theorem restart_resumes_from_saved_counters (c : Emulator.config) (now : Q)
    (s : Emulator.state) :
  Qltb (now - Emulator._last_energy_save s) Emulator.ENERGY_SAVE_SEC = false ->
  let f := Emulator.energy_file (fst (Emulator._save_energy now WriteOk s)) in
  let s' := fst (Emulator.start c f) in
  let e := Emulator._energy s in
  snd (Emulator.start c f) = Ok tt
  /\ Emulator._energy s' = e
  /\ Emulator.svc s' !! "/Energy/AcIn1ToInverter"
     = Some (VFloat (Emulator.AcIn1ToInverter_kWh e))
  /\ Emulator.svc s' !! "/Energy/AcIn1ToAcOut"
     = Some (VFloat (Emulator.AcIn1ToAcOut_kWh e))
  /\ Emulator.svc s' !! "/Energy/InverterToAcOut"
     = Some (VFloat (Emulator.InverterToAcOut_kWh e))
  /\ Emulator.svc s' !! "/Connected" = Some (VInt 0)
  /\ Emulator.svc s' !! "/UpdateIndex" = Some (VInt 0)
  /\ Emulator._idx s' = 0
  /\ Emulator._last_energy_save s' = 0%Q.
Proof.
  intros Hdue. cbn zeta. unfold Emulator._save_energy. rewrite Hdue.
  cbn [fst Emulator.energy_file Emulator.add_log Emulator.set_saved].
  unfold Emulator.start, Emulator._load_energy.
  cbn [Emulator.boot Emulator.energy_file Emulator.read_json Emulator._energy].
  rewrite load_keys_dump.
  cbn [fst snd Emulator.svc Emulator._energy Emulator._idx Emulator.add_log
       Emulator.set_idx Emulator.set_svc Emulator.set_energy
       Emulator._last_energy_save].
  rewrite !set_values_lookup. repeat split.
Qed.

(** Counters 1.5, 2.25 and 0.125 kWh saved at clock 100, then a restart. *)
Lemma restart_resumes_witness :
  let s := Emulator.set_energy Examples.some_energy (Emulator.boot Missing) in
  let f := Emulator.energy_file (fst (Emulator._save_energy 100 WriteOk s)) in
  Qltb (100 - Emulator._last_energy_save s) Emulator.ENERGY_SAVE_SEC = false
  /\ Emulator._energy (fst (Emulator.start Examples.config f)) = Examples.some_energy.
Proof.
  intros s f. split; [reflexivity | ].
  destruct (restart_resumes_from_saved_counters Examples.config 100 s eq_refl)
    as (_ & H & _).
  exact H.
Defined.

(** ** Loading, key by key *)





(** What one turn of the loading loop does depends on the document and the
    key only: it raises without touching the counters, or it sets the
    counter of the key, or it does nothing. *)
Lemma load_key_shape (data : json) (k : string) :
  (exists x, forall e, Emulator.load_key data k e = (e, Raise x))
  \/ (exists q, forall e, Emulator.load_key data k e = (Emulator.energy_set k q e, Ok tt))
  \/ (forall e, Emulator.load_key data k e = (e, Ok tt)).
Proof.
  destruct data as [ | b | z | q | str | l | d]; cbn [Emulator.load_key];
    try (left; eexists; intros; reflexivity).
  - destruct (Emulator.is_substring k str);
      [left; eexists; intros; reflexivity | right; right; reflexivity].
  - destruct (existsb (Emulator.is_str k) l);
      [left; eexists; intros; reflexivity | right; right; reflexivity].
  - destruct (Emulator.dict_get k d) as [[ | b | z | q | str | l | d'] | ];
      try (right; right; reflexivity);
      try (right; left; eexists; intros; reflexivity).
    destruct (float_of_int z) as [q | x];
      [right; left; eexists; intros; reflexivity
      | left; eexists; intros; reflexivity].
Qed.

Lemma load_keys_idem (data : json) (e : Emulator.energy) :
  Emulator.load_keys data Emulator.energy_keys
    (fst (Emulator.load_keys data Emulator.energy_keys e))
  = Emulator.load_keys data Emulator.energy_keys e.
Proof.
  cbn [Emulator.load_keys Emulator.energy_keys].
  destruct (load_key_shape data "AcIn1ToInverter_kWh") as [(x1 & H1) | [(q1 & H1) | H1]];
    destruct (load_key_shape data "AcIn1ToAcOut_kWh") as [(x2 & H2) | [(q2 & H2) | H2]];
    destruct (load_key_shape data "InverterToAcOut_kWh") as [(x3 & H3) | [(q3 & H3) | H3]];
    repeat (rewrite ?H1, ?H2, ?H3; cbn [fst]);
    destruct e; reflexivity.
Qed.

(** X13: Loading twice in a row is loading once: on any file whatever, a second
    [_load_energy] raises nothing and leaves the counters as the first left
    them, also when the first stopped half-way on a value it could not
    convert. *)
Theorem load_energy_twice_is_once (s : Emulator.state) :
  let once := fst (Emulator._load_energy s) in
  let twice := fst (Emulator._load_energy once) in
  Emulator._energy twice = Emulator._energy once
  /\ snd (Emulator._load_energy once) = Ok tt
  /\ Emulator.energy_file twice = Emulator.energy_file s.
Proof.
  cbn zeta. split; [ | split; [apply load_energy_returns | ]].
  - destruct (load_energy_frame s) as (Hfile & _). cbn zeta in Hfile.
    unfold Emulator._load_energy at 1. rewrite Hfile.
    assert (He : Emulator._energy (fst (Emulator._load_energy s))
                 = match Emulator.read_json (Emulator.energy_file s) with
                   | Ok data => fst (Emulator.load_keys data Emulator.energy_keys
                                       (Emulator._energy s))
                   | Raise _ => Emulator._energy s
                   end).
    { unfold Emulator._load_energy.
      destruct (Emulator.read_json _); [ | reflexivity].
      destruct (Emulator.load_keys _ _ _) as [e' [u | x]]; reflexivity. }
    destruct (Emulator.read_json (Emulator.energy_file s)) as [data | x];
      [ | reflexivity].
    rewrite He, load_keys_idem.
    destruct (Emulator.load_keys data _ _) as [e' [u | x]]; reflexivity.
  - destruct (load_energy_frame (fst (Emulator._load_energy s))) as (H1 & _).
    destruct (load_energy_frame s) as (H2 & _). cbn zeta in *. congruence.
Qed.

(** ** celmaibun.py *)

Lemma celmaibun_acquire_power (d : device) :
  match Celmaibun.acquire d with
  | Ok m => Celmaibun.in_p m = Z.abs (default 0 (dev_register d 204 true))
  | Raise _ => True
  end.
Proof.
  unfold Celmaibun.acquire.
  reads_with ltac:(rewrite celmaibun_derive_in_i); try exact I; reflexivity.
Qed.

(** X14: celmaibun.py never reports a negative AC-input power or current: the
    power is the absolute value of register 204 and the current derived from
    it is zero or a quotient of a non-negative power by more than 20 V. *)
Theorem celmaibun_input_power_never_negative (d : device) :
  match Celmaibun.acquire d with
  | Ok m =>
      Celmaibun.in_p m = Z.abs (default 0 (dev_register d 204 true))
      /\ 0 <= Celmaibun.in_p m
      /\ (0 <= Celmaibun.in_i m)%Q
  | Raise _ => True
  end.
Proof.
  pose proof (celmaibun_acquire_power d) as Hp.
  pose proof (celmaibun_acquire_outcome d) as Hi.
  destruct (Celmaibun.acquire d) as [m | x]; [ | exact I].
  assert (Hnn : 0 <= Celmaibun.in_p m) by (rewrite Hp; apply Z.abs_nonneg).
  split; [exact Hp | ]. split; [exact Hnn | ].
  rewrite Hi. destruct (Qltb 20 (Celmaibun.in_v m)) eqn:Hv; [ | apply Qle_refl].
  apply Qltb_lt in Hv. apply Qle_shift_div_l.
  - apply Qlt_trans with 20%Q; [reflexivity | exact Hv].
  - rewrite Qmult_0_l. change 0%Q with (inject_Z 0). now rewrite <- Zle_Qle.
Qed.

Lemma celmaibun_update_sample (c : Celmaibun.config) (d : device) (clock : Q)
    (s : Celmaibun.state) (m : Celmaibun.sample) :
  Celmaibun.acquire d = Ok m ->
  let i' := (Celmaibun._idx s + 1) mod 256 in
  fst (Celmaibun.update c d clock s)
  = {| Celmaibun._dbusservice :=
         set_values (Celmaibun.published c (int_of_float clock) m
                     ++ [ ("/UpdateIndex", VInt i') ])
           (Celmaibun._dbusservice s);
       Celmaibun._idx := i';
       Celmaibun.log := Celmaibun.log s |}.
Proof.
  intros Hm. unfold Celmaibun.update. rewrite Hm. cbn [fst].
  now rewrite set_values_app.
Qed.

(** X15: After a good poll of celmaibun.py the LEDs follow the status: the Mains
    LED is the AC-input connected flag, the Inverter LED is lit exactly when
    the Mode is On (3), and Mode ChargerOnly (1) comes only with the Mains
    LED lit. *)
Theorem celmaibun_leds_follow_status (c : Celmaibun.config) (d : device)
    (clock : Q) (s : Celmaibun.state) :
  is_ok (Celmaibun.acquire d) = true ->
  let svc' := Celmaibun._dbusservice (fst (Celmaibun.update c d clock s)) in
  svc' !! "/Leds/Mains" = svc' !! "/Ac/ActiveIn/Connected"
  /\ (svc' !! "/Leds/Inverter" = Some (VInt 1) <-> svc' !! "/Mode" = Some (VInt 3))
  /\ (svc' !! "/Mode" = Some (VInt 1) -> svc' !! "/Leds/Mains" = Some (VInt 1))
  /\ svc' !! "/Connected" = Some (VInt 1).
Proof.
  intros Hok. destruct (Celmaibun.acquire d) as [m | x] eqn:Hm; [ | discriminate].
  cbn zeta. rewrite (celmaibun_update_sample c d clock s m Hm).
  cbn [Celmaibun._dbusservice]. rewrite !set_values_lookup, !assigned_app.
  unfold Celmaibun.published. rewrite !assigned_app.
  destruct (Celmaibun.soc m);
    cbn [assigned String.eqb Ascii.eqb Bool.eqb];
    unfold Celmaibun.mains_present, Celmaibun.vebus_mode_from_wm;
    generalize (Celmaibun.wm m); intros w;
    (split; [reflexivity | ]); (split; [ | split; [ | reflexivity]]).
  all: try (split; intros H; injection H as H; revert H;
            decide_wm w; try discriminate; try lia; reflexivity).
  all: intros H; injection H as H; revert H;
    decide_wm w; try discriminate; try lia; reflexivity.
Qed.

(** Off-grid: the Inverter LED is lit and the Mode is On. *)
Lemma celmaibun_leds_witness :
  let d := Reads.table Examples.offgrid_regs in
  let c := {| Celmaibun.PORT := "/dev/ttyUSB1"; Celmaibun.DEVICE_INSTANCE := 28;
              Celmaibun.MAX_INV_POWER := 3000; Celmaibun.process_file := "";
              Celmaibun.start_time := 0 |} in
  let svc' := Celmaibun._dbusservice
                (fst (Celmaibun.update c d 100 (Celmaibun.init c))) in
  is_ok (Celmaibun.acquire d) = true
  /\ svc' !! "/Leds/Mains" = svc' !! "/Ac/ActiveIn/Connected"
  /\ svc' !! "/Mode" = Some (VInt 3).
Proof.
  intros d c svc'. split; [reflexivity | ].
  destruct (celmaibun_leds_follow_status c d 100 (Celmaibun.init c) eq_refl)
    as (H1 & H2 & _).
  split; [exact H1 | apply H2; reflexivity].
Defined.

Lemma set_values_two_dom (l1 l2 : list (string * value)) :
  dom (set_values l2 (set_values l1 ∅)) = Observe.paths (l1 ++ l2).
Proof.
  rewrite !set_values_dom, dom_empty_L, paths_app, union_empty_l_L. reflexivity.
Qed.

Lemma insert_registered (p : string) (v : value) (regs : list (string * value))
    (m : gmap string value) :
  existsb (String.eqb p) (map fst regs) = true ->
  dom m = Observe.paths regs ->
  dom (<[p := v]> m) = Observe.paths regs.
Proof.
  intros Hp Hd.
  change (<[p := v]> m) with (set_values [ (p, v) ] m).
  apply set_values_registered; [cbn; now rewrite Hp | exact Hd].
Qed.

(** X16: From start-up and over any run of polls, the paths of the service of
    celmaibun.py are exactly those [_add_paths] registered: no poll, good or
    failed, assigns to a path that was not registered. *)
Theorem celmaibun_polls_assign_only_registered_paths (c : Celmaibun.config)
    (ts : list (device * Q)) :
  dom (Celmaibun._dbusservice (Celmaibun.run c ts (Celmaibun.init c)))
  = Observe.paths (Celmaibun._add_paths c).
Proof.
  assert (H0 : dom (Celmaibun._dbusservice (Celmaibun.init c))
               = Observe.paths (Celmaibun._add_paths c)).
  { cbn [Celmaibun.init Celmaibun._dbusservice].
    rewrite set_values_dom, dom_empty_L. apply union_empty_l_L. }
  revert H0. generalize (Celmaibun.init c).
  induction ts as [| [d clock] r IH]; intros s Hd; [exact Hd | ].
  cbn [Celmaibun.run].
  assert (Hstep : snd (Celmaibun.update c d clock s) = Ok true
                  /\ dom (Celmaibun._dbusservice (fst (Celmaibun.update c d clock s)))
                     = Observe.paths (Celmaibun._add_paths c)).
  { destruct (Celmaibun.acquire d) as [m | x] eqn:Hm.
    - rewrite (celmaibun_update_sample c d clock s m Hm).
      unfold Celmaibun.update. rewrite Hm. split; [reflexivity | ].
      cbn [Celmaibun._dbusservice].
      apply set_values_registered; [ | exact Hd].
      unfold Celmaibun.published. destruct (Celmaibun.soc m); reflexivity.
    - unfold Celmaibun.update. rewrite Hm. split; [reflexivity | ].
      cbn [fst Celmaibun._dbusservice].
      apply insert_registered; [reflexivity | exact Hd]. }
  destruct Hstep as (Hr & Hd').
  destruct (Celmaibun.update c d clock s) as [s1 r1]. cbn [fst snd] in *.
  subst r1. now apply IH.
Qed.

(** ** inverter.py, multiplus.py, service.py: registered paths *)

Lemma inverter_tick_dom (dec : list Z -> string) (c : Inverter.config)
    (d : device) (s : Inverter.state) :
  dom (Inverter.svc s)
  = Observe.paths (Inverter._add_mandatory c 30 ++ Inverter._add_values) ->
  dom (Inverter.svc (fst (Inverter.tick dec d s)))
  = Observe.paths (Inverter._add_mandatory c 30 ++ Inverter._add_values).
Proof.
  intros Hd. unfold Inverter.tick.
  destruct (Inverter.collect_snapshot dec d) as [snap | x]; cbn [fst].
  - unfold Inverter.publish, Inverter._bump. cbn [Inverter.svc Inverter.set_svc].
    apply insert_registered; [reflexivity | ].
    apply set_values_registered; [reflexivity | exact Hd].
  - cbn [Inverter.svc Inverter.set_svc set_values fold_left fst snd].
    apply insert_registered; [reflexivity | exact Hd].
Qed.

Lemma multiplus_tick_dom (dec : list Z -> string) (c : Multiplus.config)
    (d : device) (s : Multiplus.state) :
  dom (Multiplus.svc s)
  = Observe.paths (Multiplus._add_mandatory c 28 ++ Multiplus._add_values) ->
  dom (Multiplus.svc (fst (Multiplus.tick dec d s)))
  = Observe.paths (Multiplus._add_mandatory c 28 ++ Multiplus._add_values).
Proof.
  intros Hd. unfold Multiplus.tick.
  destruct (Multiplus.collect_snapshot dec d) as [snap | x]; cbn [fst].
  - unfold Multiplus.publish, Multiplus._bump. cbn [Multiplus.svc].
    apply insert_registered; [reflexivity | ].
    apply set_values_registered; [ | exact Hd].
    unfold Multiplus.published. destruct (Multiplus.Soc snap); reflexivity.
  - cbn [Multiplus.svc]. apply insert_registered; [reflexivity | exact Hd].
Qed.

Lemma service_loop_dom (dec : list Z -> string) (str : Z -> string)
    (c : Service.config) (d : device) (s : Service.state) :
  let pv := (Service._add_mandatory_paths c Service.PRODUCT_NAME_PV 51
             ++ Service.pv_value_paths)%list in
  let bat := (Service._add_mandatory_paths c Service.PRODUCT_NAME_BAT 20
              ++ Service.bat_value_paths)%list in
  dom (Service._service (Service._pv s)) = Observe.paths pv ->
  dom (Service._service (Service._bat s)) = Observe.paths bat ->
  dom (Service._service (Service._pv (fst (Service.loop_body dec str d s))))
  = Observe.paths pv
  /\ dom (Service._service (Service._bat (fst (Service.loop_body dec str d s))))
     = Observe.paths bat.
Proof.
  intros pv bat Hp Hb. unfold Service.loop_body.
  destruct (Service.collect_snapshot dec str d) as [snap | x];
    cbn [fst Service._pv Service._bat]; split.
  - unfold Service.publish, Service._bump. cbn [Service._service].
    apply insert_registered; [reflexivity | ].
    apply set_values_registered; [reflexivity | exact Hp].
  - unfold Service.publish, Service._bump. cbn [Service._service].
    apply insert_registered; [reflexivity | ].
    apply set_values_registered; [reflexivity | exact Hb].
  - apply insert_registered; [reflexivity | exact Hp].
  - apply insert_registered; [reflexivity | exact Hb].
Qed.

(** X17: The three Sumry services (inverter.py, multiplus.py, and the PV and
    battery services of service.py) only ever assign to paths they
    registered in their constructors: from construction and over any run of
    polls, good or failed, the set of paths of each service is the set its
    [_add_mandatory] and [_add_values] registered. *)
Theorem sumry_polls_assign_only_registered_paths
    (dec : list Z -> string) (str : Z -> string)
    (ci : Inverter.config) (cm : Multiplus.config) (cs : Service.config)
    (ds : list device) :
  dom (Inverter.svc (Inverter.run dec ds (Inverter.init ci)))
  = Observe.paths (Inverter._add_mandatory ci 30 ++ Inverter._add_values)
  /\ dom (Multiplus.svc (Multiplus.run dec ds (Multiplus.init cm)))
     = Observe.paths (Multiplus._add_mandatory cm 28 ++ Multiplus._add_values)
  /\ dom (Service._service
            (Service._pv (fst (Service._loop dec str ds (Service.init cs)))))
     = Observe.paths (Service._add_mandatory_paths cs Service.PRODUCT_NAME_PV 51
                      ++ Service.pv_value_paths)
  /\ dom (Service._service
            (Service._bat (fst (Service._loop dec str ds (Service.init cs)))))
     = Observe.paths (Service._add_mandatory_paths cs Service.PRODUCT_NAME_BAT 20
                      ++ Service.bat_value_paths).
Proof.
  split; [ | split].
  - generalize (set_values_two_dom (Inverter._add_mandatory ci 30) Inverter._add_values).
    change (set_values Inverter._add_values (set_values (Inverter._add_mandatory ci 30) ∅))
      with (Inverter.svc (Inverter.init ci)).
    generalize (Inverter.init ci).
    induction ds as [| d r IH]; intros s Hd; [exact Hd | ].
    cbn [Inverter.run]. pose proof (inverter_tick_dom dec ci d s Hd) as Hd'.
    unfold Inverter.tick in *.
    destruct (Inverter.collect_snapshot dec d); cbn [fst] in Hd'; now apply IH.
  - generalize (set_values_two_dom (Multiplus._add_mandatory cm 28) Multiplus._add_values).
    change (set_values Multiplus._add_values
              (set_values (Multiplus._add_mandatory cm 28) ∅))
      with (Multiplus.svc (Multiplus.init cm)).
    generalize (Multiplus.init cm).
    induction ds as [| d r IH]; intros s Hd; [exact Hd | ].
    cbn [Multiplus.run]. pose proof (multiplus_tick_dom dec cm d s Hd) as Hd'.
    unfold Multiplus.tick in *.
    destruct (Multiplus.collect_snapshot dec d); cbn [fst] in Hd'; now apply IH.
  - generalize (set_values_two_dom
                  (Service._add_mandatory_paths cs Service.PRODUCT_NAME_PV 51)
                  Service.pv_value_paths).
    generalize (set_values_two_dom
                  (Service._add_mandatory_paths cs Service.PRODUCT_NAME_BAT 20)
                  Service.bat_value_paths).
    change (set_values Service.pv_value_paths
              (set_values (Service._add_mandatory_paths cs Service.PRODUCT_NAME_PV 51) ∅))
      with (Service._service (Service._pv (Service.init cs))).
    change (set_values Service.bat_value_paths
              (set_values (Service._add_mandatory_paths cs Service.PRODUCT_NAME_BAT 20) ∅))
      with (Service._service (Service._bat (Service.init cs))).
    generalize (Service.init cs).
    induction ds as [| d r IH]; intros s Hb Hp; [split; assumption | ].
    cbn [Service._loop].
    destruct (service_loop_dom dec str cs d s Hp Hb) as (Hp' & Hb').
    unfold Service.loop_body in *.
    destruct (Service.collect_snapshot dec str d); cbn [fst] in Hp', Hb';
      now apply IH.
Qed.

(** ** service.py: the two update indexes *)

Lemma service_loop_indexes (dec : list Z -> string) (str : Z -> string)
    (ds : list device) (s : Service.state) (i : Z) :
  0 <= i < 256 ->
  Service._update_index (Service._pv s) = i ->
  Service._update_index (Service._bat s) = i ->
  Service._service (Service._pv s) !! "/UpdateIndex" = Some (VInt i) ->
  Service._service (Service._bat s) !! "/UpdateIndex" = Some (VInt i) ->
  let s' := fst (Service._loop dec str ds s) in
  let n := Z.of_nat (length (List.filter
                               (fun d => is_ok (Service.collect_snapshot dec str d)) ds)) in
  snd (Service._loop dec str ds s) = Ok tt
  /\ Service._update_index (Service._pv s') = (i + n) mod 256
  /\ Service._update_index (Service._bat s') = (i + n) mod 256
  /\ Service._service (Service._pv s') !! "/UpdateIndex" = Some (VInt ((i + n) mod 256))
  /\ Service._service (Service._bat s') !! "/UpdateIndex" = Some (VInt ((i + n) mod 256)).
Proof.
  revert s i. induction ds as [| d r IH]; intros s i Hi Hp Hb Pp Pb.
  - cbn. rewrite Z.add_0_r, Z.mod_small by lia. auto.
  - cbn [Service._loop List.filter]. unfold Service.loop_body.
    destruct (Service.collect_snapshot dec str d) as [snap | x]; cbn [is_ok length].
    + specialize (IH {| Service._pv := Service.publish (Service.pv_published snap) (Service._pv s);
                        Service._bat := Service.publish (Service.bat_published snap) (Service._bat s);
                        Service.log := Service.log s |} ((i + 1) mod 256)).
      cbn zeta in IH.
      destruct IH as (R & I1 & I2 & P1 & P2).
      * apply Z.mod_pos_bound. lia.
      * cbn. now rewrite Hp.
      * cbn. now rewrite Hb.
      * cbn. rewrite Hp. apply lookup_insert_eq.
      * cbn. rewrite Hb. apply lookup_insert_eq.
      * assert (E : forall k, ((i + 1) mod 256 + k) mod 256
                              = (i + Z.of_nat (S (Z.to_nat k))) mod 256
                              \/ k < 0).
        { intros k. destruct (Z.lt_ge_cases k 0); [now right | left].
          rewrite Zplus_mod_idemp_l. f_equal. lia. }
        rewrite I1, I2, P1, P2.
        match goal with
        | |- context [Z.of_nat (S ?len)] =>
            destruct (E (Z.of_nat len)) as [-> | Hneg]; [ | lia];
            rewrite Nat2Z.id
        end.
        auto.
    + specialize (IH {| Service._pv := Service.disconnect (Service._pv s);
                        Service._bat := Service.disconnect (Service._bat s);
                        Service.log := LogError "poll error: %s" :: Service.log s |} i).
      cbn zeta in IH. apply IH; try assumption.
      * cbn. now rewrite lookup_insert_ne.
      * cbn. now rewrite lookup_insert_ne.
Qed.

(** X18: In service.py the PV service and the battery service stay in step:
    from construction and over any run of loop turns, both update indexes
    equal the number of good polls modulo 256, both published /UpdateIndex
    values equal them, and no turn lets an exception out of the loop. *)
Theorem service_update_indexes_in_step (dec : list Z -> string)
    (str : Z -> string) (cs : Service.config) (ds : list device) :
  let s' := fst (Service._loop dec str ds (Service.init cs)) in
  let n := Z.of_nat (length (List.filter
                               (fun d => is_ok (Service.collect_snapshot dec str d)) ds)) in
  snd (Service._loop dec str ds (Service.init cs)) = Ok tt
  /\ Service._update_index (Service._pv s') = n mod 256
  /\ Service._update_index (Service._bat s') = n mod 256
  /\ Service._service (Service._pv s') !! "/UpdateIndex" = Some (VInt (n mod 256))
  /\ Service._service (Service._bat s') !! "/UpdateIndex" = Some (VInt (n mod 256)).
Proof.
  apply (service_loop_indexes dec str ds (Service.init cs) 0);
    [lia | reflexivity | reflexivity | | ];
    cbn [Service.init Service._pv Service._bat Service._service];
    rewrite !set_values_lookup; reflexivity.
Qed.

(** ** multiplus.py: the active input *)

(** X19: In a snapshot of multiplus.py the active input is 0 (AC in 1) or 240
    (disconnected); it is 0 exactly when the working mode is Mains, Bypass
    or Charging and the input voltage exceeds 30 V, and then the Mode is
    never Off and the State is Inverting (9). *)
Theorem multiplus_active_input_needs_mains (dec : list Z -> string) (d : device) :
  match Multiplus.collect_snapshot dec d with
  | Ok snap =>
      (Multiplus.ActiveInput snap = 240
       /\ ~ (In (default 0 (dev_register d 201 false)) [2; 4; 5]
             /\ (30 < Multiplus.In_V snap)%Q))
      \/ (Multiplus.ActiveInput snap = 0
          /\ In (default 0 (dev_register d 201 false)) [2; 4; 5]
          /\ (30 < Multiplus.In_V snap)%Q
          /\ Multiplus.ModeNum snap <> 4
          /\ Multiplus.StateNum snap = 9)
  | Raise _ => True
  end.
Proof.
  unfold Multiplus.collect_snapshot.
  reads_with ltac:(rewrite multiplus_derive_in_i); try exact I.
  all: cbn [Multiplus.ActiveInput Multiplus.In_V Multiplus.ModeNum
            Multiplus.StateNum default].
  all: match goal with
       | |- context [Qltb 30 ?v] => destruct (Qltb 30 v) eqn:Hv
       end.
  all: try (rewrite Bool.andb_false_r; left; split; [reflexivity | ];
            intros (_ & Hlt); apply Qltb_lt in Hlt;
            cbn [Multiplus.In_V] in Hlt; congruence).
  all: apply Qltb_lt in Hv;
    unfold Multiplus.vebus_mode_from_wm, Multiplus.vebus_state_from_wm;
    decide_wm z; cbn [In];
    first [ right; repeat split; first [ lia | exact Hv | discriminate ]
          | left; split; [reflexivity | intros (Hin & _); cbn [In] in Hin; lia] ].
Qed.

(** ** Picking a free bus name *)

Section BusNames.
Variable str_of_int : Z -> string.
Hypothesis str_of_int_inj : forall i j, str_of_int i = str_of_int j -> i = j.

Lemma candidate_inj (base : string) (i j : Z) :
  BusName.candidate str_of_int base i = BusName.candidate str_of_int base j -> i = j.
Proof.
  unfold BusName.candidate. intros H.
  apply String.app_inj in H. apply String.app_inj in H. now apply str_of_int_inj.
Qed.

Lemma pick_from_none (owned : gset string) (base : string) (turns : nat) (i : Z) :
  BusName.pick_from str_of_int owned base i turns = None ->
  forall k, (k < turns)%nat ->
    BusName.candidate str_of_int base (i + Z.of_nat k) ∈ owned.
Proof.
  revert i. induction turns as [| n IH]; intros i Hn k Hk; [lia | ].
  cbn [BusName.pick_from] in Hn.
  destruct (decide (BusName.candidate str_of_int base i ∈ owned)) as [Hin | Hout];
    [ | discriminate].
  destruct k as [| k].
  - now rewrite Z.add_0_r.
  - replace (i + Z.of_nat (S k)) with (i + 1 + Z.of_nat k) by lia.
    apply IH; [exact Hn | lia].
Qed.

Lemma pick_from_some (owned : gset string) (base : string) (turns : nat) (i : Z)
    (name : string) :
  BusName.pick_from str_of_int owned base i turns = Some name ->
  exists k, (k < turns)%nat
    /\ name = BusName.candidate str_of_int base (i + Z.of_nat k)
    /\ (name ∉ owned)
    /\ forall j, (j < k)%nat ->
         BusName.candidate str_of_int base (i + Z.of_nat j) ∈ owned.
Proof.
  revert i. induction turns as [| n IH]; intros i Hn; [discriminate | ].
  cbn [BusName.pick_from] in Hn.
  destruct (decide (BusName.candidate str_of_int base i ∈ owned)) as [Hin | Hout].
  - destruct (IH _ Hn) as (k & Hk & Hname & Hfree & Hbelow).
    exists (S k). split; [lia | ]. split.
    + rewrite Hname. f_equal. lia.
    + split; [exact Hfree | ]. intros [| j] Hj.
      * now rewrite Z.add_0_r.
      * replace (i + Z.of_nat (S j)) with (i + 1 + Z.of_nat j) by lia.
        apply Hbelow. lia.
  - injection Hn as <-. exists 0%nat. rewrite Z.add_0_r.
    split; [lia | ]. split; [reflexivity | ]. split; [exact Hout | ].
    intros j Hj. lia.
Qed.

Lemma pick_from_more (owned : gset string) (base : string) (turns more : nat)
    (i : Z) (name : string) :
  BusName.pick_from str_of_int owned base i turns = Some name ->
  BusName.pick_from str_of_int owned base i (turns + more) = Some name.
Proof.
  revert i. induction turns as [| n IH]; intros i Hn; [discriminate | ].
  cbn [BusName.pick_from Nat.add] in *.
  destruct (decide (BusName.candidate str_of_int base i ∈ owned)); [now apply IH | exact Hn].
Qed.

(** As many turns as there are owned names, and one more, always suffice. *)
Lemma pick_from_enough (owned : gset string) (base : string) (i : Z) :
  BusName.pick_from str_of_int owned base i (S (size owned)) <> None.
Proof.
  intros Hnone. pose proof (pick_from_none owned base _ i Hnone) as Hall.
  set (l := map (fun k => BusName.candidate str_of_int base (i + Z.of_nat k))
                (seq 0 (S (size owned)))).
  assert (Hnd : NoDup l).
  { apply NoDup_fmap_2.
    - intros a b Hab. apply candidate_inj in Hab. lia.
    - apply NoDup_ListNoDup, List.seq_NoDup. }
  assert (Hsub : list_to_set l ⊆ owned).
  { intros x Hx. apply elem_of_list_to_set in Hx.
    apply list_elem_of_fmap in Hx as (k & -> & Hk).
    apply list_elem_of_In, in_seq in Hk. apply Hall. lia. }
  apply subseteq_size in Hsub.
  rewrite size_list_to_set in Hsub by exact Hnd.
  unfold l in Hsub. rewrite length_map, length_seq in Hsub. lia.
Qed.

(** X20: [pick_free_service_name] ends, and on a name nobody owns: with one turn
    more than there are owned names it returns the base name itself when
    that is free, and otherwise base_i for the least i >= 1 whose name is
    free; more turns give the same name. *)
Theorem pick_free_service_name_finds_least_free (owned : gset string)
    (base : string) :
  exists name,
    BusName.pick_free_service_name str_of_int owned base (S (size owned)) = Some name
    /\ (name ∉ owned)
    /\ (base ∉ owned -> name = base)
    /\ (base ∈ owned ->
        exists i, 1 <= i
          /\ name = BusName.candidate str_of_int base i
          /\ forall j, 1 <= j < i -> BusName.candidate str_of_int base j ∈ owned)
    /\ (forall more,
          BusName.pick_free_service_name str_of_int owned base (S (size owned) + more)
          = Some name).
Proof.
  unfold BusName.pick_free_service_name.
  destruct (decide (base ∈ owned)) as [Hin | Hout].
  - destruct (BusName.pick_from str_of_int owned base 1 (S (size owned)))
      as [name | ] eqn:Hpick; [ | now apply pick_from_enough in Hpick].
    exists name. destruct (pick_from_some _ _ _ _ _ Hpick)
      as (k & Hk & Hname & Hfree & Hbelow).
    split; [reflexivity | ]. split; [exact Hfree | ].
    split; [intros Hno; contradiction | ]. split.
    + intros _. exists (1 + Z.of_nat k). split; [lia | ]. split; [exact Hname | ].
      intros j Hj. replace j with (1 + Z.of_nat (Z.to_nat (j - 1))) by lia.
      apply Hbelow. lia.
    + intros more. now apply pick_from_more.
  - exists base. split; [reflexivity | ]. split; [exact Hout | ].
    split; [reflexivity | ]. split; [intros Hin; contradiction | reflexivity].
Qed.
End BusNames.

(** Two services already on the bus: the third gets the suffix 2. *)
Lemma pick_free_service_name_witness :
  let base := "com.victronenergy.vebus.sumry_ttyUSB0" in
  let owned : gset string := {[ base; base +:+ "_1" ]} in
  (forall i j, Examples.decimal i = Examples.decimal j -> i = j)
  /\ exists name,
       BusName.pick_free_service_name Examples.decimal owned base (S (size owned))
       = Some name
       /\ name ∉ owned.
Proof.
  intros base owned.
  assert (Hinj : forall i j, Examples.decimal i = Examples.decimal j -> i = j).
  { intros i j H. exact (pretty_Z_inj i j H). }
  split; [exact Hinj | ].
  destruct (pick_free_service_name_finds_least_free Examples.decimal Hinj owned base)
    as (name & H1 & H2 & _).
  exists name. split; assumption.
Defined.

(** ** The serial-number block *)

Lemma rstrip_nul_Forall (P : Z -> Prop) (b : list Z) :
  Forall P b -> Forall P (rstrip_nul b).
Proof.
  intros H. destruct (rstrip_nul_decompose b) as ((k & Hk) & _).
  rewrite Hk in H. now apply Forall_app in H as (H & _).
Qed.

Lemma word_bytes_range (ws : list Z) :
  Forall (fun x => 0 <= x < 256)
    (flat_map (fun w => [Z.land (Z.shiftr w 8) 255; Z.land w 255]) ws).
Proof.
  induction ws as [| w r IH]; [constructor | ].
  cbn [flat_map app]. repeat constructor; try exact IH.
  all: change 255 with (Z.ones 8); rewrite Z.land_ones by lia;
    apply Z.mod_pos_bound; lia.
Qed.

(** X3: Whatever words the link answers, [read_ascii] hands its decoder only
    bytes within 0..255, two per word at most, with no NUL at the end; it
    fails only with the link's own error, and for more than 6 words it fails
    as soon as either of its two block reads does. *)
Theorem read_ascii_decodes_stripped_bytes (dec : list Z -> string) (d : device)
    (addr count : Z) :
  match read_ascii dec d addr count with
  | Ok s =>
      exists ws b,
        s = dec b
        /\ b = rstrip_nul (flat_map (fun w => [Z.land (Z.shiftr w 8) 255; Z.land w 255]) ws)
        /\ Forall (fun x => 0 <= x < 256) b
        /\ List.last b 1 <> 0
        /\ (length b <= 2 * length ws)%nat
        /\ (if 6 <? count
            then exists a c, dev_registers d addr 6 = Some a
                   /\ dev_registers d (addr + 6) (count - 6) = Some c
                   /\ ws = (a ++ c)%list
            else dev_registers d addr count = Some ws)
  | Raise e =>
      e = ModbusError
      /\ (if 6 <? count
          then dev_registers d addr 6 = None
               \/ dev_registers d (addr + 6) (count - 6) = None
          else dev_registers d addr count = None)
  end.
Proof.
  assert (Hb : forall ws,
             let b := rstrip_nul (flat_map (fun w => [Z.land (Z.shiftr w 8) 255;
                                                      Z.land w 255]) ws) in
             Forall (fun x => 0 <= x < 256) b /\ List.last b 1 <> 0
             /\ (length b <= 2 * length ws)%nat).
  { intros ws b. split; [apply rstrip_nul_Forall, word_bytes_range | ].
    split; [apply rstrip_nul_decompose | ].
    unfold b. destruct (rstrip_nul_decompose
                          (flat_map (fun w => [Z.land (Z.shiftr w 8) 255; Z.land w 255]) ws))
      as ((k & Hk) & _).
    apply (f_equal (@length Z)) in Hk. rewrite length_app in Hk.
    assert (Hl : length (flat_map (fun w => [Z.land (Z.shiftr w 8) 255; Z.land w 255]) ws)
                 = (2 * length ws)%nat).
    { clear. induction ws as [| w r IH]; [reflexivity | ].
      cbn [flat_map app length]. rewrite IH. lia. }
    lia. }
  unfold read_ascii, read_registers. destruct (6 <? count).
  - destruct (dev_registers d addr 6) as [a | ]; cbn [bind];
      [ | split; [reflexivity | now left]].
    destruct (dev_registers d (addr + 6) (count - 6)) as [c | ]; cbn [bind];
      [ | split; [reflexivity | now right]].
    exists (a ++ c)%list, (rstrip_nul (flat_map (fun w => [Z.land (Z.shiftr w 8) 255;
                                                        Z.land w 255]) (a ++ c)%list)).
    destruct (Hb (a ++ c)%list) as (H1 & H2 & H3).
    repeat split; try assumption. exists a, c. repeat split.
  - destruct (dev_registers d addr count) as [ws | ]; cbn [bind];
      [ | split; reflexivity].
    exists ws, (rstrip_nul (flat_map (fun w => [Z.land (Z.shiftr w 8) 255;
                                                Z.land w 255]) ws)).
    destruct (Hb ws) as (H1 & H2 & H3). repeat split; assumption.
Qed.

(** ** A failed save is tried again *)

(** X21: A write that fails does not start a new throttle interval: whatever
    the failed write left, the next call whose clock is not earlier writes
    the counters as they are in memory and only then sets the save time. *)
Theorem failed_save_is_retried_at_next_call (now later : Q) (after : file)
    (s : Emulator.state) :
  Qltb (now - Emulator._last_energy_save s) Emulator.ENERGY_SAVE_SEC = false ->
  (now <= later)%Q ->
  let failed := fst (Emulator._save_energy now (WriteFails after) s) in
  let retried := fst (Emulator._save_energy later WriteOk failed) in
  Emulator.energy_file failed = after
  /\ Emulator._last_energy_save failed = Emulator._last_energy_save s
  /\ Emulator.energy_file retried = Content (Emulator.dump_energy (Emulator._energy s))
  /\ Emulator._last_energy_save retried = later
  /\ Emulator._energy retried = Emulator._energy s.
Proof.
  intros Hdue Hle. cbn zeta.
  assert (Hf : fst (Emulator._save_energy now (WriteFails after) s)
               = Emulator.add_log (LogError "Failed to save energy file: %s")
                   (Emulator.set_file after s)).
  { unfold Emulator._save_energy. now rewrite Hdue. }
  rewrite Hf.
  assert (Hdue' : Qltb (later - Emulator._last_energy_save s)
                    Emulator.ENERGY_SAVE_SEC = false).
  { apply Bool.not_true_is_false. intros H. apply Qltb_lt in H.
    apply Bool.not_true_iff_false in Hdue. apply Hdue. apply Qltb_lt.
    apply Qle_lt_trans with (later - Emulator._last_energy_save s)%Q; [ | exact H].
    unfold Qminus. apply Qplus_le_compat; [exact Hle | apply Qle_refl]. }
  unfold Emulator._save_energy.
  cbn [Emulator._last_energy_save Emulator.add_log Emulator.set_file].
  rewrite Hdue'. repeat split.
Qed.

(** A write fails at clock 100 and is tried again two seconds later. *)
Lemma failed_save_is_retried_witness :
  let s := Emulator.set_energy Examples.some_energy (Emulator.boot Missing) in
  (Qltb (100 - Emulator._last_energy_save s) Emulator.ENERGY_SAVE_SEC = false
   /\ (100 <= 102)%Q)
  /\ Emulator.energy_file
       (fst (Emulator._save_energy 102 WriteOk
               (fst (Emulator._save_energy 100 (WriteFails Garbled) s))))
     = Content (Emulator.dump_energy Examples.some_energy).
Proof.
  intros s. split; [split; [reflexivity | discriminate] | ].
  destruct (failed_save_is_retried_at_next_call 100 102 Garbled s eq_refl)
    as (_ & _ & H & _); [discriminate | exact H].
Defined.
